(** * Verification of the conversion and fetch layer of the C extension
      of MySQL Connector/Python ([src/mysql_capi_conversion.c],
      [src/mysql_capi.c], [src/exceptions.c]).

    C strings are modelled as [list ascii] (no NUL inside); a pointer into
    a buffer is modelled by the suffix of the buffer it points to. *)

From Stdlib Require Import ZArith List Ascii String Bool Lia.
Import ListNotations.
Open Scope Z_scope.

Definition cstr := list ascii.

(** ** Character classes of the C locale ([ctype.h]) *)

Definition isdigit (c : ascii) : bool :=
  let n := nat_of_ascii c in (48 <=? n)%nat && (n <=? 57)%nat.

Definition isspace (c : ascii) : bool :=
  let n := nat_of_ascii c in
  ((9 <=? n)%nat && (n <=? 13)%nat) || (n =? 32)%nat.

Definition digit_val (c : ascii) : Z := Z.of_nat (nat_of_ascii c) - 48.

Definition NUL : ascii := Ascii.zero.

(** [*p] on a buffer: reading past the string yields the terminating NUL. *)
Definition deref (p : cstr) : ascii :=
  match p with c :: _ => c | [] => NUL end.

Definition cstr_of (s : string) : cstr := list_ascii_of_string s.

(** ** glibc [sscanf] with a [%d] directive *)

(** Greedy digit accumulation (the digit loop of [strtol]). *)
Fixpoint scan_digits (s : cstr) (acc : Z) : Z * cstr :=
  match s with
  | c :: t => if isdigit c then scan_digits t (acc * 10 + digit_val c) else (acc, s)
  | [] => (acc, [])
  end.

Fixpoint skip_space (s : cstr) : cstr :=
  match s with
  | c :: t => if isspace c then skip_space t else s
  | [] => []
  end.

(** [strtol] saturates at the bounds of a 64-bit [long]; glibc's scanf
    then stores the [long] into the [int] target, keeping the low 32 bits. *)
Definition strtol_clamp (v : Z) : Z := Z.max (- 2 ^ 63) (Z.min (2 ^ 63 - 1) v).

Definition wrap32 (v : Z) : Z :=
  let u := v mod 2 ^ 32 in if 2 ^ 31 <=? u then u - 2 ^ 32 else u.

Definition c_int_of (v : Z) : Z := wrap32 (strtol_clamp v).

(** Optional sign in front of the digits of a [%d] conversion. *)
Definition scan_sign (s : cstr) : bool * cstr :=
  match s with
  | c :: t =>
      if Ascii.eqb c "-" then (true, t)
      else if Ascii.eqb c "+" then (false, t) else (false, s)
  | [] => (false, [])
  end.

(** One [%d] conversion: white space, optional sign, at least one digit. *)
Definition scan_int (s : cstr) : option (Z * cstr) :=
  let '(neg, s2) := scan_sign (skip_space s) in
  match s2 with
  | c :: _ =>
      if isdigit c then
        let '(n, rest) := scan_digits s2 0 in
        Some (c_int_of (if neg then - n else n), rest)
      else None
  | [] => None
  end.

(** A literal directive of the format: the next character must be [c]. *)
Definition match_char (c : ascii) (s : cstr) : option cstr :=
  match s with
  | c' :: t => if Ascii.eqb c' c then Some t else None
  | [] => None
  end.

(** [sscanf(data, "%d-%d-%d", &year, &month, &day)]: the number of
    conversions (EOF = -1 when the input ends before the first one) and
    the three targets, which keep their initial value 0 when not assigned. *)
Definition sscanf_date (s : cstr) : Z * (Z * Z * Z) :=
  match scan_int s with
  | None => (match skip_space s with [] => -1 | _ => 0 end, (0, 0, 0))
  | Some (y, r1) =>
      match match_char "-" r1 with
      | None => (1, (y, 0, 0))
      | Some r1' =>
          match scan_int r1' with
          | None => (1, (y, 0, 0))
          | Some (m, r2) =>
              match match_char "-" r2 with
              | None => (2, (y, m, 0))
              | Some r2' =>
                  match scan_int r2' with
                  | None => (2, (y, m, 0))
                  | Some (d, _) => (3, (y, m, d))
                  end
              end
          end
      end
  end.

(** ** Calendar helpers of [mysql_capi_conversion.c] *)

Definition MINYEAR := 1.
Definition MAXYEAR := 9999.

Definition leap_year (year : Z) : bool :=
  (year mod 4 =? 0) && (negb (year mod 100 =? 0) || (year mod 400 =? 0)).

Definition days_table : list Z := [0; 31; 28; 31; 30; 31; 30; 31; 31; 30; 31; 30; 31].

Definition nr_days_month (year month : Z) : Z :=
  if (month =? 2) && leap_year year then 29
  else nth (Z.to_nat month) days_table 0.

Definition is_valid_date (year month day : Z) : bool :=
  negb (((year <? MINYEAR) || (year >? MAXYEAR))
        || ((month <? 1) || (month >? 12))
        || ((day <? 1) || (day >? nr_days_month year month))).

Definition is_valid_time (hours mins secs usecs : Z) : bool :=
  negb (((hours <? 0) || (hours >? 23))
        || ((mins <? 0) || (mins >? 59))
        || ((secs <? 0) || (secs >? 59))
        || ((usecs <? 0) || (usecs >? 999999))).

(** ** [mytopy_date] *)

Inductive date_result :=
| PyDate (year month day : Z)
| DateNone                    (** [Py_RETURN_NONE]: parsed but invalid *)
| DateValueError.             (** [ValueError]: not of the form [%d-%d-%d] *)

Definition mytopy_date (data : cstr) : date_result :=
  let '(n, (year, month, day)) := sscanf_date data in
  if n =? 3 then
    if is_valid_date year month day then PyDate year month day else DateNone
  else DateValueError.

(** Spec side: the grammar ["%d-%d-%d"] as a relation on texts and the
    values it denotes, and the Gregorian validity of a date. *)

Definition digits_value (ds : cstr) : Z :=
  fold_left (fun a c => a * 10 + digit_val c) ds 0.

Definition int_token (p : cstr) (v : Z) : Prop :=
  exists ws sg ds,
    p = ws ++ sg ++ ds /\ Forall (fun c => isspace c = true) ws /\
    ((sg = [] /\ v = c_int_of (digits_value ds)) \/
     (sg = ["+"%char] /\ v = c_int_of (digits_value ds)) \/
     (sg = ["-"%char] /\ v = c_int_of (- digits_value ds))) /\
    ds <> [] /\ Forall (fun c => isdigit c = true) ds.

Definition no_digit_ahead (rest : cstr) : Prop :=
  forall c t, rest = c :: t -> isdigit c = false.

Definition date_grammar (s : cstr) (y m d : Z) : Prop :=
  exists p1 p2 p3 rest,
    s = p1 ++ "-"%char :: p2 ++ "-"%char :: p3 ++ rest /\
    int_token p1 y /\ int_token p2 m /\ int_token p3 d /\ no_digit_ahead rest.

Definition gregorian_days (y m : Z) : Z :=
  if m =? 2 then
    (if (y mod 4 =? 0) && (negb (y mod 100 =? 0) || (y mod 400 =? 0)) then 29 else 28)
  else if (m =? 4) || (m =? 6) || (m =? 9) || (m =? 11) then 30
  else 31.

Definition gregorian_valid (y m d : Z) : bool :=
  (1 <=? y) && (y <=? 9999) && (1 <=? m) && (m <=? 12) &&
  (1 <=? d) && (d <=? gregorian_days y m).

Example mytopy_date_ok : mytopy_date (cstr_of "2024-02-29") = PyDate 2024 2 29.
Proof. reflexivity. Qed.
Example mytopy_date_feb29 : mytopy_date (cstr_of "2023-02-29") = DateNone.
Proof. reflexivity. Qed.
Example mytopy_date_bad : mytopy_date (cstr_of "2023/02/01") = DateValueError.
Proof. reflexivity. Qed.

(** ** Digit scanners of [mytopy_datetime] and [mytopy_time]

    The pointer [data] is the suffix [p] of the buffer; [avail] is
    [end - data].  Reading at or past [end] reads the rest of the buffer
    (the terminating NUL for a C string). *)

(** [for (value= 0; data != end && isdigit( *data) ; data++)
       value= (value * 10) + ( *data - '0');] *)
Fixpoint digit_loop (p : cstr) (avail value : Z) : cstr * Z * Z :=
  match p with
  | c :: t =>
      if negb (avail =? 0) && isdigit c
      then digit_loop t (avail - 1) (value * 10 + digit_val c)
      else (p, avail, value)
  | [] => ([], avail, value)
  end.

(** [while (data++ != end && isdigit( *data))
       if (field_length-- > 0) value= (value * 10) + ( *data - '0');] *)
Fixpoint frac_loop (p : cstr) (avail field_length value : Z) : Z * Z :=
  match p with
  | _ :: t =>
      if negb (avail =? 0) && isdigit (deref t) then
        if field_length >? 0
        then frac_loop t (avail - 1) (field_length - 1) (value * 10 + digit_val (deref t))
        else frac_loop t (avail - 1) (field_length - 1) value
      else (value, field_length)
  | [] => (value, field_length)
  end.

(** [parts[i]= v] on an [int parts[n]]; a store past the array is
    undefined behaviour in C and is modelled as having no effect. *)
Fixpoint set_part (parts : list Z) (i : nat) (v : Z) : list Z :=
  match parts, i with
  | [], _ => []
  | _ :: t, O => v :: t
  | x :: t, S i' => x :: set_part t i' v
  end.

Definition part (parts : list Z) (i : nat) : Z := nth i parts 0.

Definition is_dt_sep (c : ascii) : bool :=
  Ascii.eqb c "-" || Ascii.eqb c ":" || Ascii.eqb c " ".

(** The group loop of [mytopy_datetime]; it stops at the latest when
    [part == 8], so 8 rounds of fuel suffice. *)
Fixpoint dt_groups (fuel : nat) (part : nat) (parts : list Z) (p : cstr) (avail : Z)
  : list Z * cstr * Z :=
  let '(p', avail', value) := digit_loop p avail 0 in
  let parts' := set_part parts part value in
  let part' := S part in
  if (part' =? 8)%nat || (avail' <? 2) || negb (is_dt_sep (deref p'))
     || negb (isdigit (deref (tl p')))
  then (parts', p', avail')
  else match fuel with
       | O => (parts', p', avail')
       | S f => dt_groups f part' parts' (tl p') (avail' - 1)
       end.

(** The parsing half of [mytopy_datetime]: the seven parts
    (year, month, day, hours, minutes, seconds, microseconds). *)
Definition dt_parse (data : cstr) (length : Z) : list Z :=
  let '(parts, p, avail) := dt_groups 8 0 [0; 0; 0; 0; 0; 0; 0] data length in
  if negb (avail =? 0) && (avail >=? 2) && Ascii.eqb (deref p) "." then
    (* Fractional part *)
    let field_length := 6 in
    let p1 := tl p in
    let '(value, _) := frac_loop p1 (avail - 1) field_length (digit_val (deref p1)) in
    set_part parts 6 value
  else parts.

Inductive datetime_result :=
| PyDateTime (year month day hours mins secs usecs : Z)
| DateTimeNone.

Definition mytopy_datetime (data : cstr) (length : Z) : datetime_result :=
  let parts := dt_parse data length in
  let year := part parts 0 in let month := part parts 1 in let day := part parts 2 in
  let hours := part parts 3 in let mins := part parts 4 in let secs := part parts 5 in
  let usecs := part parts 6 in
  if negb (is_valid_date year month day) then DateTimeNone
  else if negb (is_valid_time hours mins secs usecs) then DateTimeNone
  else PyDateTime year month day hours mins secs usecs.

(** The group loop of [mytopy_time], stopping at [part == 4]. *)
Fixpoint time_groups (fuel : nat) (part : nat) (parts : list Z) (p : cstr) (avail : Z)
  : list Z * cstr * Z :=
  let '(p', avail', value) := digit_loop p avail 0 in
  let parts' := set_part parts part value in
  let part' := S part in
  if (part' =? 4)%nat || (avail' <? 2) || negb (Ascii.eqb (deref p') ":")
     || negb (isdigit (deref (tl p')))
  then (parts', p', avail')
  else match fuel with
       | O => (parts', p', avail')
       | S f => time_groups f part' parts' (tl p') (avail' - 1)
       end.

(** [if (field_length >= 0) while (field_length-- > 0) value*= 10;] *)
Definition pad_fraction (field_length value : Z) : Z :=
  if field_length >=? 0 then Nat.iter (Z.to_nat field_length) (fun v => v * 10) value
  else value.

(** [negative] flag and the four parts (hours, minutes, seconds,
    microseconds) read by [mytopy_time]. *)
Definition time_parse (data : cstr) (length : Z) : bool * list Z :=
  let '(negative, p0, left0) :=
    if Ascii.eqb (deref data) "-" then (true, tl data, length - 1)
    else (false, data, length) in
  let '(parts, p, avail) := time_groups 4 0 [0; 0; 0; 0] p0 left0 in
  if negb (avail =? 0) && (avail >=? 2) && Ascii.eqb (deref p) "." then
    let p1 := tl p in
    let '(value, field_length) := frac_loop p1 (avail - 1) 5 (digit_val (deref p1)) in
    (negative, set_part parts 3 (pad_fraction field_length value))
  else (negative, parts).

(** [PyDelta_FromDSU(days, seconds, usec)]: CPython normalises with floor
    division so that [0 <= seconds < 86400] and [0 <= usec < 10^6], and
    raises [OverflowError] when [|days| > 999999999]. *)
Inductive delta_result :=
| PyDelta (days seconds usecs : Z)
| DeltaOverflow.

Definition delta_from_dsu (d s us : Z) : delta_result :=
  let '(s1, us1) :=
    if (us <? 0) || (us >=? 1000000) then (s + us / 1000000, us mod 1000000)
    else (s, us) in
  let '(d1, s2) :=
    if (s1 <? 0) || (s1 >=? 86400) then (d + s1 / 86400, s1 mod 86400)
    else (d, s1) in
  if Z.abs d1 >? 999999999 then DeltaOverflow else PyDelta d1 s2 us1.

(** [mytopy_time]; its [int] arithmetic is computed in [Z], which is the
    C result as long as no value leaves the [int] range (past it the C has
    signed overflow). *)
Definition mytopy_time (data : cstr) (length : Z) : delta_result :=
  let '(negative, parts) := time_parse data length in
  let hr := part parts 0 in let min := part parts 1 in
  let sec := part parts 2 in let usec := part parts 3 in
  let '(hr, min, sec, usec) :=
    if negative then (hr * -1, min * -1, sec * -1, usec * -1)
    else (hr, min, sec, usec) in
  let days := Z.quot hr 24 in
  let hours := Z.rem hr 24 in
  let seconds := hours * 3600 + min * 60 + sec in
  delta_from_dsu days seconds usec.

Definition zlen (s : cstr) : Z := Z.of_nat (List.length s).

Example mytopy_datetime_ex1 :
  mytopy_datetime (cstr_of "2023-05-01 10:30:00") 19 = PyDateTime 2023 5 1 10 30 0 0.
Proof. reflexivity. Qed.
Example mytopy_datetime_ex2 :
  mytopy_datetime (cstr_of "2023-05-01 10:30:00.123456") 26
  = PyDateTime 2023 5 1 10 30 0 123456.
Proof. reflexivity. Qed.
Example mytopy_time_ex1 :
  mytopy_time (cstr_of "-25:30:00.5") 11 = PyDelta (-2) 80999 500000.
Proof. reflexivity. Qed.
Example mytopy_time_ex2 :
  mytopy_time (cstr_of "838:59:59") 9 = PyDelta 34 82799 0.
Proof. reflexivity. Qed.

(** Spec side: a TIME text ["[-]HH:MM:SS[.ffffff]"] built from its digit
    groups, and the microseconds its optional fraction denotes. *)
Definition time_text (negative : bool) (dh dm ds : cstr) (frac : option cstr) : cstr :=
  (if negative then ["-"%char] else []) ++ dh ++ ":"%char :: dm ++ ":"%char :: ds ++
  match frac with None => [] | Some df => "."%char :: df end.

Definition frac_usecs (frac : option cstr) : Z :=
  match frac with
  | None => 0
  | Some df => digits_value df * 10 ^ (6 - zlen df)
  end.

Definition all_digits (ds : cstr) : Prop :=
  ds <> [] /\ Forall (fun c => isdigit c = true) ds.

Definition frac_ok (frac : option cstr) : Prop :=
  frac = None \/ exists df, frac = Some df /\ all_digits df /\ zlen df <= 6.

(** ** String/bytes codec *)

(** The host runtime's [PyUnicode_Decode(data, length, charset, NULL)]:
    decoded text (as a list of characters) or a decode error. *)
Class CharsetDecoder := py_decode : string -> cstr -> option cstr.

Definition BINARY_FLAG : Z := 128.

Inductive str_result :=
| StrUnicode (t : cstr)        (** [PyUnicode_Decode] succeeded *)
| StrBytes (b : cstr)          (** [PyBytes_FromStringAndSize(data, length)] *)
| StrDecodeError               (** [PyUnicode_Decode] failed *)
| StrNullNoException.          (** [return NULL] after the debug [printf] *)

(** [mytopy_string] of [mysql_capi_conversion.c]; a NULL pointer is [None]. *)
Definition mytopy_string `{CharsetDecoder} (data : option cstr) (length : nat)
    (flags : Z) (charset : option string) (use_unicode : Z) : str_result :=
  match charset, data with
  | Some cs, Some d =>
      if (Z.land flags BINARY_FLAG =? 0) && negb (use_unicode =? 0)
         && negb (String.eqb cs "binary")
      then match py_decode cs (firstn length d) with
           | Some t => StrUnicode t
           | None => StrDecodeError
           end
      else StrBytes (firstn length d)
  | _, _ => StrNullNoException
  end.

(** [python_characterset_name] of [mysql_capi.c]. *)
Definition python_characterset_name (mysql_name : option string) : string :=
  match mysql_name with
  | None => "latin1"
  | Some n =>
      if xorb (String.eqb n "utf8mb4") (String.eqb n "utf8mb3") then "utf8" else n
  end.

(** ** Error raisers of [exceptions.c] *)

Inductive exc_class := MySQLInterfaceError | MySQLError | OtherExc (name : string).

Inductive raised :=
| RaisedWith (cls : exc_class) (msg : string) (errno : Z) (sqlstate : string)
    (** [err_object] with its [msg], [errno] and [sqlstate] attributes *)
| RaisedRuntimeError (msg : string).  (** the [ERR:] path *)

Record mysql_session := {
  sess_errno : Z; sess_error : string; sess_sqlstate : string }.

Record mysql_stmt := {
  stmt_errno : Z; stmt_error : string; stmt_sqlstate : string }.

(** [ctor_ok] tells whether [PyObject_CallFunctionObjArgs(exc_type, ...)]
    produced the exception object. *)
Definition raise_with_session (conn : mysql_session) (exc_type : option exc_class)
    (ctor_ok : bool) : raised :=
  let exc_type := match exc_type with Some e => e | None => MySQLInterfaceError end in
  let err := sess_errno conn in
  let '(error_msg, error_no, sqlstate) :=
    if err =? 0 then ("MySQL server has gone away"%string, 2006, "HY000"%string)
    else (sess_error conn, err, sess_sqlstate conn) in
  if ctor_ok then RaisedWith exc_type error_msg error_no sqlstate
  else RaisedRuntimeError "Failed raising error.".

Definition raise_with_stmt (stmt : mysql_stmt) (exc_type : option exc_class)
    (ctor_ok : bool) : raised :=
  let exc_type := match exc_type with Some e => e | None => MySQLInterfaceError end in
  let err := stmt_errno stmt in
  let '(error_msg, error_no, sqlstate) :=
    if err =? 0 then ("MySQL server has gone away"%string, 2006, "HY000"%string)
    else (stmt_error stmt, err, stmt_sqlstate stmt) in
  if ctor_ok then RaisedWith exc_type error_msg error_no sqlstate
  else RaisedRuntimeError "Failed raising error.".

(** [raise_with_string]: [sqlstate] is [None] (modelled as the empty
    string) and [errno] is -1. *)
Definition raise_with_string (error_msg : string) (exc_type : option exc_class)
    (ctor_ok : bool) : raised :=
  let exc_type := match exc_type with Some e => e | None => MySQLInterfaceError end in
  if ctor_ok then RaisedWith exc_type error_msg (-1) ""
  else RaisedRuntimeError "Failed raising error.".

(** Spec side (C10): the raised exception carries a non-zero [errno] and
    non-empty [msg] and [sqlstate] attributes. *)
Definition carries_error_attributes (r : raised) : Prop :=
  match r with
  | RaisedWith _ msg errno sqlstate => msg <> ""%string /\ errno <> 0 /\ sqlstate <> ""%string
  | RaisedRuntimeError _ => False
  end.

(** ** Column metadata and host values *)

Inductive enum_field_types :=
| MYSQL_TYPE_DECIMAL | MYSQL_TYPE_TINY | MYSQL_TYPE_SHORT | MYSQL_TYPE_LONG
| MYSQL_TYPE_FLOAT | MYSQL_TYPE_DOUBLE | MYSQL_TYPE_NULL | MYSQL_TYPE_TIMESTAMP
| MYSQL_TYPE_LONGLONG | MYSQL_TYPE_INT24 | MYSQL_TYPE_DATE | MYSQL_TYPE_TIME
| MYSQL_TYPE_DATETIME | MYSQL_TYPE_YEAR | MYSQL_TYPE_NEWDATE | MYSQL_TYPE_VARCHAR
| MYSQL_TYPE_BIT | MYSQL_TYPE_JSON | MYSQL_TYPE_NEWDECIMAL | MYSQL_TYPE_ENUM
| MYSQL_TYPE_SET | MYSQL_TYPE_TINY_BLOB | MYSQL_TYPE_MEDIUM_BLOB | MYSQL_TYPE_LONG_BLOB
| MYSQL_TYPE_BLOB | MYSQL_TYPE_VAR_STRING | MYSQL_TYPE_STRING | MYSQL_TYPE_GEOMETRY.

Definition BLOB_FLAG : Z := 16.
Definition SET_FLAG : Z := 2048.
Definition ZEROFILL_FLAG : Z := 64.

Definition has_flag (flags flag : Z) : bool := negb (Z.land flags flag =? 0).

(** [MYSQL_FIELD]: the native column metadata. *)
Record mysql_field := {
  f_catalog : cstr; f_db : cstr; f_table : cstr; f_org_table : cstr;
  f_name : cstr; f_org_name : cstr;
  f_charsetnr : Z; f_max_length : Z; f_type : enum_field_types;
  f_flags : Z; f_decimals : Z }.

(** Host (Python) values produced by the fetch paths. *)
Inductive pyval :=
| PyNone
| PyInt (z : Z)
| PyFloat (repr : cstr)
| PyDecimal (repr : cstr)
| PyDateV (year month day : Z)
| PyDateTimeV (year month day hours mins secs usecs : Z)
| PyDeltaV (days secs usecs : Z)
| PyStr (t : cstr)
| PyBytes (b : cstr)
| PyByteArray (b : cstr)
| PySet (elems : list cstr).

(** The codecs' results as a (possibly NULL) Python object. *)
Definition of_date (r : date_result) : option pyval :=
  match r with
  | PyDate y m d => Some (PyDateV y m d)
  | DateNone => Some PyNone
  | DateValueError => None
  end.

Definition of_datetime (r : datetime_result) : option pyval :=
  match r with
  | PyDateTime y mo d h mi s us => Some (PyDateTimeV y mo d h mi s us)
  | DateTimeNone => Some PyNone
  end.

Definition of_delta (r : delta_result) : option pyval :=
  match r with
  | PyDelta d s us => Some (PyDeltaV d s us)
  | DeltaOverflow => None
  end.

(** [mytopy_bit]: big-endian accumulation into an [unsigned long long]. *)
Definition mytopy_bit (data : cstr) (length : Z) : Z :=
  fold_left (fun v c => Z.lor (Z.shiftl v 8) (Z.of_nat (nat_of_ascii c)) mod 2 ^ 64)
    (firstn (Z.to_nat length) data) 0.

(** ** Binary/prepared protocol: [MySQLPrepStmt_handle_result] and
    [MySQLPrepStmt_fetch_row] *)






(** Per-column state after [mysql_stmt_fetch]: [is_null], the length the
    server recorded, the column bytes a [mysql_stmt_fetch_column] delivers,
    the inline numeric buffer and the [is_error] flag after that call. *)
Record col_state := {
  cs_is_null : bool; cs_length : Z; cs_data : cstr;
  cs_small_int : Z; cs_small_float : cstr; cs_fetch_error : bool }.

Definition MYSQL_NO_DATA : Z := 100.

(** Observable actions on the statement, in order. *)
Inductive stmt_event :=
| EvUnbind (i : nat)               (** [bind[i].buffer= NULL; buffer_length= 0] *)
| EvFetch                          (** [mysql_stmt_fetch] *)
| EvBindBuffer (i : nat) (len : Z) (** exactly-sized buffer bound to column [i] *)
| EvFetchColumn (i : nat).         (** [mysql_stmt_fetch_column(stmt, &bind[i], i, 0)] *)

(** The outcome of [MySQLPrepStmt_fetch_row]: the row tuple (an item
    [None] is a NULL left in it with its exception set), [None], NULL with
    an exception set, or a crash (undefined behaviour). *)
Inductive prep_result :=
| PrepRow (cells : list (option pyval))
| PrepNone
| PrepError
| PrepCrash.

(** The first [switch] of [MySQLPrepStmt_fetch_row]: types kept bound. *)
Definition keeps_inline_buffer (t : enum_field_types) : bool :=
  match t with
  | MYSQL_TYPE_NULL | MYSQL_TYPE_TINY | MYSQL_TYPE_SHORT | MYSQL_TYPE_INT24
  | MYSQL_TYPE_LONG | MYSQL_TYPE_LONGLONG | MYSQL_TYPE_YEAR
  | MYSQL_TYPE_FLOAT | MYSQL_TYPE_DOUBLE => true
  | _ => false
  end.

Fixpoint unbind_events (i : nat) (fields : list mysql_field) : list stmt_event :=
  match fields with
  | [] => []
  | f :: fs =>
      (if keeps_inline_buffer (f_type f) then [] else [EvUnbind i])
      ++ unbind_events (S i) fs
  end.

(** [PyBytes_FromString(s)] and [%s] on a NUL-terminated buffer: the
    characters before the first NUL. *)
Fixpoint upto_nul (s : cstr) : cstr :=
  match s with
  | [] => []
  | c :: t => if Ascii.eqb c NUL then [] else c :: upto_nul t
  end.

Fixpoint cstr_eqb (a b : cstr) : bool :=
  match a, b with
  | [], [] => true
  | x :: a', y :: b' => Ascii.eqb x y && cstr_eqb a' b'
  | _, _ => false
  end.

(** The elements a Python set built from [l] holds, first occurrences kept. *)
Fixpoint set_of_acc (seen l : list cstr) : list cstr :=
  match l with
  | [] => []
  | x :: t =>
      if existsb (cstr_eqb x) seen then set_of_acc seen t
      else x :: set_of_acc (x :: seen) t
  end.

Definition set_of (l : list cstr) : list cstr := set_of_acc [] l.

(** CPython's strict UTF-8 decoder: for a lead byte, the range of the
    next byte and how many further continuation bytes follow. *)
Definition utf8_lead (n : nat) : option (nat * nat * nat) :=
  if (194 <=? n)%nat && (n <=? 223)%nat then Some (128, 191, 0)%nat
  else if (n =? 224)%nat then Some (160, 191, 1)%nat
  else if (225 <=? n)%nat && (n <=? 236)%nat then Some (128, 191, 1)%nat
  else if (n =? 237)%nat then Some (128, 159, 1)%nat
  else if (238 <=? n)%nat && (n <=? 239)%nat then Some (128, 191, 1)%nat
  else if (n =? 240)%nat then Some (144, 191, 2)%nat
  else if (241 <=? n)%nat && (n <=? 243)%nat then Some (128, 191, 2)%nat
  else if (n =? 244)%nat then Some (128, 143, 2)%nat
  else None.

Definition byte_in (lo hi : nat) (c : ascii) : bool :=
  (lo <=? nat_of_ascii c)%nat && (nat_of_ascii c <=? hi)%nat.

(** Whether a byte string is well-formed UTF-8 (no overlong forms, no
    surrogates, nothing past U+10FFFF). *)
Fixpoint utf8_valid (s : cstr) : bool :=
  match s with
  | [] => true
  | c :: t =>
      if (nat_of_ascii c <? 128)%nat then utf8_valid t
      else match utf8_lead (nat_of_ascii c), t with
           | Some (lo, hi, k), c1 :: t1 =>
               byte_in lo hi c1 &&
               match k, t1 with
               | O, _ => utf8_valid t1
               | 1%nat, c2 :: t2 => byte_in 128 191 c2 && utf8_valid t2
               | 2%nat, c2 :: c3 :: t3 =>
                   byte_in 128 191 c2 && byte_in 128 191 c3 && utf8_valid t3
               | _, _ => false
               end
           | _, _ => false
           end
  end.

(** [PyUnicode_FromString(s)]: the UTF-8 decoding of the bytes before the
    first NUL, or NULL with a [UnicodeDecodeError] set. A [str] built by
    these calls is represented by its UTF-8 bytes. *)
Definition PyUnicode_FromString (s : cstr) : option cstr :=
  let b := upto_nul s in if utf8_valid b then Some b else None.

(** [PyUnicode_FromStringAndSize(s, n)]: the UTF-8 decoding of the first
    [n] bytes, NUL bytes included. *)
Definition PyUnicode_FromStringAndSize (s : cstr) (n : nat) : option cstr :=
  let b := firstn n s in if utf8_valid b then Some b else None.

(** [strtok_r(buf, ",", &rest)] loop: the non-empty ','-separated tokens. *)
Fixpoint strtok_comma (s : cstr) (cur : cstr) : list cstr :=
  match s with
  | [] => match cur with [] => [] | _ => [rev cur] end
  | c :: t =>
      if Ascii.eqb c "," then
        match cur with [] => strtok_comma t [] | _ => rev cur :: strtok_comma t [] end
      else strtok_comma t (c :: cur)
  end.

(** The SET loop: [PySet_Add(set, PyUnicode_FromString(token))] for each
    token; a token that does not decode passes NULL to [PySet_Add] and
    [Py_DECREF], which crashes ([None] here). *)
Fixpoint set_add_tokens (toks : list cstr) : option (list cstr) :=
  match toks with
  | [] => Some []
  | t :: ts =>
      match PyUnicode_FromString t with
      | None => None
      | Some u => option_map (cons u) (set_add_tokens ts)
      end
  end.

(** A column of [MySQLPrepStmt_fetch_row]: its item ([None] is a NULL
    item with its exception set), [goto cleanup], or a crash. *)
Inductive col_result := ColCell (v : option pyval) | ColCleanup | ColCrash.

(** The second [switch] of [MySQLPrepStmt_fetch_row] for a non-NULL
    column: the actions it performs and the outcome. The column bytes are
    read through [PyBytes_AsString], so [strtok_r] and
    [PyUnicode_FromString] stop at the first NUL. *)
Definition convert_prep_col (i : nat) (f : mysql_field) (field_flags : Z) (c : col_state)
  : list stmt_event * col_result :=
  let refetch := [EvBindBuffer i (cs_length c); EvFetchColumn i] in
  let data := cs_data c in
  match f_type f with
  | MYSQL_TYPE_TINY | MYSQL_TYPE_SHORT | MYSQL_TYPE_INT24 | MYSQL_TYPE_LONG
  | MYSQL_TYPE_LONGLONG | MYSQL_TYPE_YEAR => ([], ColCell (Some (PyInt (cs_small_int c))))
  | MYSQL_TYPE_FLOAT | MYSQL_TYPE_DOUBLE => ([], ColCell (Some (PyFloat (cs_small_float c))))
  | MYSQL_TYPE_DATETIME | MYSQL_TYPE_TIMESTAMP | MYSQL_TYPE_DATE | MYSQL_TYPE_TIME
  | MYSQL_TYPE_DECIMAL | MYSQL_TYPE_NEWDECIMAL =>
      if cs_fetch_error c then (refetch, ColCleanup)
      else (refetch, ColCell
        match f_type f with
        | MYSQL_TYPE_DATE => of_date (mytopy_date data)
        | MYSQL_TYPE_TIME => of_delta (mytopy_time data (cs_length c))
        | MYSQL_TYPE_DATETIME | MYSQL_TYPE_TIMESTAMP =>
            of_datetime (mytopy_datetime data (cs_length c))
        | _ => Some (PyDecimal data)
        end)
  | t =>
      if cs_fetch_error c then (refetch, ColCleanup)
      else if has_flag field_flags SET_FLAG then
        (refetch, match set_add_tokens (strtok_comma (upto_nul data) []) with
                  | Some members => ColCell (Some (PySet (set_of members)))
                  | None => ColCrash
                  end)
      else (refetch, ColCell
        match t with
        | MYSQL_TYPE_GEOMETRY => Some (PyByteArray data)
        | MYSQL_TYPE_BIT => Some (PyInt (mytopy_bit data (cs_length c)))
        | _ => if f_charsetnr f =? 63 then Some (PyByteArray data)
               else option_map PyStr (PyUnicode_FromString data)
        end)
  end.

(** The per-column loop after a successful [mysql_stmt_fetch]; [info]
    holds the flags (item 9) of the cached column descriptors. *)
Definition cons_item (v : option pyval) (r : prep_result) : prep_result :=
  match r with PrepRow cells => PrepRow (v :: cells) | r => r end.

Fixpoint convert_prep_cols (i : nat) (fields : list mysql_field) (info : list Z)
    (cols : list col_state) : list stmt_event * prep_result :=
  match fields, cols with
  | f :: fs, c :: cs =>
      if cs_is_null c then
        let '(ev, r) := convert_prep_cols (S i) fs info cs in
        (ev, cons_item (Some PyNone) r)
      else match nth_error info i with
           | None => ([], PrepError)   (** "Error while fetching field information" *)
           | Some flags =>
               let '(ev1, r1) := convert_prep_col i f flags c in
               match r1 with
               | ColCleanup => (ev1, PrepError)
               | ColCrash => (ev1, PrepCrash)
               | ColCell cell =>
                   let '(ev2, r2) := convert_prep_cols (S i) fs info cs in
                   (ev1 ++ ev2, cons_item cell r2)
               end
           end
  | _, _ => ([], PrepRow [])
  end.

Definition MySQLPrepStmt_fetch_row (fields : list mysql_field) (info : list Z)
    (fetch : Z) (cols : list col_state) : list stmt_event * prep_result :=
  let ev0 := unbind_events 0 fields ++ [EvFetch] in
  if fetch =? 1 then (ev0, PrepError)
  else if fetch =? MYSQL_NO_DATA then (ev0, PrepNone)
  else
    let '(ev1, r) := convert_prep_cols 0 fields info cols in
    (ev0 ++ ev1, r).




(** A column descriptor with empty names, for examples. *)
Definition example_field (t : enum_field_types) (flags charsetnr : Z) : mysql_field :=
  {| f_catalog := cstr_of "def"; f_db := []; f_table := []; f_org_table := [];
     f_name := cstr_of "c"; f_org_name := []; f_charsetnr := charsetnr;
     f_max_length := 0; f_type := t; f_flags := flags; f_decimals := 0 |}.

Definition example_cell (null : bool) (data : string) : col_state :=
  {| cs_is_null := null; cs_length := Z.of_nat (String.length data);
     cs_data := cstr_of data; cs_small_int := 7; cs_small_float := cstr_of "1.5";
     cs_fetch_error := false |}.

(** ** Text protocol: [fetch_fields], [MySQL_fetch_fields], [MySQL_fetch_row] *)

(** Modelled from the spec: the six-argument
    [mytopy_string(data, field_type, charsetnr, length, charset, use_unicode)]
    that [mysql_capi.c] calls (the conversion file of the repository keeps an
    older five-argument version). The column is raw binary when its
    character set id is 63; raw binary content, unicode mode off or the
    [binary] pseudo-charset give the bytes unchanged, anything else is
    decoded with [charset]. [None] is a NULL result with the decode error set. *)
Definition decode_column `{CharsetDecoder} (data : cstr) (field_type : enum_field_types)
    (charsetnr : Z) (length : nat) (charset : string) (use_unicode : bool)
  : option pyval :=
  let raw := firstn length data in
  if (charsetnr =? 63) || negb use_unicode || String.eqb charset "binary"
  then Some (PyBytes raw)
  else option_map PyStr (py_decode charset raw).

(** Interpreter primitives the text path calls: [PyLong_FromString(s, NULL,
    base)], [decimal.Decimal(s)] and [PyOS_string_to_double(s, &end, NULL)]
    (value, characters consumed, whether ValueError was set). *)
Class PyNumbers := {
  py_long_from_string : cstr -> Z -> option Z;
  py_decimal : cstr -> option cstr;
  py_string_to_double : cstr -> cstr * nat * bool }.

(** [strlen]. *)
Fixpoint strlen (s : cstr) : nat :=
  match s with
  | [] => O
  | c :: t => if Ascii.eqb c NUL then O else S (strlen t)
  end.

(** [x[0] == '\0'] *)
Definition is_empty_cstr (s : cstr) : bool :=
  match s with [] => true | c :: _ => Ascii.eqb c NUL end.

(** [str.split(",")]: every field between commas, empty ones included. *)
Fixpoint py_split_comma (s : cstr) (cur : cstr) : list cstr :=
  match s with
  | [] => [rev cur]
  | c :: t => if Ascii.eqb c "," then rev cur :: py_split_comma t [] else py_split_comma t (c :: cur)
  end.

(** An 11-item column descriptor tuple of [fetch_fields]. *)
Record descriptor := {
  d_catalog : pyval; d_db : pyval; d_table : pyval; d_org_table : pyval;
  d_name : pyval; d_org_name : pyval;
  d_charsetnr : Z; d_max_length : Z; d_type : enum_field_types;
  d_flags : Z; d_decimals : Z }.

(** Results with the log of [mytopy_string] calls, as (column, tuple index),
    and [None] for a NULL return. *)
Definition logged (A : Type) : Type := list (nat * nat) * option A.

Definition lbind {A B} (m : logged A) (k : A -> logged B) : logged B :=
  match m with
  | (l1, None) => (l1, None)
  | (l1, Some a) => let '(l2, r) := k a in (l1 ++ l2, r)
  end.

Notation "'let!' x := m 'in' k" := (lbind m (fun x => k))
  (at level 200, x name, m at level 100, k at level 200).

Section FetchFields.
Context `{CharsetDecoder}.

(** One text subfield: [short] when the code tests [x[0] == '\0'] first. *)
Definition decode_subfield (i j : nat) (f : mysql_field) (s : cstr) (short : bool)
    (charset : string) (use_unicode : bool) : logged pyval :=
  if short && is_empty_cstr s then ([], Some (PyStr []))
  else ([(i, j)], decode_column s (f_type f) 45 (List.length s) charset use_unicode).

Definition fetch_field_tuple (i : nat) (f : mysql_field) (charset : string)
    (use_unicode : bool) : logged descriptor :=
  let! cat := decode_subfield i 0 f (f_catalog f) false charset use_unicode in
  let! db := decode_subfield i 1 f (f_db f) false charset use_unicode in
  let! tbl := decode_subfield i 2 f (f_table f) true charset use_unicode in
  let! otbl := decode_subfield i 3 f (f_org_table f) true charset use_unicode in
  let! nm := decode_subfield i 4 f (f_name f) true charset use_unicode in
  let! onm := decode_subfield i 5 f (f_org_name f) true charset use_unicode in
  ([], Some {| d_catalog := cat; d_db := db; d_table := tbl; d_org_table := otbl;
               d_name := nm; d_org_name := onm; d_charsetnr := f_charsetnr f;
               d_max_length := f_max_length f; d_type := f_type f;
               d_flags := f_flags f; d_decimals := f_decimals f |}).

Fixpoint fetch_fields_from (i : nat) (myfs : list mysql_field) (charset : string)
    (use_unicode : bool) : logged (list descriptor) :=
  match myfs with
  | [] => ([], Some [])
  | f :: fs =>
      let! d := fetch_field_tuple i f charset use_unicode in
      let! ds := fetch_fields_from (S i) fs charset use_unicode in
      ([], Some (d :: ds))
  end.

(** [fetch_fields(result, num_fields, cs, use_unicode)] *)
Definition fetch_fields (myfs : list mysql_field) (csname : option string)
    (use_unicode : bool) : logged (list descriptor) :=
  fetch_fields_from 0 myfs (python_characterset_name csname) use_unicode.

End FetchFields.

(** The result handle of a connection: its column metadata, the rows
    [mysql_fetch_row] still delivers (a cell [None] is SQL NULL) with their
    [mysql_fetch_lengths]. *)
Record mysql_res := {
  res_fields : list mysql_field;
  res_rows : list (list (option cstr) * option (list nat)) }.

Record MySQL := {
  result : option mysql_res;
  session : mysql_session;
  session_csname : option string;   (** [mysql_character_set_name] *)
  cs_csname : option string;        (** [self->cs.csname] *)
  raw : bool; raw_as_string : bool; use_unicode : bool;
  fields : option (list descriptor) }.

Inductive fetch_fields_result :=
| FieldsList (l : list descriptor)
| FieldsRaised (r : raised)
| FieldsNull.   (** NULL returned with a decode error set *)

(** [ctor_ok] as for the raisers. *)
Definition MySQL_fetch_fields `{CharsetDecoder} (self : MySQL) (ctor_ok : bool)
  : fetch_fields_result :=
  match result self with
  | None => FieldsRaised (raise_with_string "No result" None ctor_ok)
  | Some res =>
      match fields self with
      | Some l => FieldsList l
      | None =>
          match snd (fetch_fields (res_fields res) (cs_csname self) (use_unicode self)) with
          | Some l => FieldsList l
          | None => FieldsNull
          end
      end
  end.

(** A cell of [MySQL_fetch_row]: the item stored in the tuple ([None] for
    a NULL item) and whether an exception was left set; or [goto error]. *)
Inductive text_cell := TCell (v : option pyval) (err_set : bool) | TCAbort.

Definition of_opt (v : option pyval) : text_cell :=
  match v with Some x => TCell (Some x) false | None => TCell None true end.

Definition text_cell_value `{CharsetDecoder} `{PyNumbers} (data : cstr) (len : nat)
    (charsetnr : Z) (field_type : enum_field_types) (field_flags : Z)
    (charset : string) (use_unicode : bool) : text_cell :=
  match field_type with
  | MYSQL_TYPE_TINY | MYSQL_TYPE_SHORT | MYSQL_TYPE_LONG | MYSQL_TYPE_LONGLONG
  | MYSQL_TYPE_INT24 | MYSQL_TYPE_YEAR =>
      of_opt (option_map PyInt
        (py_long_from_string data (if has_flag field_flags ZEROFILL_FLAG then 10 else 0)))
  | MYSQL_TYPE_DATETIME | MYSQL_TYPE_TIMESTAMP =>
      of_opt (of_datetime (mytopy_datetime data (Z.of_nat len)))
  | MYSQL_TYPE_DATE => of_opt (of_date (mytopy_date data))
  | MYSQL_TYPE_TIME => of_opt (of_delta (mytopy_time data (Z.of_nat len)))
  | MYSQL_TYPE_VARCHAR | MYSQL_TYPE_STRING | MYSQL_TYPE_ENUM | MYSQL_TYPE_VAR_STRING =>
      match decode_column data field_type charsetnr len charset use_unicode with
      | None => TCAbort
      | Some v =>
          if has_flag field_flags SET_FLAG then
            if Nat.eqb (strlen data) 0 then TCell (Some (PySet [])) false
            else match v with
                 | PyStr t => TCell (Some (PySet (set_of (py_split_comma t [])))) false
                 | _ => TCell (Some (PySet [])) true
                   (** [PyUnicode_Split] of bytes: NULL with TypeError set;
                       [PySet_New(NULL)] is an empty set *)
                 end
          else TCell (Some v) false
      end
  | MYSQL_TYPE_NEWDECIMAL | MYSQL_TYPE_DECIMAL =>
      of_opt (option_map PyDecimal (py_decimal data))
  | MYSQL_TYPE_FLOAT | MYSQL_TYPE_DOUBLE =>
      let '(v, n, raised) := py_string_to_double data in
      TCell (Some (if Nat.eqb n (strlen data) then PyFloat v else PyNone)) raised
  | MYSQL_TYPE_BIT => TCell (Some (PyInt (mytopy_bit data (Z.of_nat len)))) false
  | MYSQL_TYPE_BLOB =>
      if has_flag field_flags BLOB_FLAG && has_flag field_flags BINARY_FLAG
      then TCell (Some (PyBytes (firstn len data))) false
      else of_opt (decode_column data field_type charsetnr len charset use_unicode)
  | MYSQL_TYPE_GEOMETRY => TCell (Some (PyByteArray (firstn len data))) false
  | _ => of_opt (decode_column data field_type charsetnr len charset use_unicode)
  end.

Inductive fetch_row_result :=
| FRNone (err_set : bool)                          (** [None] returned *)
| FRError                                          (** NULL returned *)
| FRRow (cells : list (option pyval)) (err_set : bool)
| FRCrash.                                         (** undefined behaviour *)

(** The cell loop; [info] is [self->fields] ([None] for NULL, which
    [PyList_GetItem] dereferences). *)
Fixpoint text_cells `{CharsetDecoder} `{PyNumbers} (self : MySQL) (i : nat)
    (info : option (list descriptor)) (row : list (option cstr)) (lengths : list nat)
    (charset : string) : fetch_row_result :=
  match row with
  | [] => FRRow [] false
  | cell :: rest =>
      let len := nth i lengths O in
      let continue_with v e :=
        match text_cells self (S i) info rest lengths charset with
        | FRRow cs e' => FRRow (v :: cs) (e || e')
        | FRNone e' => FRNone (e || e')
        | FRError => FRError
        | FRCrash => FRCrash
        end in
      match cell with
      | None => continue_with (Some PyNone) false
      | Some data =>
          if raw self then
            if raw_as_string self then
              match PyUnicode_FromStringAndSize data len with
              | Some t => continue_with (Some (PyStr t)) false
              | None => continue_with None true
              end
            else continue_with (Some (PyByteArray (firstn len data))) false
          else match info with
               | None => FRCrash
               | Some l =>
               match nth_error l i with
               | None => FRNone true   (** [IndexError] set *)
               | Some d =>
                   match text_cell_value data len (d_charsetnr d) (d_type d) (d_flags d)
                           charset (use_unicode self) with
                   | TCAbort => FRError
                   | TCell v e => continue_with v e
                   end
               end
               end
      end
  end.

(** An exception left set before the cell loop stays set. *)
Definition with_pending (p : bool) (r : fetch_row_result) : fetch_row_result :=
  match r with
  | FRRow cs e => FRRow cs (p || e)
  | FRNone e => FRNone (p || e)
  | r => r
  end.

(** [MySQL_fetch_row]: the outcome and the connection afterwards (one row
    consumed, [self->fields] filled). A [fetch_fields] that fails returns
    NULL with its decode error set, and nothing clears it. *)
Definition MySQL_fetch_row `{CharsetDecoder} `{PyNumbers} (self : MySQL)
  : fetch_row_result * MySQL :=
  match result self with
  | None => (FRNone false, self)
  | Some res =>
      let charset := python_characterset_name (session_csname self) in
      match res_rows res with
      | [] => (if sess_errno (session self) =? 0 then FRNone false else FRError, self)
      | (row, lengths) :: more =>
          let self' := {| result := Some {| res_fields := res_fields res; res_rows := more |};
                          session := session self; session_csname := session_csname self;
                          cs_csname := cs_csname self; raw := raw self;
                          raw_as_string := raw_as_string self; use_unicode := use_unicode self;
                          fields := fields self |} in
          match lengths with
          | None => (FRNone false, self')
          | Some lens =>
              let fl := match fields self with
                        | Some l => Some l
                        | None => snd (fetch_fields (res_fields res) (cs_csname self)
                                        (use_unicode self))
                        end in
              let self'' := {| result := result self'; session := session self;
                               session_csname := session_csname self;
                               cs_csname := cs_csname self; raw := raw self;
                               raw_as_string := raw_as_string self;
                               use_unicode := use_unicode self; fields := fl |} in
              let pending := match fields self, fl with None, None => true | _, _ => false end in
              (with_pending pending (text_cells self'' 0 fl row lens charset), self'')
          end
      end
  end.

(** Spec side (C8): the decoder calls [fetch_fields] makes for column [i]
    when only the four name subfields short-circuit on an empty string, and
    what each tuple item then is. *)
Definition expected_calls (i : nat) (f : mysql_field) : list (nat * nat) :=
  [(i, 0%nat); (i, 1%nat)]
  ++ (if is_empty_cstr (f_table f) then [] else [(i, 2%nat)])
  ++ (if is_empty_cstr (f_org_table f) then [] else [(i, 3%nat)])
  ++ (if is_empty_cstr (f_name f) then [] else [(i, 4%nat)])
  ++ (if is_empty_cstr (f_org_name f) then [] else [(i, 5%nat)]).

Fixpoint expected_calls_from (i : nat) (myfs : list mysql_field) : list (nat * nat) :=
  match myfs with
  | [] => []
  | f :: fs => expected_calls i f ++ expected_calls_from (S i) fs
  end.

Definition text_item `{CharsetDecoder} (f : mysql_field) (s : cstr) (short : bool)
    (charset : string) (use_unicode : bool) (v : pyval) : Prop :=
  if short && is_empty_cstr s then v = PyStr []
  else decode_column s (f_type f) 45 (List.length s) charset use_unicode = Some v.

Definition descriptor_of `{CharsetDecoder} (charset : string) (use_unicode : bool)
    (f : mysql_field) (d : descriptor) : Prop :=
  text_item f (f_catalog f) false charset use_unicode (d_catalog d) /\
  text_item f (f_db f) false charset use_unicode (d_db d) /\
  text_item f (f_table f) true charset use_unicode (d_table d) /\
  text_item f (f_org_table f) true charset use_unicode (d_org_table d) /\
  text_item f (f_name f) true charset use_unicode (d_name d) /\
  text_item f (f_org_name f) true charset use_unicode (d_org_name d) /\
  d_charsetnr d = f_charsetnr f /\ d_max_length d = f_max_length f /\
  d_type d = f_type f /\ d_flags d = f_flags f /\ d_decimals d = f_decimals f.

(** Example decoder: accepts 7-bit bytes only. *)
Definition ascii_only_decoder : CharsetDecoder :=
  fun _ b => if forallb (fun c => (nat_of_ascii c <? 128)%nat) b then Some b else None.

(** Example interpreter: decimal integers, decimals and floats taken as given. *)
Definition simple_numbers : PyNumbers := {|
  py_long_from_string := fun s _ =>
    match s with [] => None | _ => if forallb isdigit s then Some (digits_value s) else None end;
  py_decimal := fun s => Some s;
  py_string_to_double := fun s => (s, strlen s, false) |}.

(** A connection with one buffered row left and no cached descriptors. *)
Definition example_conn (myfs : list mysql_field) (row : list (option cstr))
    (unicode : bool) : MySQL :=
  {| result := Some {| res_fields := myfs;
                       res_rows := [(row, Some (map (fun c => match c with
                                                       | Some d => List.length d
                                                       | None => O end) row))] |};
     session := {| sess_errno := 0; sess_error := ""; sess_sqlstate := "00000" |};
     session_csname := Some "utf8mb4"%string; cs_csname := Some "utf8mb4"%string;
     raw := false; raw_as_string := false; use_unicode := unicode; fields := None |}.

(** A connection with no result handle. *)
Definition conn_without_result : MySQL :=
  {| result := None;
     session := {| sess_errno := 0; sess_error := ""; sess_sqlstate := "00000" |};
     session_csname := Some "utf8mb4"%string; cs_csname := Some "utf8mb4"%string;
     raw := false; raw_as_string := false; use_unicode := true; fields := None |}.

(** A computed column such as [SELECT 1+1]: catalog "def", every other
    name empty but the column name. *)
Definition computed_column : mysql_field :=
  {| f_catalog := cstr_of "def"; f_db := []; f_table := []; f_org_table := [];
     f_name := cstr_of "1+1"; f_org_name := []; f_charsetnr := 63;
     f_max_length := 1; f_type := MYSQL_TYPE_LONGLONG; f_flags := 129; f_decimals := 0 |}.

(** ** Encoders of [mysql_capi_conversion.c]: host values to MySQL text *)

Definition digit_char (d : Z) : ascii := ascii_of_nat (Z.to_nat (48 + d)).

(** Decimal digits of [n >= 0] prepended to [acc], most significant first;
    [fuel] bounds the number of digits. *)
Fixpoint dec_digits (fuel : nat) (n : Z) (acc : cstr) : cstr :=
  match fuel with
  | O => acc
  | S f =>
      let acc' := digit_char (n mod 10) :: acc in
      if n <? 10 then acc' else dec_digits f (n / 10) acc'
  end.

(** The digits [printf] writes for [n >= 0]. *)
Definition dec (n : Z) : cstr := dec_digits (S (Z.to_nat (Z.log2 n))) n [].

(** Zero padding on the left up to [w] characters. *)
Definition pad0 (w : nat) (s : cstr) : cstr :=
  repeat "0"%char (w - List.length s) ++ s.

(** [printf("%d", n)] *)
Definition printf_d (n : Z) : cstr :=
  if n <? 0 then "-"%char :: dec (- n) else dec n.

(** [printf("%0wd", n)]: the sign counts in the width. *)
Definition printf_0d (w : nat) (n : Z) : cstr :=
  if n <? 0 then "-"%char :: pad0 (w - 1) (dec (- n)) else pad0 w (dec n).

(** [snprintf(buf, size, ...)]: at most [size - 1] characters are kept. *)
Definition snprintf (size : nat) (s : cstr) : cstr := firstn (size - 1) s.

Definition in_int32 (v : Z) : bool := (- 2 ^ 31 <=? v) && (v <? 2 ^ 31).

(** [%s] on a [char] array: the characters before the first NUL inside the
    array; running off its end without meeting one is undefined ([None]). *)
Fixpoint read_cstr (arr : list ascii) : option cstr :=
  match arr with
  | [] => None
  | c :: t => if Ascii.eqb c NUL then Some [] else option_map (cons c) (read_cstr t)
  end.

(** Host objects handed to the encoders and to the parameter converters.
    Temporal objects carry their class name, whether their class is exactly
    the [datetime] one, and what [str()] gives for them; [OStr] holds text
    whose one-byte representation is its characters. *)
Inductive pyobj :=
| ONone
| OLong (z : Z)
| OBool (b : bool)
| OFloat (repr : cstr)
| OStr (s : cstr)
| OBytes (b : cstr)
| OByteArray (b : cstr)
| ODateTime (tp_name : string) (year month day hour minute second usecond : Z) (str : cstr)
| ODate (tp_name : string) (exact : bool) (year month day : Z) (str : cstr)
| OTime (tp_name : string) (hour minute second usecond : Z) (str : cstr)
| ODelta (tp_name : string) (exact : bool) (days seconds useconds : Z) (str : cstr)
| OOther (tp_name : string) (str : cstr).

(** [ob_type->tp_name]; a [decimal.Decimal] is an [OOther] of that name. *)
Definition tp_name (o : pyobj) : string :=
  match o with
  | ONone => "NoneType" | OLong _ => "int" | OBool _ => "bool" | OFloat _ => "float"
  | OStr _ => "str" | OBytes _ => "bytes" | OByteArray _ => "bytearray"
  | ODateTime n _ _ _ _ _ _ _ _ | ODate n _ _ _ _ _ | OTime n _ _ _ _ _
  | ODelta n _ _ _ _ _ | OOther n _ => n
  end.

(** [PyObject_Str(o)] as one-byte text. *)
Definition py_str (o : pyobj) : cstr :=
  match o with
  | ONone => cstr_of "None"
  | OLong z => printf_d z
  | OBool b => cstr_of (if b then "True" else "False")
  | OFloat r => r
  | OStr s => s
  | OBytes b | OByteArray b => b
  | ODateTime _ _ _ _ _ _ _ _ s | ODate _ _ _ _ _ s | OTime _ _ _ _ _ s
  | ODelta _ _ _ _ _ s | OOther _ s => s
  end.

Inductive enc_result :=
| EncBytes (b : cstr)
| EncError (exc msg : string)   (** exception class and message, NULL returned *)
| EncUB.                        (** undefined behaviour in the C code *)

(** [PyBytesFromFormat("%04d-%02d-%02d", ...)]: CPython's
    [PyBytes_FromFormat] skips the width digits of a conversion, the [0]
    flag included, and formats [%d] as plain [printf("%d")]. *)
Definition pytomy_date_text (year month day : Z) : cstr :=
  printf_d year ++ "-"%char :: printf_d month ++ "-"%char :: printf_d day.

Definition pytomy_date (o : pyobj) : enc_result :=
  match o with
  | ODateTime _ y m d _ _ _ _ _ | ODate _ _ y m d _ => EncBytes (pytomy_date_text y m d)
  | _ => EncError "TypeError" "Object must be a datetime.date"
  end.

Definition pytomy_time_text (hour minute second usecond : Z) : cstr :=
  snprintf 17
    (if negb (usecond =? 0)
     then printf_0d 2 hour ++ ":"%char :: printf_0d 2 minute ++ ":"%char ::
          printf_0d 2 second ++ "."%char :: printf_0d 6 usecond
     else printf_0d 2 hour ++ ":"%char :: printf_0d 2 minute ++ ":"%char ::
          printf_0d 2 second).

Definition pytomy_time (o : pyobj) : enc_result :=
  match o with
  | OTime _ h mi s us _ => EncBytes (pytomy_time_text h mi s us)
  | _ => EncError "ValueError" "Object must be a datetime.time"
  end.

Definition pytomy_datetime_text (year month day hour minute second usecond : Z) : cstr :=
  snprintf 27
    (printf_0d 4 year ++ "-"%char :: printf_0d 2 month ++ "-"%char :: printf_0d 2 day ++
     " "%char :: printf_0d 2 hour ++ ":"%char :: printf_0d 2 minute ++ ":"%char ::
     printf_0d 2 second ++
     (if negb (usecond =? 0) then "."%char :: printf_0d 6 usecond else [])).

Definition pytomy_datetime (o : pyobj) : enc_result :=
  match o with
  | ODateTime _ y m d h mi s us _ => EncBytes (pytomy_datetime_text y m d h mi s us)
  | _ => EncError "ValueError" "Object must be a datetime.datetime"
  end.

(** [pytomy_timedelta] on the [days], [seconds] and [microseconds] of a
    [timedelta]: [int] arithmetic (an overflow, or [abs(INT_MIN)], is
    undefined), the one-byte array [minus] printed with [%s], and the
    result cut to 16 characters by [snprintf(result, 17, ...)]. *)
Definition pytomy_timedelta_text (days secs micro_secs : Z) : enc_result :=
  let t := days * 86400 + secs in
  if negb (in_int32 (days * 86400)) || negb (in_int32 t) || (t =? - 2 ^ 31) then EncUB
  else
    let total_secs := Z.abs t in
    let '(micro_secs, total_secs) :=
      if negb (micro_secs =? 0) && (days <? 0)
      then (1000000 - micro_secs, total_secs - 1)
      else (micro_secs, total_secs) in
    match read_cstr [if days <? 0 then "-"%char else NUL] with
    | None => EncUB
    | Some minus =>
        let hours := Z.quot total_secs 3600 in
        let remainder := Z.rem total_secs 3600 in
        let mins := Z.quot remainder 60 in
        let secs := Z.rem remainder 60 in
        EncBytes (snprintf 17
          (minus ++ printf_0d 2 hours ++ ":"%char :: printf_0d 2 mins ++ ":"%char ::
           printf_0d 2 secs ++
           (if negb (micro_secs =? 0) then "."%char :: printf_0d 6 micro_secs else [])))
    end.

Definition pytomy_timedelta (o : pyobj) : enc_result :=
  match o with
  | ODelta _ _ d s us _ => pytomy_timedelta_text d s us
  | _ => EncError "ValueError" "Object must be a datetime.timedelta"
  end.

(** Spec side: the big-endian unsigned value of a byte string. *)
Definition be_value (l : cstr) : Z :=
  fold_left (fun v c => v * 256 + Z.of_nat (nat_of_ascii c)) l 0.

(** [pytomy_decimal] (Python 3 branch): the one-byte data of [str(obj)]. *)
Definition pytomy_decimal (o : pyobj) : enc_result := EncBytes (upto_nul (py_str o)).

(** ** [MySQL_escape_string] and [MySQL_convert_to_mysql] *)

Inductive esc_result :=
| EscBytes (b : cstr)
| EscRaised (r : raised)            (** [IS_CONNECTED] failed *)
| EscEncodeError                    (** the codec's exception, NULL returned *)
| EscError (exc msg : string).      (** other exception, NULL returned *)

Section ConvertToMySQL.
(** [PyUnicode_AsEncodedString(value, charset, NULL)]: the bytes, or
    [None] when encoding fails. *)
Context (py_encode : string -> cstr -> option cstr).
(** [mysql_real_escape_string_quote(session, to, from, size, '\'')]:
    the escaped bytes, or [None] for its [(unsigned long)-1] result. *)
Context (real_escape : cstr -> option cstr).
(** The connection: [MySQL_connected], its session error state,
    [mysql_character_set_name], [converter_str_fallback == Py_True], and
    whether the exception constructor succeeds in the raisers. *)
Context (connected : bool) (sess : mysql_session) (csname : option string)
  (str_fallback : bool) (ctor_ok : bool).

Definition MySQL_escape_string (value : pyobj) : esc_result :=
  if negb connected then EscRaised (raise_with_session sess (Some MySQLInterfaceError) ctor_ok)
  else
    let charset := python_characterset_name csname in
    let from :=
      match value with
      | OStr s =>
          let charset := if String.eqb charset "binary" then "utf8"%string else charset in
          match py_encode charset s with
          | None => None
          | Some b => Some (Some b)
          end
      | OBytes b | OByteArray b => Some (Some b)
      | _ => Some None
      end in
    match from with
    | None => EscEncodeError
    | Some None => EscError "TypeError" "Argument must be str or bytes"
    | Some (Some b) =>
        match real_escape b with
        | Some e => EscBytes e
        | None => EscError "MySQLError" "Failed escaping string."
        end
    end.

(** One element of [MySQL_convert_to_mysql]: the tuple item, or the
    message of the [MySQLInterfaceError] raised ([goto error]), or
    undefined behaviour in an encoder. *)
Inductive item_result := IOk (b : cstr) | IRaised (msg : cstr) | IUB.

Definition convert_item (value : pyobj) : item_result :=
  let name := cstr_of (tp_name value) in
  match value with
  | ONone => IOk (cstr_of "NULL")
  | OLong _ | OBool _ | OFloat _ => IOk (upto_nul (py_str value))
  | _ =>
      let new_value :=
        match value with
        | OStr _ | OBytes _ | OByteArray _ =>
            (* a NULL result: its exception is replaced below *)
            Some match MySQL_escape_string value with
                 | EscBytes b => EncBytes b
                 | _ => EncError "" ""
                 end
        | ODateTime _ _ _ _ _ _ _ _ _ => Some (pytomy_datetime value)
        | ODate _ true _ _ _ _ => Some (pytomy_date value)
        | OTime _ _ _ _ _ _ => Some (pytomy_time value)
        | ODelta _ true _ _ _ _ => Some (pytomy_timedelta value)
        | _ =>
            if String.eqb (tp_name value) "decimal.Decimal" then Some (pytomy_decimal value)
            else if str_fallback then Some (EncBytes (upto_nul (py_str value)))
            else None
        end in
      match new_value with
      | None =>
          IRaised (snprintf 100 (cstr_of "Python type " ++ name ++ cstr_of " cannot be converted"))
      | Some EncUB => IUB
      | Some (EncError _ _) =>
          IRaised (snprintf 100 (cstr_of "Failed converting Python '" ++ name ++ cstr_of "'"))
      | Some (EncBytes b) =>
          if String.eqb (tp_name value) "decimal.Decimal" then IOk b
          else IOk ("'"%char :: upto_nul b ++ ["'"%char])
      end
  end.

(** The result of [MySQL_convert_to_mysql]: the tuple, or [NULL] with
    [MySQLInterfaceError(msg)] set, or undefined behaviour. *)
Inductive conv_result := ConvTuple (items : list cstr) | ConvRaised (msg : cstr) | ConvUB.

Fixpoint MySQL_convert_to_mysql (args : list pyobj) : conv_result :=
  match args with
  | [] => ConvTuple []
  | value :: rest =>
      match convert_item value with
      | IRaised m => ConvRaised m
      | IUB => ConvUB
      | IOk b =>
          match MySQL_convert_to_mysql rest with
          | ConvTuple l => ConvTuple (b :: l)
          | r => r
          end
      end
  end.
End ConvertToMySQL.

(** ** Parameter binding of [MySQLPrepStmt_execute] *)

(** The fields of [pbind->buffer.t] the code sets; the others keep the 0
    of [calloc]. *)
Record mysql_time := {
  tm_year : Z; tm_month : Z; tm_day : Z;
  tm_hour : Z; tm_minute : Z; tm_second : Z; tm_second_part : Z }.

(** What [mbind->buffer] points at. *)
Inductive bind_buffer :=
| BBNone                   (** [NULL] from [calloc] *)
| BBNullLit                (** the literal ["NULL"] *)
| BBLongLong (v : Z)       (** [&pbind->buffer.l] *)
| BBFloat (repr : cstr)    (** [&pbind->buffer.f]: [(float)] of the double with this [repr] *)
| BBTime (t : mysql_time)  (** [&pbind->buffer.t] *)
| BBBytes (b : cstr).      (** string data, with [buffer_length] its size *)

(** A [MYSQL_BIND]: [buffer_type], [buffer], and the value stored in the
    pointer [is_null]. *)
Record mysql_bind := { mb_type : enum_field_types; mb_buffer : bind_buffer; mb_is_null : Z }.

(** [calloc]: all zero; [MYSQL_TYPE_DECIMAL] is 0. *)
Definition calloc_bind : mysql_bind :=
  {| mb_type := MYSQL_TYPE_DECIMAL; mb_buffer := BBNone; mb_is_null := 0 |}.

(** [PyLong_AsLongLong]: the value, or [-1] with [OverflowError] set. *)
Definition py_long_as_long_long (z : Z) : Z * bool :=
  if (- 2 ^ 63 <=? z) && (z <? 2 ^ 63) then (z, false) else (-1, true).

(** [PyDateTime_TIME_GET_HOUR/MINUTE/SECOND/MICROSECOND] read the bytes
    [data[0..5]] of a [PyDateTime_Time], at offsets 25 to 30 of the object.
    Applied to a [PyDateTime_Delta] (64-bit little-endian CPython: [int days]
    at offset 24, [int seconds] at 28) they read bytes 1 to 3 of [days] and
    bytes 0 to 2 of [seconds]. *)
Definition time_macros_on_delta (days seconds : Z) : Z * Z * Z * Z :=
  let byte x k := Z.land (Z.shiftr (x mod 2 ^ 32) (8 * k)) 255 in
  (byte days 1, byte days 2, byte days 3,
   Z.lor (Z.lor (Z.shiftl (byte seconds 0) 16) (Z.shiftl (byte seconds 1) 8)) (byte seconds 2)).

(** [l[n]= f(l[n])] on an array of [length l] elements; [None] when [n] is
    out of bounds (undefined behaviour in C). *)
Fixpoint update_nth {A} (n : nat) (f : A -> A) (l : list A) : option (list A) :=
  match l, n with
  | [], _ => None
  | x :: t, O => Some (f x :: t)
  | x :: t, S n' => option_map (cons x) (update_nth n' f t)
  end.

(** Up to [mysql_stmt_bind_param]: the bind array it receives and whether
    an exception ([OverflowError]) is pending, or the [MySQLInterfaceError]
    raised, or undefined behaviour. *)
Inductive exec_result :=
| ExecSent (binds : list mysql_bind) (err_pending : bool)
| ExecRaised (msg : cstr)
| ExecUB.

Section PrepExecute.
(** [PyUnicode_AsUTF8AndSize] of a [str]. *)
Context (py_as_utf8 : cstr -> cstr).
(** [self->converter_str_fallback == Py_True]. *)
Context (str_fallback : bool).

Definition set_bind (i : nat) (b : mysql_bind) (mbinds : list mysql_bind) : option (list mysql_bind) :=
  update_nth i (fun _ => b) mbinds.

(** One iteration of the binding loop for [value = args[i]]. *)
Definition bind_param (i : nat) (value : pyobj) (mbinds : list mysql_bind) (pending : bool)
  : exec_result :=
  let fixed b := match set_bind i b mbinds with
                 | Some l => ExecSent l pending
                 | None => ExecUB
                 end in
  (** [str_value] path: [buffer_type] written through [write_type], then
      the bytes bound at [mbind]. *)
  let str_bound (write_type : list mysql_bind -> option (list mysql_bind)) (data : cstr) :=
    match write_type mbinds with
    | None => ExecUB
    | Some l =>
        match update_nth i (fun m => {| mb_type := mb_type m; mb_buffer := BBBytes data;
                                        mb_is_null := 0 |}) l with
        | Some l' => ExecSent l' pending
        | None => ExecUB
        end
    end in
  let type_at n t := update_nth n (fun m => {| mb_type := t; mb_buffer := mb_buffer m;
                                               mb_is_null := mb_is_null m |}) in
  match value with
  | ONone => fixed {| mb_type := MYSQL_TYPE_NULL; mb_buffer := BBNullLit; mb_is_null := 1 |}
  | OLong _ | OBool _ =>
      let z := match value with OLong z => z | OBool true => 1 | _ => 0 end in
      let '(v, ovf) := py_long_as_long_long z in
      match set_bind i {| mb_type := MYSQL_TYPE_LONGLONG; mb_buffer := BBLongLong v;
                          mb_is_null := 0 |} mbinds with
      | Some l => ExecSent l (pending || ovf)
      | None => ExecUB
      end
  | OFloat r => fixed {| mb_type := MYSQL_TYPE_FLOAT; mb_buffer := BBFloat r; mb_is_null := 0 |}
  | OStr s => str_bound (type_at i MYSQL_TYPE_STRING) (py_as_utf8 s)
  | OBytes b | OByteArray b => str_bound (type_at i MYSQL_TYPE_STRING) b
  | ODateTime _ y mo d h mi s us _ =>
      fixed {| mb_type := MYSQL_TYPE_DATETIME;
               mb_buffer := BBTime {| tm_year := y; tm_month := mo; tm_day := d;
                                      tm_hour := h; tm_minute := mi; tm_second := s;
                                      tm_second_part := if us =? 0 then 0 else us |};
               mb_is_null := 0 |}
  | ODate _ true y m d _ =>
      fixed {| mb_type := MYSQL_TYPE_DATE;
               mb_buffer := BBTime {| tm_year := y; tm_month := m; tm_day := d;
                                      tm_hour := 0; tm_minute := 0; tm_second := 0;
                                      tm_second_part := 0 |};
               mb_is_null := 0 |}
  | OTime _ h mi s us _ =>
      fixed {| mb_type := MYSQL_TYPE_TIME;
               mb_buffer := BBTime {| tm_year := 0; tm_month := 0; tm_day := 0;
                                      tm_hour := h; tm_minute := mi; tm_second := s;
                                      tm_second_part := if us =? 0 then 0 else us |};
               mb_is_null := 0 |}
  | ODelta _ true days secs _ _ =>
      let '(h, mi, s, us) := time_macros_on_delta days secs in
      fixed {| mb_type := MYSQL_TYPE_TIME;
               mb_buffer := BBTime {| tm_year := 0; tm_month := 0; tm_day := 0;
                                      tm_hour := h; tm_minute := mi; tm_second := s;
                                      tm_second_part := if us =? 0 then 0 else us |};
               mb_is_null := 0 |}
  | _ =>
      if String.eqb (tp_name value) "decimal.Decimal" then
        (* [mbind[i].buffer_type = MYSQL_TYPE_DECIMAL] with [mbind = &mbinds[i]] *)
        str_bound (type_at (i + i)%nat MYSQL_TYPE_DECIMAL) (upto_nul (py_str value))
      else if str_fallback then
        str_bound (type_at i MYSQL_TYPE_STRING) (upto_nul (py_str value))
      else ExecRaised (cstr_of "Python type " ++ cstr_of (tp_name value) ++
                       cstr_of " cannot be converted")
  end.

Fixpoint bind_params (i : nat) (args : list pyobj) (mbinds : list mysql_bind) (pending : bool)
  : exec_result :=
  match args with
  | [] => ExecSent mbinds pending
  | value :: rest =>
      match bind_param i value mbinds pending with
      | ExecSent l p => bind_params (S i) rest l p
      | r => r
      end
  end.

(** [MySQLPrepStmt_execute] up to [mysql_stmt_bind_param(self->stmt, mbinds)]. *)
Definition MySQLPrepStmt_execute (args : list pyobj) : exec_result :=
  bind_params 0 args (repeat calloc_bind (List.length args)) false.
End PrepExecute.

(** ** Lemmas on the [%d] scanner *)

Lemma scan_digits_app ds rest acc :
  Forall (fun c => isdigit c = true) ds -> no_digit_ahead rest ->
  scan_digits (ds ++ rest) acc =
  (fold_left (fun a c => a * 10 + digit_val c) ds acc, rest).
Proof.
  intros Hds Hr. revert acc. induction Hds as [|c ds Hc Hds IH]; intro acc; simpl.
  - destruct rest as [|c t]; [reflexivity|]. simpl. now rewrite (Hr c t eq_refl).
  - rewrite Hc. apply IH.
Qed.

Lemma scan_digits_inv s acc n rest :
  scan_digits s acc = (n, rest) ->
  exists ds, s = ds ++ rest /\ Forall (fun c => isdigit c = true) ds /\
             no_digit_ahead rest /\
             n = fold_left (fun a c => a * 10 + digit_val c) ds acc.
Proof.
  revert acc. induction s as [|c t IH]; intros acc H; simpl in H.
  - inversion H; subst. exists []. repeat split; auto.
    intros c t E; discriminate.
  - destruct (isdigit c) eqn:Hc.
    + destruct (IH _ H) as (ds & -> & Hds & Hr & ->).
      exists (c :: ds). repeat split; auto.
    + inversion H; subst. exists []. repeat split; auto.
      intros c' t' E; inversion E; subst; assumption.
Qed.

Lemma skip_space_app ws r :
  Forall (fun c => isspace c = true) ws -> skip_space (ws ++ r) = skip_space r.
Proof.
  induction 1 as [|c ws Hc _ IH]; simpl; [reflexivity|]. now rewrite Hc.
Qed.

Lemma skip_space_split s :
  exists ws, s = ws ++ skip_space s /\ Forall (fun c => isspace c = true) ws /\
             forall c t, skip_space s = c :: t -> isspace c = false.
Proof.
  induction s as [|c t (ws & E & Hws & Hh)]; simpl.
  - exists []. repeat split; auto. intros c t E; discriminate.
  - destruct (isspace c) eqn:Hc.
    + exists (c :: ws). split; [now rewrite E at 1|]. split; auto.
    + exists []. repeat split; auto. intros c' t' E'; now inversion E'; subst.
Qed.

Lemma skip_space_nonspace c t : isspace c = false -> skip_space (c :: t) = c :: t.
Proof. intro H. simpl. now rewrite H. Qed.

Ltac ascii_bool := vm_compute; reflexivity.

Lemma isdigit_nonspace c : isdigit c = true -> isspace c = false.
Proof.
  unfold isdigit, isspace. intro H.
  apply andb_true_iff in H as [H1 H2].
  apply Nat.leb_le in H1. apply Nat.leb_le in H2.
  apply orb_false_iff. split.
  - apply andb_false_iff. right. apply Nat.leb_gt. lia.
  - apply Nat.eqb_neq. lia.
Qed.

Lemma scan_sign_digit c t : isdigit c = true -> scan_sign (c :: t) = (false, c :: t).
Proof.
  intro H. simpl.
  destruct (Ascii.eqb_spec c "-") as [->|_]; [discriminate H|].
  destruct (Ascii.eqb_spec c "+") as [->|_]; [discriminate H|reflexivity].
Qed.

Lemma scan_int_token p v rest :
  int_token p v -> no_digit_ahead rest -> scan_int (p ++ rest) = Some (v, rest).
Proof.
  intros (ws & sg & ds & -> & Hws & Hsg & Hne & Hds) Hr.
  destruct ds as [|c ds]; [congruence|].
  pose proof (Forall_inv Hds) as Hc. simpl in Hc.
  unfold scan_int. rewrite <- !app_assoc, skip_space_app by exact Hws.
  destruct Hsg as [[-> ->] | [[-> ->] | [-> ->]]]; simpl app;
    [ rewrite skip_space_nonspace by (now apply isdigit_nonspace);
      rewrite scan_sign_digit by exact Hc | | ];
    simpl; rewrite ?Hc;
    rewrite scan_digits_app by (first [exact (Forall_inv_tail Hds) | exact Hr]);
    reflexivity.
Qed.

Lemma digits_nonempty d t ds rest :
  isdigit d = true -> d :: t = ds ++ rest -> no_digit_ahead rest -> ds <> [].
Proof.
  intros Hd E Hr ->. simpl in E. rewrite (Hr d t (eq_sym E)) in Hd. discriminate.
Qed.

Lemma scan_int_inv s v rest :
  scan_int s = Some (v, rest) ->
  exists p, s = p ++ rest /\ int_token p v /\ no_digit_ahead rest.
Proof.
  unfold scan_int. intro H.
  destruct (skip_space_split s) as (ws & E & Hws & Hh).
  destruct (skip_space s) as [|c t] eqn:Es; [discriminate H|].
  simpl scan_sign in H.
  destruct (Ascii.eqb_spec c "-") as [->|Hm];
  [| destruct (Ascii.eqb_spec c "+") as [->|Hp]].
  - destruct t as [|d t']; [discriminate H|].
    destruct (isdigit d) eqn:Hd; [|discriminate H].
    destruct (scan_digits (d :: t') 0) as [n r] eqn:Sd.
    inversion H; subst v r.
    destruct (scan_digits_inv _ _ _ _ Sd) as (ds & Et & Hds & Hr & ->).
    exists (ws ++ ["-"%char] ++ ds). split; [|split; [|exact Hr]].
    + rewrite E, Et. now rewrite <- !app_assoc.
    + exists ws, ["-"%char], ds. repeat split; auto.
      eapply digits_nonempty; eauto.
  - destruct t as [|d t']; [discriminate H|].
    destruct (isdigit d) eqn:Hd; [|discriminate H].
    destruct (scan_digits (d :: t') 0) as [n r] eqn:Sd.
    inversion H; subst v r.
    destruct (scan_digits_inv _ _ _ _ Sd) as (ds & Et & Hds & Hr & ->).
    exists (ws ++ ["+"%char] ++ ds). split; [|split; [|exact Hr]].
    + rewrite E, Et. now rewrite <- !app_assoc.
    + exists ws, ["+"%char], ds. repeat split; auto.
      eapply digits_nonempty; eauto.
  - destruct (isdigit c) eqn:Hc; [|discriminate H].
    destruct (scan_digits (c :: t) 0) as [n r] eqn:Sd.
    inversion H; subst v r.
    destruct (scan_digits_inv _ _ _ _ Sd) as (ds & Et & Hds & Hr & ->).
    exists (ws ++ ds). split; [|split; [|exact Hr]].
    + rewrite E, Et. now rewrite <- !app_assoc.
    + exists ws, [], ds. repeat split; auto.
      eapply digits_nonempty; eauto.
Qed.

Lemma match_char_eq c t : match_char c (c :: t) = Some t.
Proof. simpl. now rewrite Ascii.eqb_refl. Qed.

Lemma match_char_inv c s t : match_char c s = Some t -> s = c :: t.
Proof.
  destruct s as [|c' s']; simpl; [discriminate|].
  destruct (Ascii.eqb_spec c' c) as [->|]; [congruence|discriminate].
Qed.

Lemma no_digit_dash t : no_digit_ahead ("-"%char :: t).
Proof. intros c t' E. inversion E. reflexivity. Qed.

(** [sscanf] reports three conversions exactly on texts of the grammar. *)
Lemma sscanf_date_grammar s y m d :
  date_grammar s y m d -> sscanf_date s = (3, (y, m, d)).
Proof.
  intros (p1 & p2 & p3 & rest & -> & H1 & H2 & H3 & Hr).
  unfold sscanf_date.
  rewrite (scan_int_token p1 y) by (auto using no_digit_dash).
  rewrite match_char_eq.
  rewrite (scan_int_token p2 m) by (auto using no_digit_dash).
  rewrite match_char_eq.
  now rewrite (scan_int_token p3 d).
Qed.

Lemma sscanf_date_three s y m d :
  sscanf_date s = (3, (y, m, d)) -> date_grammar s y m d.
Proof.
  unfold sscanf_date.
  destruct (scan_int s) as [[y' r1]|] eqn:S1;
    [|destruct (skip_space s); discriminate].
  destruct (match_char "-" r1) as [r1'|] eqn:M1; [|discriminate].
  destruct (scan_int r1') as [[m' r2]|] eqn:S2; [|discriminate].
  destruct (match_char "-" r2) as [r2'|] eqn:M2; [|discriminate].
  destruct (scan_int r2') as [[d' r3]|] eqn:S3; [|discriminate].
  intro E; inversion E; subst y' m' d'.
  destruct (scan_int_inv _ _ _ S1) as (p1 & -> & H1 & _).
  destruct (scan_int_inv _ _ _ S2) as (p2 & -> & H2 & _).
  destruct (scan_int_inv _ _ _ S3) as (p3 & -> & H3 & Hr).
  apply match_char_inv in M1, M2. subst.
  exists p1, p2, p3, r3. repeat split; auto.
Qed.

Lemma is_valid_date_gregorian y m d : is_valid_date y m d = gregorian_valid y m d.
Proof.
  unfold is_valid_date, gregorian_valid, nr_days_month, leap_year, MINYEAR, MAXYEAR.
  destruct (Z.ltb_spec y 1), (Z.gtb_spec y 9999), (Z.leb_spec 1 y), (Z.leb_spec y 9999);
    simpl; try lia; rewrite ?andb_false_r; try reflexivity.
  destruct (Z.ltb_spec m 1), (Z.gtb_spec m 12), (Z.leb_spec 1 m), (Z.leb_spec m 12);
    simpl; try lia; rewrite ?andb_false_r; try reflexivity.
  assert (m = 1 \/ m = 2 \/ m = 3 \/ m = 4 \/ m = 5 \/ m = 6 \/ m = 7 \/ m = 8 \/
          m = 9 \/ m = 10 \/ m = 11 \/ m = 12) as Hm by lia.
  destruct (Z.ltb_spec d 1), (Z.leb_spec 1 d); simpl; try lia; try reflexivity;
  repeat destruct Hm as [-> | Hm]; subst; unfold gregorian_days; simpl;
    try (destruct (_ && _); simpl);
    match goal with |- negb (d >? ?k) = (d <=? ?k) => now rewrite Z.gtb_ltb, Z.leb_antisym end.
Qed.

(** C1: on a text of the grammar ["%d-%d-%d"] the date codec returns the
    parsed date when it is a valid Gregorian date (year in [1,9999], month
    in [1,12], day within the month, February by the leap-year test) and
    [None] otherwise; it raises [ValueError] exactly on the texts that do
    not match the grammar. *)
Theorem mytopy_date_spec :
  (forall s y m d, date_grammar s y m d ->
     mytopy_date s = if gregorian_valid y m d then PyDate y m d else DateNone) /\
  (forall s, mytopy_date s = DateValueError <-> ~ exists y m d, date_grammar s y m d).
Proof.
  split.
  - intros s y m d H. unfold mytopy_date.
    rewrite (sscanf_date_grammar _ _ _ _ H). simpl.
    now rewrite is_valid_date_gregorian.
  - intro s. split.
    + intros Herr (y & m & d & H). unfold mytopy_date in Herr.
      rewrite (sscanf_date_grammar _ _ _ _ H) in Herr. simpl in Herr.
      destruct (is_valid_date y m d); discriminate.
    + intros Hno. unfold mytopy_date.
      destruct (sscanf_date s) as [n [[y m] d]] eqn:E.
      destruct (Z.eqb_spec n 3) as [->|]; [|reflexivity].
      exfalso. apply Hno. exists y, m, d. now apply sscanf_date_three.
Qed.

Lemma mytopy_date_spec_witness :
  date_grammar (cstr_of "2023-02-29") 2023 2 29 /\
  mytopy_date (cstr_of "2023-02-29") = DateNone.
Proof.
  assert (G : date_grammar (cstr_of "2023-02-29") 2023 2 29).
  { exists (cstr_of "2023"), (cstr_of "02"), (cstr_of "29"), [].
    split; [reflexivity|].
    split; [|split; [|split]].
    - exists [], [], (cstr_of "2023"). repeat split; auto; [discriminate|].
      repeat constructor.
    - exists [], [], (cstr_of "02"). repeat split; auto; [discriminate|].
      repeat constructor.
    - exists [], [], (cstr_of "29"). repeat split; auto; [discriminate|].
      repeat constructor.
    - intros c t E; discriminate. }
  split; [exact G|].
  exact (proj1 mytopy_date_spec _ _ _ _ G).
Defined.

(** C2 (code defect): the fraction scanner of [mytopy_datetime] starts
    with [field_length= 6] after having read the first fractional digit, so
    it accumulates seven digits instead of six.  On the spec's own example
    the microseconds part becomes 1234567, which [is_valid_time] rejects:
    the codec returns [None] instead of a datetime with 123456 us. *)
Theorem mytopy_datetime_seven_digit_fraction :
  part (dt_parse (cstr_of "2024-01-01 00:00:00.1234567") 27) 6 = 1234567 /\
  mytopy_datetime (cstr_of "2024-01-01 00:00:00.1234567") 27 = DateTimeNone.
Proof. split; reflexivity. Qed.

(** ** Lemmas on the TIME scanner *)

Lemma zlen_cons c s : zlen (c :: s) = 1 + zlen s.
Proof. unfold zlen. cbn [List.length]. lia. Qed.

Lemma zlen_app s t : zlen (s ++ t) = zlen s + zlen t.
Proof. unfold zlen. rewrite List.length_app. lia. Qed.

Lemma zlen_nonneg s : 0 <= zlen s.
Proof. unfold zlen. lia. Qed.

Lemma digit_loop_app ds r a v :
  Forall (fun c => isdigit c = true) ds -> no_digit_ahead r -> 0 <= a ->
  digit_loop (ds ++ r) (zlen ds + a) v =
  (r, a, fold_left (fun a c => a * 10 + digit_val c) ds v).
Proof.
  intros Hds Hr Ha. revert v. induction Hds as [|c ds Hc Hds IH]; intro v.
  - cbn [app fold_left]. change (zlen []) with 0. rewrite Z.add_0_l.
    destruct r as [|c t]; [reflexivity|]. cbn [digit_loop].
    now rewrite (Hr c t eq_refl), andb_false_r.
  - cbn [app fold_left digit_loop]. rewrite zlen_cons, Hc.
    pose proof (zlen_nonneg ds).
    replace (1 + zlen ds + a =? 0) with false by lia.
    cbn [negb andb]. replace (1 + zlen ds + a - 1) with (zlen ds + a) by lia. apply IH.
Qed.

Lemma frac_loop_digits f0 fs fl v :
  Forall (fun c => isdigit c = true) fs -> zlen fs <= fl ->
  frac_loop (f0 :: fs) (1 + zlen fs) fl v =
  (fold_left (fun a c => a * 10 + digit_val c) fs v, fl - zlen fs).
Proof.
  intros Hfs. revert f0 fl v. induction Hfs as [|c fs Hc Hfs IH]; intros f0 fl v Hl.
  - simpl. change (zlen []) with 0. now rewrite Z.sub_0_r.
  - rewrite zlen_cons in *. pose proof (zlen_nonneg fs).
    remember (c :: fs) as l eqn:El. cbn [frac_loop]. subst l. cbn [deref]. rewrite Hc.
    replace (1 + (1 + zlen fs) =? 0) with false by lia. simpl negb. cbn iota.
    replace (fl >? 0) with true by (symmetry; apply Z.gtb_lt; lia).
    cbn [andb].
    match goal with |- context [frac_loop _ ?a _ _] => replace a with (1 + zlen fs) by lia end.
    rewrite IH by lia. cbn [fold_left]. f_equal. lia.
Qed.

Lemma iter_times10 n v : Nat.iter n (fun v => v * 10) v = v * 10 ^ Z.of_nat n.
Proof.
  induction n as [|n IH]; simpl Nat.iter.
  - simpl. lia.
  - rewrite IH, Nat2Z.inj_succ, Z.pow_succ_r by lia. ring.
Qed.

Lemma Forall_digit_head c ds :
  Forall (fun c => isdigit c = true) (c :: ds) -> isdigit c = true.
Proof. intro H. exact (Forall_inv H). Qed.

Lemma digit_not_dash c : isdigit c = true -> Ascii.eqb c "-" = false.
Proof. intro H. destruct (Ascii.eqb_spec c "-") as [->|]; [discriminate H|reflexivity]. Qed.

Lemma digit_not_colon c : isdigit c = true -> Ascii.eqb c ":" = false.
Proof. intro H. destruct (Ascii.eqb_spec c ":") as [->|]; [discriminate H|reflexivity]. Qed.

Lemma no_digit_char c t : isdigit c = false -> no_digit_ahead (c :: t).
Proof. intros H c' t' E. now inversion E; subst. Qed.

Lemma no_digit_nil : no_digit_ahead [].
Proof. intros c t E. discriminate. Qed.

Lemma time_groups_continue f part parts ds c rest :
  Forall (fun c => isdigit c = true) ds -> isdigit c = true -> (S part =? 4)%nat = false ->
  time_groups (S f) part parts (ds ++ ":"%char :: c :: rest) (zlen (ds ++ ":"%char :: c :: rest))
  = time_groups f (S part) (set_part parts part (digits_value ds)) (c :: rest)
                (zlen (c :: rest)).
Proof.
  intros Hds Hc H4. rewrite zlen_app.
  cbn [time_groups]. rewrite digit_loop_app; [| exact Hds | now apply no_digit_char | ].
  - cbn zeta. rewrite H4. rewrite !zlen_cons. pose proof (zlen_nonneg rest).
    replace (1 + (1 + zlen rest) <? 2) with false by lia.
    cbn [deref tl]. rewrite Ascii.eqb_refl, Hc. cbn [negb orb].
    f_equal. lia.
  - rewrite !zlen_cons. pose proof (zlen_nonneg rest). lia.
Qed.

Lemma time_groups_stop f part parts ds fr :
  Forall (fun c => isdigit c = true) ds ->
  (fr = [] \/ exists df, fr = "."%char :: df) ->
  time_groups (S f) part parts (ds ++ fr) (zlen (ds ++ fr))
  = (set_part parts part (digits_value ds), fr, zlen fr).
Proof.
  intros Hds Hfr. rewrite zlen_app.
  cbn [time_groups].
  destruct Hfr as [-> | (df & ->)].
  - rewrite digit_loop_app by (auto using no_digit_nil; reflexivity || lia).
    cbn zeta. change (zlen []) with 0. cbn. now destruct (part =? 3)%nat.
  - rewrite digit_loop_app; [| exact Hds | now apply no_digit_char | apply zlen_nonneg].
    cbn zeta. cbn [deref]. replace (Ascii.eqb "." ":") with false by reflexivity.
    now rewrite !orb_true_r.
Qed.

Lemma pad_fraction_pow k v : 0 <= k -> pad_fraction k v = v * 10 ^ k.
Proof.
  intro Hk. unfold pad_fraction. replace (k >=? 0) with true by (symmetry; apply Z.geb_le; lia).
  rewrite iter_times10, Z2Nat.id by lia. reflexivity.
Qed.

Lemma time_parse_text neg dh dm ds frac :
  all_digits dh -> all_digits dm -> all_digits ds -> frac_ok frac ->
  time_parse (time_text neg dh dm ds frac) (zlen (time_text neg dh dm ds frac)) =
  (neg, [digits_value dh; digits_value dm; digits_value ds; frac_usecs frac]).
Proof.
  intros [Hh Hdh] [Hm Hdm] [Hs Hds] Hf.
  destruct dh as [|h dh']; [congruence|].
  destruct dm as [|m dm']; [congruence|].
  destruct ds as [|s ds']; [congruence|].
  pose proof (Forall_inv Hdh) as Hh0. pose proof (Forall_inv Hdm) as Hm0.
  pose proof (Forall_inv Hds) as Hs0. simpl in Hh0, Hm0, Hs0.
  set (fr := match frac with None => [] | Some df => "."%char :: df end).
  assert (Hfr : fr = [] \/ exists df, fr = "."%char :: df).
  { destruct frac; [right; eexists; reflexivity | left; reflexivity]. }
  set (body := (h :: dh') ++ ":"%char :: (m :: dm') ++ ":"%char :: (s :: ds') ++ fr).
  assert (Hgroups : time_groups 4 0 [0; 0; 0; 0] body (zlen body) =
    ([digits_value (h :: dh'); digits_value (m :: dm'); digits_value (s :: ds'); 0],
     fr, zlen fr)).
  { unfold body.
    change ((m :: dm') ++ ":"%char :: (s :: ds') ++ fr)
      with (m :: (dm' ++ ":"%char :: (s :: ds') ++ fr)).
    rewrite time_groups_continue by (auto; reflexivity).
    change (m :: dm' ++ ":"%char :: (s :: ds') ++ fr)
      with ((m :: dm') ++ ":"%char :: s :: ds' ++ fr).
    rewrite time_groups_continue by (auto; reflexivity).
    change (s :: ds' ++ fr) with ((s :: ds') ++ fr).
    rewrite time_groups_stop by auto. reflexivity. }
  assert (Hpre : time_text neg (h :: dh') (m :: dm') (s :: ds') frac =
                 (if neg then ["-"%char] else []) ++ body) by reflexivity.
  rewrite Hpre. unfold time_parse.
  assert (Hneg : (let '(negative, p0, left0) :=
                    if Ascii.eqb (deref ((if neg then ["-"%char] else []) ++ body)) "-"
                    then (true, tl ((if neg then ["-"%char] else []) ++ body),
                          zlen ((if neg then ["-"%char] else []) ++ body) - 1)
                    else (false, (if neg then ["-"%char] else []) ++ body,
                          zlen ((if neg then ["-"%char] else []) ++ body)) in
                  (negative, p0, left0)) = (neg, body, zlen body)).
  { destruct neg; cbn [app deref tl].
    - rewrite Ascii.eqb_refl, zlen_cons. f_equal. lia.
    - unfold body. cbn [app deref]. now rewrite digit_not_dash. }
  destruct (if Ascii.eqb (deref ((if neg then ["-"%char] else []) ++ body)) "-"
            then _ else _) as [[negative p0] left0] eqn:E.
  cbn zeta in Hneg. inversion Hneg; subst negative p0 left0. clear Hneg E.
  rewrite Hgroups.
  destruct Hf as [-> | (df & -> & [Hne Hdf] & Hl)].
  - reflexivity.
  - destruct df as [|f0 fs]; [congruence|].
    unfold fr. rewrite !zlen_cons in *. pose proof (zlen_nonneg fs).
    replace (1 + (1 + zlen fs) =? 0) with false by lia.
    replace (1 + (1 + zlen fs) >=? 2) with true by (symmetry; apply Z.geb_le; lia).
    cbn [deref tl negb andb]. rewrite Ascii.eqb_refl.
    replace (1 + (1 + zlen fs) - 1) with (1 + zlen fs) by lia.
    rewrite frac_loop_digits by (auto; exact (Forall_inv_tail Hdf) || lia).
    rewrite pad_fraction_pow by lia.
    unfold frac_usecs, digits_value. rewrite zlen_cons. cbn [fold_left set_part].
    replace (6 - (1 + zlen fs)) with (5 - zlen fs) by lia. reflexivity.
Qed.

Lemma normalize_pair x y f :
  0 < f ->
  (if (y <? 0) || (y >=? f) then (x + y / f, y mod f) else (x, y)) = (x + y / f, y mod f).
Proof.
  intro Hf. destruct ((y <? 0) || (y >=? f)) eqn:E; [reflexivity|].
  apply orb_false_iff in E as [E1 E2].
  apply Z.ltb_ge in E1. rewrite Z.geb_leb in E2. apply Z.leb_gt in E2.
  rewrite Z.div_small, Z.mod_small by lia. f_equal. lia.
Qed.

Lemma delta_from_dsu_eq d s us :
  delta_from_dsu d s us =
  let s1 := s + us / 1000000 in
  let d1 := d + s1 / 86400 in
  if Z.abs d1 >? 999999999 then DeltaOverflow
  else PyDelta d1 (s1 mod 86400) (us mod 1000000).
Proof.
  unfold delta_from_dsu. rewrite normalize_pair by lia. cbn zeta.
  rewrite normalize_pair by lia. reflexivity.
Qed.

Lemma delta_from_dsu_spec d s us :
  Z.abs (d + (s + us / 1000000) / 86400) <= 999999999 ->
  exists d1 s1 us1, delta_from_dsu d s us = PyDelta d1 s1 us1 /\
    0 <= s1 < 86400 /\ 0 <= us1 < 1000000 /\
    (d1 * 86400 + s1) * 1000000 + us1 = (d * 86400 + s) * 1000000 + us.
Proof.
  intro Hb. rewrite delta_from_dsu_eq. cbn zeta.
  replace (Z.abs (d + (s + us / 1000000) / 86400) >? 999999999) with false
    by (symmetry; rewrite Z.gtb_ltb; apply Z.ltb_ge; lia).
  do 3 eexists. split; [reflexivity|].
  pose proof (Z.mod_pos_bound (s + us / 1000000) 86400 ltac:(lia)).
  pose proof (Z.mod_pos_bound us 1000000 ltac:(lia)).
  pose proof (Z.div_mod (s + us / 1000000) 86400 ltac:(lia)).
  pose proof (Z.div_mod us 1000000 ltac:(lia)).
  split; [lia|]. split; [lia|]. lia.
Qed.

Lemma digit_val_bounds c : isdigit c = true -> 0 <= digit_val c <= 9.
Proof.
  unfold isdigit, digit_val. intro H.
  apply andb_true_iff in H as [H1 H2]. apply Nat.leb_le in H1. apply Nat.leb_le in H2.
  lia.
Qed.

Lemma fold_digits_bounds ds acc :
  Forall (fun c => isdigit c = true) ds -> 0 <= acc ->
  acc * 10 ^ zlen ds <= fold_left (fun a c => a * 10 + digit_val c) ds acc
  < (acc + 1) * 10 ^ zlen ds.
Proof.
  intro Hds. revert acc. induction Hds as [|c ds Hc Hds IH]; intros acc Ha.
  - cbn. change (zlen []) with 0. lia.
  - cbn [fold_left]. rewrite zlen_cons. pose proof (zlen_nonneg ds).
    pose proof (digit_val_bounds c Hc).
    destruct (IH (acc * 10 + digit_val c)) as [IH1 IH2]; [lia|].
    rewrite Z.pow_add_r by lia. change (10 ^ 1) with 10.
    pose proof (Z.pow_pos_nonneg 10 (zlen ds) ltac:(lia) ltac:(lia)).
    split; nia.
Qed.

Lemma digits_value_bounds ds :
  Forall (fun c => isdigit c = true) ds -> 0 <= digits_value ds < 10 ^ zlen ds.
Proof.
  intro H. pose proof (fold_digits_bounds ds 0 H ltac:(lia)). unfold digits_value. lia.
Qed.

Lemma frac_usecs_bounds frac : frac_ok frac -> 0 <= frac_usecs frac < 1000000.
Proof.
  intros [-> | (df & -> & [Hne Hdf] & Hl)]; cbn [frac_usecs]; [lia|].
  pose proof (digits_value_bounds df Hdf) as [B1 B2].
  pose proof (zlen_nonneg df).
  pose proof (Z.pow_pos_nonneg 10 (6 - zlen df) ltac:(lia) ltac:(lia)).
  assert (E : 10 ^ zlen df * 10 ^ (6 - zlen df) = 1000000).
  { rewrite <- Z.pow_add_r by lia. now replace (zlen df + (6 - zlen df)) with 6 by lia. }
  nia.
Qed.

(** C4: a TIME text ["[-]HH:MM:SS[.ffffff]"] is read as a signed
    duration: the sign is applied to every component before
    [PyDelta_FromDSU] normalises the result into days, seconds within the
    day and microseconds, whose total is the signed duration (hours beyond
    24 included).  The bounds keep every [int] of the C computation in
    range: the hour group, and [hours * 3600 + min * 60 + sec] with
    [|hours| <= 23] (two-digit minutes and seconds are far inside them);
    beyond them the C [int] arithmetic overflows. *)
Theorem mytopy_time_signed_duration neg dh dm ds frac :
  all_digits dh -> all_digits dm -> all_digits ds -> frac_ok frac ->
  digits_value dh < 2 ^ 31 ->
  23 * 3600 + digits_value dm * 60 + digits_value ds < 2 ^ 31 ->
  let txt := time_text neg dh dm ds frac in
  let sgn := if neg then -1 else 1 in
  let hr := sgn * digits_value dh in
  mytopy_time txt (zlen txt) =
    delta_from_dsu (Z.quot hr 24)
      (Z.rem hr 24 * 3600 + sgn * digits_value dm * 60 + sgn * digits_value ds)
      (sgn * frac_usecs frac) /\
  exists days secs usecs,
    mytopy_time txt (zlen txt) = PyDelta days secs usecs /\
    0 <= secs < 86400 /\ 0 <= usecs < 1000000 /\
    (days * 86400 + secs) * 1000000 + usecs =
    sgn * ((digits_value dh * 3600 + digits_value dm * 60 + digits_value ds) * 1000000
           + frac_usecs frac).
Proof.
  intros Hh Hm Hs Hf Bh Bms txt sgn hr.
  assert (E : mytopy_time txt (zlen txt) =
    delta_from_dsu (Z.quot hr 24)
      (Z.rem hr 24 * 3600 + sgn * digits_value dm * 60 + sgn * digits_value ds)
      (sgn * frac_usecs frac)).
  { unfold mytopy_time, txt. rewrite time_parse_text by assumption.
    cbn [part nth]. unfold hr, sgn.
    destruct neg; rewrite ?Z.mul_1_l, ?(Z.mul_comm (-1)); reflexivity. }
  split; [exact E|]. rewrite E.
  pose proof (digits_value_bounds dh (proj2 Hh)) as [Lh _].
  pose proof (digits_value_bounds dm (proj2 Hm)) as [Lm _].
  pose proof (digits_value_bounds ds (proj2 Hs)) as [Ls _].
  pose proof (frac_usecs_bounds frac Hf).
  pose proof (Z.quot_rem' hr 24).
  pose proof (Z.rem_bound_abs hr 24 ltac:(lia)).
  set (q := Z.quot hr 24) in *. set (r := Z.rem hr 24) in *.
  set (us := sgn * frac_usecs frac).
  set (s := r * 3600 + sgn * digits_value dm * 60 + sgn * digits_value ds).
  pose proof (Z.div_mod us 1000000 ltac:(lia)).
  pose proof (Z.mod_pos_bound us 1000000 ltac:(lia)).
  pose proof (Z.div_mod (s + us / 1000000) 86400 ltac:(lia)).
  pose proof (Z.mod_pos_bound (s + us / 1000000) 86400 ltac:(lia)).
  destruct (delta_from_dsu_spec q s us) as (d1 & s1 & us1 & -> & Hs1 & Hus1 & Htot).
  - unfold s, us, hr, sgn in *. destruct neg; lia.
  - exists d1, s1, us1. split; [reflexivity|]. split; [exact Hs1|]. split; [exact Hus1|].
    rewrite Htot. unfold s, us, hr, sgn in *. destruct neg; lia.
Qed.

Lemma mytopy_time_signed_duration_witness :
  mytopy_time (time_text true (cstr_of "25") (cstr_of "30") (cstr_of "00")
                 (Some (cstr_of "5")))
              (zlen (time_text true (cstr_of "25") (cstr_of "30") (cstr_of "00")
                 (Some (cstr_of "5"))))
  = PyDelta (-2) 80999 500000 /\
  exists days secs usecs,
    mytopy_time (time_text true (cstr_of "25") (cstr_of "30") (cstr_of "00")
                   (Some (cstr_of "5")))
                (zlen (time_text true (cstr_of "25") (cstr_of "30") (cstr_of "00")
                   (Some (cstr_of "5"))))
    = PyDelta days secs usecs /\ 0 <= secs < 86400 /\ 0 <= usecs < 1000000 /\
    (days * 86400 + secs) * 1000000 + usecs = -1 * ((25 * 3600 + 30 * 60 + 0) * 1000000 + 500000).
Proof.
  split; [reflexivity|].
  refine (proj2 (mytopy_time_signed_duration true (cstr_of "25") (cstr_of "30")
                   (cstr_of "00") (Some (cstr_of "5")) _ _ _ _ _ _)).
  - split; [discriminate | repeat constructor].
  - split; [discriminate | repeat constructor].
  - split; [discriminate | repeat constructor].
  - right. exists (cstr_of "5"). split; [reflexivity|]. split; [|vm_compute; discriminate].
    split; [discriminate | repeat constructor].
  - vm_compute. reflexivity.
  - vm_compute. reflexivity.
Defined.

(** C3: [mytopy_string] returns the raw bytes unchanged when the column
    has [BINARY_FLAG], unicode mode is off or the charset is ["binary"],
    and otherwise decodes them with the charset (a decode error when they
    are invalid); [python_characterset_name] maps [utf8mb4] and [utf8mb3]
    to ["utf8"] and a NULL name to ["latin1"]. *)
Theorem mytopy_string_spec `{CharsetDecoder} :
  (forall d len flags cs use_unicode,
     Z.land flags BINARY_FLAG <> 0 \/ use_unicode = 0 \/ cs = "binary"%string ->
     mytopy_string (Some d) len flags (Some cs) use_unicode = StrBytes (firstn len d)) /\
  (forall d len flags cs use_unicode,
     Z.land flags BINARY_FLAG = 0 -> use_unicode <> 0 -> cs <> "binary"%string ->
     mytopy_string (Some d) len flags (Some cs) use_unicode =
     match py_decode cs (firstn len d) with
     | Some t => StrUnicode t
     | None => StrDecodeError
     end) /\
  python_characterset_name (Some "utf8mb4"%string) = "utf8"%string /\
  python_characterset_name (Some "utf8mb3"%string) = "utf8"%string /\
  python_characterset_name None = "latin1"%string.
Proof.
  split; [|split; [|repeat split]].
  - intros d len flags cs u Hc. unfold mytopy_string.
    replace ((Z.land flags BINARY_FLAG =? 0) && negb (u =? 0) && negb (String.eqb cs "binary"))
      with false; [reflexivity|].
    destruct Hc as [Hf | [-> | ->]].
    + apply Z.eqb_neq in Hf. now rewrite Hf.
    + now rewrite andb_false_r, andb_false_l.
    + now rewrite andb_false_r.
  - intros d len flags cs u Hf Hu Hb. unfold mytopy_string.
    apply Z.eqb_eq in Hf. apply Z.eqb_neq in Hu. apply String.eqb_neq in Hb.
    now rewrite Hf, Hu, Hb.
Qed.

#[local] Instance identity_decoder : CharsetDecoder := fun _ b => Some b.

Lemma mytopy_string_spec_witness :
  mytopy_string (Some (cstr_of "abc")) 3 BINARY_FLAG (Some "utf8"%string) 1
    = StrBytes (cstr_of "abc") /\
  mytopy_string (Some (cstr_of "abc")) 3 0 (Some "utf8"%string) 1
    = StrUnicode (cstr_of "abc").
Proof.
  destruct (@mytopy_string_spec identity_decoder) as [H1 [H2 _]]. split.
  - apply (H1 (cstr_of "abc") 3%nat BINARY_FLAG "utf8"%string 1).
    left. vm_compute. discriminate.
  - apply (H2 (cstr_of "abc") 3%nat 0 "utf8"%string 1); [reflexivity | discriminate | discriminate].
Defined.

(** C10 (as amended): the session and statement raisers attach [errno],
    [sqlstate] and [msg]: the defaults 2006, ["HY000"] and ["MySQL server
    has gone away"] when the handle's error code is 0, otherwise exactly
    the handle's code, SQLSTATE and message; when the exception object
    cannot be built a [RuntimeError("Failed raising error.")] is set. *)
Theorem raise_with_handle_attributes :
  (forall conn exc ctor_ok,
     raise_with_session conn exc ctor_ok =
     if ctor_ok then
       let cls := match exc with Some e => e | None => MySQLInterfaceError end in
       if sess_errno conn =? 0
       then RaisedWith cls "MySQL server has gone away" 2006 "HY000"
       else RaisedWith cls (sess_error conn) (sess_errno conn) (sess_sqlstate conn)
     else RaisedRuntimeError "Failed raising error.") /\
  (forall stmt exc ctor_ok,
     raise_with_stmt stmt exc ctor_ok =
     if ctor_ok then
       let cls := match exc with Some e => e | None => MySQLInterfaceError end in
       if stmt_errno stmt =? 0
       then RaisedWith cls "MySQL server has gone away" 2006 "HY000"
       else RaisedWith cls (stmt_error stmt) (stmt_errno stmt) (stmt_sqlstate stmt)
     else RaisedRuntimeError "Failed raising error.").
Proof.
  split.
  - intros conn exc ctor_ok. unfold raise_with_session.
    destruct (sess_errno conn =? 0); destruct ctor_ok; reflexivity.
  - intros stmt exc ctor_ok. unfold raise_with_stmt.
    destruct (stmt_errno stmt =? 0); destruct ctor_ok; reflexivity.
Qed.

(** C10 as stated fails: a non-zero error code is passed through with
    the handle's message, which may be empty, and a failed construction
    raises a [RuntimeError] without the attributes. *)
Lemma raise_with_handle_empty_msg :
  ~ carries_error_attributes
      (raise_with_session
         {| sess_errno := 1045; sess_error := ""; sess_sqlstate := "28000" |} None true) /\
  ~ carries_error_attributes
      (raise_with_stmt
         {| stmt_errno := 2013; stmt_error := "Lost connection"; stmt_sqlstate := "HY000" |}
         None false).
Proof. split; cbn; [intros [H _]; congruence | intros []]. Qed.

(** ** Prepared fetch *)

Lemma upto_nul_no_nul s : ~ In NUL (upto_nul s).
Proof.
  induction s as [|c s IH]; cbn; [auto|].
  destruct (Ascii.eqb_spec c NUL) as [->|Hc]; [auto|].
  intros [H|H]; [congruence|auto].
Qed.

Lemma upto_nul_id s : ~ In NUL s -> upto_nul s = s.
Proof.
  induction s as [|c s IH]; intro H; cbn; [reflexivity|].
  destruct (Ascii.eqb_spec c NUL) as [->|Hc]; [exfalso; apply H; now left|].
  rewrite IH; [reflexivity|]. intro I; apply H; now right.
Qed.

Lemma strtok_comma_no_nul s : forall cur,
  ~ In NUL s -> ~ In NUL cur -> Forall (fun t => ~ In NUL t) (strtok_comma s cur).
Proof.
  induction s as [|c s IH]; intros cur Hs Hcur; cbn [strtok_comma].
  - destruct cur; repeat constructor. rewrite <- in_rev. assumption.
  - assert (Hs' : ~ In NUL s) by (intro I; apply Hs; now right).
    destruct (Ascii.eqb c ","); [destruct cur|].
    + apply IH; auto.
    + constructor; [rewrite <- in_rev; assumption|]. apply IH; auto.
    + apply IH; [auto|]. intros [H|H]; [apply Hs; left; auto|auto].
Qed.

Lemma set_add_tokens_ok toks :
  Forall (fun t => ~ In NUL t) toks ->
  set_add_tokens toks = if forallb utf8_valid toks then Some toks else None.
Proof.
  induction 1 as [|t ts Ht Hts IH]; [reflexivity|].
  cbn [set_add_tokens forallb]. unfold PyUnicode_FromString.
  rewrite (upto_nul_id t Ht), IH.
  destruct (utf8_valid t), (forallb utf8_valid ts); reflexivity.
Qed.








(** ** Text-protocol fetch *)

(** C6 (code bug). A cell whose conversion fails does not abort the row
    in every branch: a DATE cell [mytopy_date] rejects, or a TEXT cell
    (BLOB type without the binary flag) whose bytes do not decode, leaves a
    NULL item in the tuple, the loop goes on with the next cells and the
    partially filled row is returned with the exception still set. Only the
    VARCHAR/STRING/ENUM/VAR_STRING branch discards the row. *)
Lemma text_fetch_row_failed_cell_kept :
  fst (@MySQL_fetch_row ascii_only_decoder simple_numbers
         (example_conn [example_field MYSQL_TYPE_VAR_STRING 0 255;
                        example_field MYSQL_TYPE_DATE 0 255;
                        example_field MYSQL_TYPE_LONG 0 63]
                       [Some (cstr_of "ok"); Some (cstr_of "garbage"); Some (cstr_of "42")]
                       true))
    = FRRow [Some (PyStr (cstr_of "ok")); None; Some (PyInt 42)] true /\
  fst (@MySQL_fetch_row ascii_only_decoder simple_numbers
         (example_conn [example_field MYSQL_TYPE_VAR_STRING 0 255;
                        example_field MYSQL_TYPE_BLOB BLOB_FLAG 255]
                       [Some (cstr_of "ok"); Some (cstr_of ("caf" ++ String (ascii_of_nat 233) ""))]
                       true))
    = FRRow [Some (PyStr (cstr_of "ok")); None] true /\
  fst (@MySQL_fetch_row ascii_only_decoder simple_numbers
         (example_conn [example_field MYSQL_TYPE_VAR_STRING 0 255;
                        example_field MYSQL_TYPE_VAR_STRING 0 255]
                       [Some (cstr_of "ok"); Some (cstr_of ("caf" ++ String (ascii_of_nat 233) ""))]
                       true))
    = FRError.
Proof. split; [|split]; vm_compute; reflexivity. Qed.

(** C7 (amended). With no result handle, [MySQL_fetch_fields] raises
    [MySQLInterfaceError("No result")] (errno -1), while [MySQL_fetch_row]
    returns [None] without raising and leaves the connection unchanged. *)
Theorem no_result_fetch_behaviour `{CharsetDecoder} `{PyNumbers} (self : MySQL) :
  result self = None ->
  MySQL_fetch_fields self true
    = FieldsRaised (RaisedWith MySQLInterfaceError "No result" (-1) "") /\
  MySQL_fetch_row self = (FRNone false, self).
Proof.
  intros Hr. unfold MySQL_fetch_fields, MySQL_fetch_row. rewrite Hr. split; reflexivity.
Qed.

Lemma no_result_fetch_behaviour_witness :
  result conn_without_result = None /\
  @MySQL_fetch_fields ascii_only_decoder conn_without_result true
    = FieldsRaised (RaisedWith MySQLInterfaceError "No result" (-1) "") /\
  @MySQL_fetch_row ascii_only_decoder simple_numbers conn_without_result
    = (FRNone false, conn_without_result).
Proof.
  split; [reflexivity|].
  apply (@no_result_fetch_behaviour ascii_only_decoder simple_numbers conn_without_result).
  reflexivity.
Defined.

(** C7 (counterexample). The per-row fetch on a connection without a
    result handle succeeds silently: it returns [None] with no exception. *)
Lemma fetch_row_without_result_silent :
  fst (@MySQL_fetch_row ascii_only_decoder simple_numbers conn_without_result) = FRNone false.
Proof. reflexivity. Qed.

(** ** Column descriptors *)

Section FetchFieldsProofs.
Context `{CharsetDecoder}.

Lemma decode_subfield_ok i j f s short charset uu log v :
  decode_subfield i j f s short charset uu = (log, Some v) ->
  log = (if short && is_empty_cstr s then [] else [(i, j)])
  /\ text_item f s short charset uu v.
Proof.
  unfold decode_subfield, text_item.
  destruct (short && is_empty_cstr s); intros E; inversion E; auto.
Qed.

Lemma lbind_some {A B} (m : logged A) (k : A -> logged B) log b :
  lbind m k = (log, Some b) ->
  exists l1 a l2, m = (l1, Some a) /\ k a = (l2, Some b) /\ log = l1 ++ l2.
Proof.
  destruct m as [l1 [a|]]; cbn; [|congruence].
  destruct (k a) as [l2 r] eqn:Ek; intros E; inversion E; subst; eauto 7.
Qed.

Ltac split_lbind H :=
  let l := fresh "l" in let a := fresh "a" in let l' := fresh "l" in
  let Ha := fresh "Ha" in let Hk := fresh "Hk" in let Hl := fresh "Hl" in
  apply lbind_some in H; destruct H as (l & a & l' & Ha & Hk & Hl).

Lemma fetch_field_tuple_ok i f charset uu log d :
  fetch_field_tuple i f charset uu = (log, Some d) ->
  log = expected_calls i f /\ descriptor_of charset uu f d.
Proof.
  unfold fetch_field_tuple. intros E.
  split_lbind E. apply decode_subfield_ok in Ha as [-> T1].
  split_lbind Hk. apply decode_subfield_ok in Ha as [-> T2].
  split_lbind Hk0. apply decode_subfield_ok in Ha as [-> T3].
  split_lbind Hk. apply decode_subfield_ok in Ha as [-> T4].
  split_lbind Hk0. apply decode_subfield_ok in Ha as [-> T5].
  split_lbind Hk. apply decode_subfield_ok in Ha as [-> T6].
  inversion Hk0; subst. cbn [andb] in *.
  split.
  - unfold expected_calls. rewrite ?app_nil_r, <- ?app_assoc. reflexivity.
  - unfold descriptor_of; cbn. repeat split; assumption.
Qed.

Lemma fetch_fields_from_ok myfs : forall i charset uu log ds,
  fetch_fields_from i myfs charset uu = (log, Some ds) ->
  log = expected_calls_from i myfs /\ Forall2 (descriptor_of charset uu) myfs ds.
Proof.
  induction myfs as [|f fs IH]; intros i charset uu log ds E.
  - inversion E; subst. split; [reflexivity|constructor].
  - cbn [fetch_fields_from] in E.
    split_lbind E. apply fetch_field_tuple_ok in Ha as [-> D].
    split_lbind Hk. apply IH in Ha as [-> Ds].
    inversion Hk0; subst. rewrite !app_nil_r.
    split; [reflexivity|constructor; assumption].
Qed.

End FetchFieldsProofs.

(** C8 (amended). When [fetch_fields] succeeds it returns one 11-item
    descriptor per column: items 0-5 are the decoded catalog, schema,
    table, origin table, name and origin name, items 6-10 the charset id,
    maximum length, type, flags and decimals copied from the native
    metadata. Only table, origin table, name and origin name short-circuit
    to an empty [str] when empty; catalog and schema always go through the
    string decoder, so the decoder calls are exactly [expected_calls]. *)
Theorem fetch_fields_descriptors `{CharsetDecoder} (myfs : list mysql_field)
    (csname : option string) (uu : bool) (log : list (nat * nat)) (ds : list descriptor) :
  fetch_fields myfs csname uu = (log, Some ds) ->
  List.length ds = List.length myfs /\
  Forall2 (descriptor_of (python_characterset_name csname) uu) myfs ds /\
  log = expected_calls_from 0 myfs.
Proof.
  unfold fetch_fields. intros E.
  apply fetch_fields_from_ok in E as [-> F].
  split; [symmetry; eapply Forall2_length; eauto | auto].
Qed.

Lemma fetch_fields_descriptors_witness :
  exists log ds,
    @fetch_fields ascii_only_decoder [computed_column] (Some "utf8mb4"%string) true
      = (log, Some ds) /\
    List.length ds = List.length [computed_column] /\
    Forall2 (@descriptor_of ascii_only_decoder (python_characterset_name (Some "utf8mb4"%string)) true)
      [computed_column] ds /\
    log = expected_calls_from 0 [computed_column].
Proof.
  eexists; eexists; split; [reflexivity|].
  apply (@fetch_fields_descriptors ascii_only_decoder [computed_column]
           (Some "utf8mb4"%string) true).
  reflexivity.
Defined.

(** C8 (counterexample). For a computed column the empty schema subfield
    is still passed to the string decoder (call (0, 1)); only the empty
    table, origin-table and origin-name subfields are skipped. *)
Lemma fetch_fields_empty_schema_decoded :
  f_db computed_column = [] /\
  fst (@fetch_fields ascii_only_decoder [computed_column] (Some "utf8mb4"%string) true)
    = [(0%nat, 0%nat); (0%nat, 1%nat); (0%nat, 4%nat)].
Proof. split; reflexivity. Qed.

(** ** SET-flagged columns *)

(** C9 (code bug). The prepared path turns a SET column's ["a,b,c"] into
    the set of its tokens and [""] into an empty set, and so does the text
    path in unicode mode; with unicode mode off the text path's decoder
    returns bytes, [PyUnicode_Split] fails on them, and the row carries an
    empty set for ["a,b,c"] with a TypeError left set. *)
Lemma set_column_paths :
  MySQLPrepStmt_fetch_row [example_field MYSQL_TYPE_STRING SET_FLAG 255] [SET_FLAG] 0
      [example_cell false "a,b,c"]
    = ([EvUnbind 0; EvFetch; EvBindBuffer 0 5; EvFetchColumn 0],
       PrepRow [Some (PySet [cstr_of "a"; cstr_of "b"; cstr_of "c"])]) /\
  snd (MySQLPrepStmt_fetch_row [example_field MYSQL_TYPE_STRING SET_FLAG 255] [SET_FLAG] 0
         [example_cell false ""])
    = PrepRow [Some (PySet [])] /\
  fst (@MySQL_fetch_row ascii_only_decoder simple_numbers
         (example_conn [example_field MYSQL_TYPE_STRING SET_FLAG 255]
                       [Some (cstr_of "a,b,c")] true))
    = FRRow [Some (PySet [cstr_of "a"; cstr_of "b"; cstr_of "c"])] false /\
  fst (@MySQL_fetch_row ascii_only_decoder simple_numbers
         (example_conn [example_field MYSQL_TYPE_STRING SET_FLAG 255]
                       [Some (cstr_of "")] false))
    = FRRow [Some (PySet [])] false /\
  fst (@MySQL_fetch_row ascii_only_decoder simple_numbers
         (example_conn [example_field MYSQL_TYPE_STRING SET_FLAG 255]
                       [Some (cstr_of "a,b,c")] false))
    = FRRow [Some (PySet [])] true.
Proof. repeat split; vm_compute; reflexivity. Qed.

(** ** Decimal formatting *)

Lemma digit_char_ok d : 0 <= d <= 9 -> isdigit (digit_char d) = true /\ digit_val (digit_char d) = d.
Proof.
  intro H.
  assert (d = 0 \/ d = 1 \/ d = 2 \/ d = 3 \/ d = 4 \/ d = 5 \/ d = 6 \/ d = 7 \/ d = 8 \/ d = 9)
    as Hd by lia.
  repeat destruct Hd as [-> | Hd]; try subst d; split; reflexivity.
Qed.

Lemma digits_value_snoc ds c :
  digits_value (ds ++ [c]) = digits_value ds * 10 + digit_val c.
Proof. unfold digits_value. now rewrite fold_left_app. Qed.

Lemma dec_digits_spec fuel : forall n acc,
  0 <= n < 10 ^ Z.of_nat (S fuel) ->
  exists ds, dec_digits (S fuel) n acc = ds ++ acc /\ ds <> [] /\
    Forall (fun c => isdigit c = true) ds /\ digits_value ds = n /\
    10 ^ (zlen ds - 1) <= Z.max n 1.
Proof.
  induction fuel as [|f IH]; intros n acc Hn.
  - cbn [dec_digits]. change (10 ^ Z.of_nat 1) with 10 in Hn.
    replace (n <? 10) with true by (symmetry; apply Z.ltb_lt; lia).
    rewrite Z.mod_small by lia.
    destruct (digit_char_ok n ltac:(lia)) as [D V].
    exists [digit_char n]. split; [reflexivity|]. split; [congruence|].
    split; [constructor; auto|]. unfold digits_value. cbn. lia.
  - remember (S f) as sf. cbn [dec_digits]. subst sf.
    pose proof (Z.mod_pos_bound n 10 ltac:(lia)) as Hm.
    destruct (digit_char_ok (n mod 10) ltac:(lia)) as [D V].
    destruct (Z.ltb_spec n 10).
    + rewrite Z.mod_small in * by lia.
      exists [digit_char n]. split; [reflexivity|]. split; [congruence|].
      split; [constructor; auto|]. unfold digits_value. cbn. lia.
    + destruct (IH (n / 10) (digit_char (n mod 10) :: acc)) as (ds & E & Ne & F & Vd & L).
      { split; [apply Z.div_pos; lia|].
        apply Z.div_lt_upper_bound; [lia|].
        rewrite Nat2Z.inj_succ, Z.pow_succ_r in Hn by lia. lia. }
      exists (ds ++ [digit_char (n mod 10)]). rewrite E, <- app_assoc.
      split; [reflexivity|]. split; [destruct ds; cbn; congruence|].
      split; [apply Forall_app; split; auto|].
      split; [rewrite digits_value_snoc, Vd, V; pose proof (Z.div_mod n 10); lia|].
      rewrite zlen_app. change (zlen [digit_char (n mod 10)]) with 1.
      replace (zlen ds + 1 - 1) with (zlen ds - 1 + 1) by lia.
      assert (1 <= zlen ds) by (destruct ds; [congruence|rewrite zlen_cons; pose proof (zlen_nonneg ds); lia]).
      rewrite Z.pow_add_r by lia.
      assert (n / 10 >= 1) by (apply Z.le_ge, Z.div_le_lower_bound; lia).
      pose proof (Z.mul_div_le n 10 ltac:(lia)).
      rewrite Z.max_l in L by lia. rewrite Z.max_l by lia. lia.
Qed.

Lemma dec_fuel n : 0 <= n -> n < 10 ^ Z.of_nat (S (Z.to_nat (Z.log2 n))).
Proof.
  intro Hn. pose proof (Z.log2_nonneg n).
  rewrite Nat2Z.inj_succ, Z2Nat.id by lia.
  destruct (Z.eq_dec n 0) as [->|Hn0]; [cbn; lia|].
  destruct (Z.log2_spec n ltac:(lia)) as [_ H2].
  eapply Z.lt_le_trans; [exact H2|].
  apply Z.pow_le_mono_l. lia.
Qed.

Lemma dec_spec n : 0 <= n ->
  dec n <> [] /\ Forall (fun c => isdigit c = true) (dec n) /\ digits_value (dec n) = n /\
  10 ^ (zlen (dec n) - 1) <= Z.max n 1.
Proof.
  intro Hn. unfold dec.
  destruct (dec_digits_spec (Z.to_nat (Z.log2 n)) n [] (conj Hn (dec_fuel n Hn)))
    as (ds & E & Ne & F & V & L).
  rewrite E, app_nil_r. auto.
Qed.

Lemma digits_value_zeros k ds :
  digits_value (repeat "0"%char k ++ ds) = digits_value ds.
Proof.
  unfold digits_value. rewrite fold_left_app. f_equal.
  induction k as [|k IH]; [reflexivity|]. cbn [repeat fold_left].
  change (digit_val "0") with 0. rewrite Z.mul_0_l, Z.add_0_l. exact IH.
Qed.

Lemma pad0_digits w ds :
  Forall (fun c => isdigit c = true) ds ->
  Forall (fun c => isdigit c = true) (pad0 w ds).
Proof.
  intro H. unfold pad0. apply Forall_app. split; [|exact H].
  apply Forall_forall. intros x Hx. apply repeat_spec in Hx. now subst.
Qed.

Lemma pad0_length w ds : List.length (pad0 w ds) = Nat.max w (List.length ds).
Proof. unfold pad0. rewrite List.length_app, repeat_length. lia. Qed.

(** A field [printf("%0wd", n)] for [0 <= n < 10^w]: exactly [w] digits
    that read back as [n]. *)
Lemma printf_0d_field w n :
  (1 <= w)%nat -> 0 <= n < 10 ^ Z.of_nat w ->
  all_digits (printf_0d w n) /\ digits_value (printf_0d w n) = n /\
  List.length (printf_0d w n) = w.
Proof.
  intros Hw Hn. unfold printf_0d.
  replace (n <? 0) with false by (symmetry; apply Z.ltb_ge; lia).
  destruct (dec_spec n ltac:(lia)) as (Ne & F & V & L).
  split; [split|split].
  - unfold pad0. destruct (repeat _ _); cbn; [exact Ne | congruence].
  - now apply pad0_digits.
  - unfold pad0. now rewrite digits_value_zeros.
  - rewrite pad0_length.
    enough (List.length (dec n) <= w)%nat by lia.
    assert (10 <= 10 ^ Z.of_nat w).
    { change 10 with (10 ^ 1) at 1. apply Z.pow_le_mono_r; lia. }
    assert (Hlt : zlen (dec n) - 1 < Z.of_nat w).
    { apply (Z.pow_lt_mono_r_iff 10); lia. }
    unfold zlen in Hlt. lia.
Qed.

(** ** Temporal encoders against the decoders *)

Lemma mytopy_time_text_eq neg dh dm ds frac :
  all_digits dh -> all_digits dm -> all_digits ds -> frac_ok frac ->
  mytopy_time (time_text neg dh dm ds frac) (zlen (time_text neg dh dm ds frac)) =
  let sgn := if neg then -1 else 1 in
  let hr := sgn * digits_value dh in
  delta_from_dsu (Z.quot hr 24)
    (Z.rem hr 24 * 3600 + sgn * digits_value dm * 60 + sgn * digits_value ds)
    (sgn * frac_usecs frac).
Proof.
  intros Hh Hm Hs Hf. unfold mytopy_time. rewrite time_parse_text by auto.
  cbn [part nth]. destruct neg; cbn zeta;
    replace (digits_value dh * -1) with (-1 * digits_value dh) by ring;
    replace (digits_value dm * -1) with (-1 * digits_value dm) by ring;
    replace (digits_value ds * -1) with (-1 * digits_value ds) by ring;
    replace (frac_usecs frac * -1) with (-1 * frac_usecs frac) by ring;
    rewrite ?Z.mul_1_l; reflexivity.
Qed.

Lemma snprintf_short n s : (List.length s <= n - 1)%nat -> snprintf n s = s.
Proof. intro H. unfold snprintf. now apply firstn_all2. Qed.

Lemma two_digit_field n : 0 <= n <= 99 ->
  all_digits (printf_0d 2 n) /\ digits_value (printf_0d 2 n) = n /\
  List.length (printf_0d 2 n) = 2%nat.
Proof. intro H. apply printf_0d_field; cbn; lia. Qed.

Lemma six_digit_field n : 0 <= n <= 999999 ->
  all_digits (printf_0d 6 n) /\ digits_value (printf_0d 6 n) = n /\
  List.length (printf_0d 6 n) = 6%nat.
Proof. intro H. apply printf_0d_field; cbn; lia. Qed.

Lemma frac_of_six us : 0 <= us <= 999999 ->
  frac_ok (Some (printf_0d 6 us)) /\ frac_usecs (Some (printf_0d 6 us)) = us.
Proof.
  intro H. destruct (six_digit_field us H) as (A & V & L).
  assert (Z6 : zlen (printf_0d 6 us) = 6) by (unfold zlen; rewrite L; reflexivity).
  split.
  - right. eexists. split; [reflexivity|]. split; [exact A|lia].
  - cbn [frac_usecs]. rewrite V, Z6. lia.
Qed.

(** [pytomy_time] writes a valid [datetime.time] as ["HH:MM:SS[.ffffff]"]. *)
Lemma pytomy_time_text_shape h mi s us :
  0 <= h <= 23 -> 0 <= mi <= 59 -> 0 <= s <= 59 -> 0 <= us <= 999999 ->
  pytomy_time_text h mi s us =
  time_text false (printf_0d 2 h) (printf_0d 2 mi) (printf_0d 2 s)
    (if us =? 0 then None else Some (printf_0d 6 us)).
Proof.
  intros Hh Hm Hs Hu.
  destruct (two_digit_field h ltac:(lia)) as (_ & _ & Lh).
  destruct (two_digit_field mi ltac:(lia)) as (_ & _ & Lm).
  destruct (two_digit_field s ltac:(lia)) as (_ & _ & Ls).
  destruct (six_digit_field us ltac:(lia)) as (_ & _ & Lu).
  unfold pytomy_time_text, time_text. cbn [app].
  destruct (us =? 0); cbn [negb].
  - rewrite app_nil_r. apply snprintf_short.
    repeat (rewrite ?List.length_app; cbn [List.length]).
    rewrite Lh, Lm, Ls. cbn; lia.
  - apply snprintf_short.
    repeat (rewrite ?List.length_app; cbn [List.length]).
    rewrite Lh, Lm, Ls, Lu. cbn; lia.
Qed.

Lemma delta_from_dsu_small d s us :
  0 <= s < 86400 -> 0 <= us < 1000000 -> Z.abs d <= 999999999 ->
  delta_from_dsu d s us = PyDelta d s us.
Proof.
  intros Hs Hu Hd. rewrite delta_from_dsu_eq. cbn zeta.
  rewrite (Z.div_small us), Z.add_0_r by lia.
  rewrite (Z.div_small s), Z.add_0_r by lia.
  rewrite (Z.mod_small s), (Z.mod_small us) by lia.
  replace (Z.abs d >? 999999999) with false by (symmetry; rewrite Z.gtb_ltb; apply Z.ltb_ge; lia).
  reflexivity.
Qed.

(** Extra: a valid [datetime.time] encoded by [pytomy_time] decodes back
    through [mytopy_time] to the duration of the same hour, minute, second
    and microsecond. *)
Theorem pytomy_time_mytopy_time tp h mi s us str :
  0 <= h <= 23 -> 0 <= mi <= 59 -> 0 <= s <= 59 -> 0 <= us <= 999999 ->
  exists txt, pytomy_time (OTime tp h mi s us str) = EncBytes txt /\
    mytopy_time txt (zlen txt) = PyDelta 0 (h * 3600 + mi * 60 + s) us.
Proof.
  intros Hh Hm Hs Hu. eexists. split; [reflexivity|].
  rewrite pytomy_time_text_shape by assumption.
  destruct (two_digit_field h ltac:(lia)) as (Ah & Vh & _).
  destruct (two_digit_field mi ltac:(lia)) as (Am & Vm & _).
  destruct (two_digit_field s ltac:(lia)) as (As & Vs & _).
  destruct (frac_of_six us Hu) as (Fo & Fv).
  assert (Hf : frac_ok (if us =? 0 then None else Some (printf_0d 6 us))
            /\ frac_usecs (if us =? 0 then None else Some (printf_0d 6 us)) = us).
  { case_eq (us =? 0); intro E; [|now split].
    apply Z.eqb_eq in E. subst us. split; [now left|reflexivity]. }
  destruct Hf as (Hf1 & Hf2).
  rewrite mytopy_time_text_eq by assumption. cbn zeta.
  rewrite Vh, Vm, Vs, Hf2, !Z.mul_1_l.
  rewrite Z.quot_small, Z.rem_small by lia.
  apply delta_from_dsu_small; lia.
Qed.

Lemma pytomy_time_mytopy_time_witness :
  (0 <= 13 <= 23 /\ 0 <= 5 <= 59 /\ 0 <= 9 <= 59 /\ 0 <= 250 <= 999999) /\
  exists txt, pytomy_time (OTime "datetime.time" 13 5 9 250 []) = EncBytes txt /\
    mytopy_time txt (zlen txt) = PyDelta 0 (13 * 3600 + 5 * 60 + 9) 250.
Proof.
  split; [lia|]. apply pytomy_time_mytopy_time; lia.
Defined.

Lemma c_int_of_small v : 0 <= v < 2 ^ 31 -> c_int_of v = v.
Proof.
  intro H. unfold c_int_of, strtol_clamp, wrap32.
  rewrite Z.min_r, Z.max_r by lia. rewrite Z.mod_small by lia.
  replace (2 ^ 31 <=? v) with false by (symmetry; apply Z.leb_gt; lia). reflexivity.
Qed.

Lemma int_token_printf_d n : 0 <= n < 2 ^ 31 -> int_token (printf_d n) n.
Proof.
  intro H. unfold printf_d. replace (n <? 0) with false by (symmetry; apply Z.ltb_ge; lia).
  destruct (dec_spec n ltac:(lia)) as (Ne & F & V & _).
  exists [], [], (dec n). split; [reflexivity|]. split; [constructor|].
  split; [left; split; [reflexivity|]; rewrite V, c_int_of_small by lia; reflexivity|].
  auto.
Qed.

(** Extra: [pytomy_date] writes a date as the text of [printf("%d-%d-%d")]
    of its year, month and day, without zero padding (since
    [PyBytes_FromFormat] ignores the widths of [%04d] and [%02d]), and for
    a valid date [mytopy_date] reads that text back to the same date. *)
Theorem pytomy_date_mytopy_date o y m d :
  (match o with ODate _ _ y' m' d' _ => y' = y /\ m' = m /\ d' = d
   | ODateTime _ y' m' d' _ _ _ _ _ => y' = y /\ m' = m /\ d' = d | _ => False end) ->
  is_valid_date y m d = true ->
  pytomy_date o = EncBytes (printf_d y ++ "-"%char :: printf_d m ++ "-"%char :: printf_d d) /\
  mytopy_date (printf_d y ++ "-"%char :: printf_d m ++ "-"%char :: printf_d d) = PyDate y m d.
Proof.
  intros Ho Hv.
  split; [destruct o; try contradiction; destruct Ho as (-> & -> & ->); reflexivity|].
  pose proof Hv as Hv0.
  rewrite is_valid_date_gregorian in Hv. unfold gregorian_valid, gregorian_days in Hv.
  repeat rewrite andb_true_iff in Hv. rewrite !Z.leb_le in Hv.
  assert (d <= 31) by (destruct (m =? 2); [destruct (_ && _)|destruct (_ || _)]; lia).
  unfold mytopy_date.
  rewrite (sscanf_date_grammar _ y m d).
  - rewrite Z.eqb_refl, Hv0. reflexivity.
  - exists (printf_d y), (printf_d m), (printf_d d), []. rewrite app_nil_r.
    split; [reflexivity|].
    split; [apply int_token_printf_d; lia|]. split; [apply int_token_printf_d; lia|].
    split; [apply int_token_printf_d; lia|]. apply no_digit_nil.
Qed.

Lemma pytomy_date_mytopy_date_witness :
  (2024 = 2024 /\ 2 = 2 /\ 9 = 9) /\ is_valid_date 2024 2 9 = true /\
  printf_d 2024 ++ "-"%char :: printf_d 2 ++ "-"%char :: printf_d 9 = cstr_of "2024-2-9" /\
  pytomy_date (ODate "datetime.date" true 2024 2 9 []) =
    EncBytes (printf_d 2024 ++ "-"%char :: printf_d 2 ++ "-"%char :: printf_d 9) /\
  mytopy_date (printf_d 2024 ++ "-"%char :: printf_d 2 ++ "-"%char :: printf_d 9) = PyDate 2024 2 9.
Proof.
  split; [auto|]. split; [reflexivity|]. split; [reflexivity|].
  apply (pytomy_date_mytopy_date (ODate "datetime.date" true 2024 2 9 [])).
  - auto.
  - reflexivity.
Defined.

(** ** Zero-padded fields of any width *)

Lemma dec_bounds n : 0 <= n ->
  10 ^ (zlen (dec n) - 1) <= Z.max n 1 /\ n < 10 ^ zlen (dec n).
Proof.
  intro Hn. destruct (dec_spec n Hn) as (_ & F & V & L). split; [exact L|].
  rewrite <- V at 1. now apply digits_value_bounds.
Qed.

Lemma dec_length_le n k : 0 <= n < 10 ^ k -> 1 <= k -> zlen (dec n) <= k.
Proof.
  intros Hn Hk. destruct (dec_bounds n ltac:(lia)) as [L _].
  destruct (Z.le_gt_cases (zlen (dec n)) k) as [|G]; [assumption|].
  exfalso. assert (10 ^ k <= 10 ^ (zlen (dec n) - 1)) by (apply Z.pow_le_mono_r; lia).
  assert (10 ^ 1 <= 10 ^ k) by (apply Z.pow_le_mono_r; lia). cbn in *. lia.
Qed.

Lemma dec_length_ge n k : 10 ^ (k - 1) <= n -> 1 <= k -> k <= zlen (dec n).
Proof.
  intros Hn Hk. assert (0 <= n) by (pose proof (Z.pow_pos_nonneg 10 (k - 1)); lia).
  destruct (dec_bounds n ltac:(lia)) as [_ U].
  destruct (Z.le_gt_cases k (zlen (dec n))) as [|G]; [assumption|].
  exfalso. pose proof (zlen_nonneg (dec n)).
  assert (10 ^ zlen (dec n) <= 10 ^ (k - 1)) by (apply Z.pow_le_mono_r; lia).
  lia.
Qed.

Lemma printf_0d_digits w n : (1 <= w)%nat -> 0 <= n ->
  all_digits (printf_0d w n) /\ digits_value (printf_0d w n) = n /\
  List.length (printf_0d w n) = Nat.max w (List.length (dec n)).
Proof.
  intros Hw Hn. unfold printf_0d.
  replace (n <? 0) with false by (symmetry; apply Z.ltb_ge; lia).
  destruct (dec_spec n Hn) as (Ne & F & V & _).
  split; [split|split].
  - unfold pad0. destruct (repeat _ _); cbn; [exact Ne | congruence].
  - now apply pad0_digits.
  - unfold pad0. now rewrite digits_value_zeros.
  - apply pad0_length.
Qed.

(** ** [pytomy_timedelta] *)

Lemma pytomy_timedelta_text_nonneg days secs us :
  0 <= days -> 0 <= secs -> days * 86400 + secs < 2 ^ 31 ->
  pytomy_timedelta_text days secs us =
  let t := days * 86400 + secs in
  EncBytes (snprintf 17
    (printf_0d 2 (t / 3600) ++ ":"%char :: printf_0d 2 (t mod 3600 / 60) ++ ":"%char ::
     printf_0d 2 (t mod 3600 mod 60) ++
     (if negb (us =? 0) then "."%char :: printf_0d 6 us else []))).
Proof.
  intros Hd Hs Ht. unfold pytomy_timedelta_text, in_int32. cbn zeta.
  replace ((- 2 ^ 31 <=? days * 86400) && (days * 86400 <? 2 ^ 31)) with true
    by (symmetry; apply andb_true_iff; split; [apply Z.leb_le|apply Z.ltb_lt]; lia).
  replace ((- 2 ^ 31 <=? days * 86400 + secs) && (days * 86400 + secs <? 2 ^ 31)) with true
    by (symmetry; apply andb_true_iff; split; [apply Z.leb_le|apply Z.ltb_lt]; lia).
  replace (days * 86400 + secs =? - 2 ^ 31) with false by (symmetry; apply Z.eqb_neq; lia).
  replace (days <? 0) with false by (symmetry; apply Z.ltb_ge; lia).
  rewrite andb_false_r. cbn [negb orb read_cstr option_map app].
  rewrite Z.abs_eq by lia.
  remember (days * 86400 + secs) as t.
  pose proof (Z.mod_pos_bound t 3600 ltac:(lia)).
  rewrite (Z.quot_div_nonneg t), (Z.rem_mod_nonneg t) by lia.
  rewrite (Z.quot_div_nonneg (t mod 3600)), (Z.rem_mod_nonneg (t mod 3600)) by lia.
  reflexivity.
Qed.

(** The hours, minutes and seconds of [t] seconds recombine, through the
    [days]/[hours] split of [mytopy_time], into [t]'s days and seconds. *)
Lemma hms_split days secs :
  0 <= days -> 0 <= secs < 86400 ->
  let t := days * 86400 + secs in
  (t / 3600) / 24 = days /\
  (t / 3600) mod 24 * 3600 + t mod 3600 / 60 * 60 + t mod 3600 mod 60 = secs.
Proof.
  intros Hd Hs t.
  pose proof (Z.div_mod t 3600 ltac:(lia)). pose proof (Z.mod_pos_bound t 3600 ltac:(lia)).
  pose proof (Z.div_mod (t mod 3600) 60 ltac:(lia)).
  pose proof (Z.mod_pos_bound (t mod 3600) 60 ltac:(lia)).
  pose proof (Z.div_mod (t / 3600) 24 ltac:(lia)).
  pose proof (Z.mod_pos_bound (t / 3600) 24 ltac:(lia)).
  assert (0 <= t mod 3600 / 60) by (apply Z.div_pos; lia).
  assert (t mod 3600 / 60 < 60) by (apply Z.div_lt_upper_bound; lia).
  subst t. split; lia.
Qed.

(** Extra: a non-negative [timedelta] under 10000 hours, encoded by
    [pytomy_timedelta] and read back by [mytopy_time], keeps its days and
    seconds; its microseconds survive below 1000 hours, while from 1000
    hours on [snprintf(result, 17, ...)] cuts the last digit of the
    fraction, which comes back as [us / 10 * 10]. *)
Theorem pytomy_timedelta_mytopy_time tp ex days secs us str :
  0 <= days -> 0 <= secs < 86400 -> 0 <= us < 1000000 ->
  days * 86400 + secs < 10000 * 3600 ->
  exists txt, pytomy_timedelta (ODelta tp ex days secs us str) = EncBytes txt /\
    mytopy_time txt (zlen txt) =
    PyDelta days secs (if days * 86400 + secs <? 1000 * 3600 then us else us / 10 * 10).
Proof.
  intros Hd Hs Hu Ht. eexists. split.
  { cbn [pytomy_timedelta]. rewrite pytomy_timedelta_text_nonneg by lia. reflexivity. }
  cbn zeta. destruct (hms_split days secs Hd Hs) as [E1 E2]. cbn zeta in E1, E2.
  remember (days * 86400 + secs) as t.
  assert (HH : 0 <= t / 3600 < 10000) by (split; [apply Z.div_pos|apply Z.div_lt_upper_bound]; lia).
  pose proof (Z.mod_pos_bound t 3600 ltac:(lia)).
  assert (HM : 0 <= t mod 3600 / 60 <= 59)
    by (split; [apply Z.div_pos|apply Z.lt_succ_r, Z.div_lt_upper_bound]; lia).
  pose proof (Z.mod_pos_bound (t mod 3600) 60 ltac:(lia)).
  destruct (printf_0d_digits 2 (t / 3600) ltac:(lia) ltac:(lia)) as (Ah & Vh & Lh).
  destruct (two_digit_field (t mod 3600 / 60) ltac:(lia)) as (Am & Vm & Lm).
  destruct (two_digit_field (t mod 3600 mod 60) ltac:(lia)) as (As & Vs & Ls).
  destruct (six_digit_field us ltac:(lia)) as (Au & Vu & Lu).
  assert (Lh4 : (List.length (dec (t / 3600)) <= 4)%nat).
  { pose proof (dec_length_le (t / 3600) 4 ltac:(cbn; lia) ltac:(lia)). unfold zlen in *. lia. }
  (* the decoder's view of the hour field *)
  assert (Dec : forall frac, frac_ok frac ->
    mytopy_time (time_text false (printf_0d 2 (t / 3600)) (printf_0d 2 (t mod 3600 / 60))
                   (printf_0d 2 (t mod 3600 mod 60)) frac)
      (zlen (time_text false (printf_0d 2 (t / 3600)) (printf_0d 2 (t mod 3600 / 60))
                   (printf_0d 2 (t mod 3600 mod 60)) frac))
    = PyDelta days secs (frac_usecs frac)).
  { intros frac Hf. rewrite mytopy_time_text_eq by assumption. cbn zeta.
    rewrite Vh, Vm, Vs, !Z.mul_1_l.
    rewrite Z.quot_div_nonneg, Z.rem_mod_nonneg by lia. rewrite E1, E2.
    pose proof (frac_usecs_bounds frac Hf). apply delta_from_dsu_small; lia. }
  case_eq (us =? 0); intro U.
  - apply Z.eqb_eq in U. subst us. cbn [negb]. rewrite app_nil_r.
    rewrite snprintf_short.
    2:{ repeat (rewrite ?List.length_app; cbn [List.length]). rewrite Lh, Lm, Ls. lia. }
    replace (printf_0d 2 (t / 3600) ++ ":"%char :: printf_0d 2 (t mod 3600 / 60) ++ ":"%char ::
            printf_0d 2 (t mod 3600 mod 60))
      with (time_text false (printf_0d 2 (t / 3600)) (printf_0d 2 (t mod 3600 / 60))
              (printf_0d 2 (t mod 3600 mod 60)) None)
      by (unfold time_text; cbn [app]; now rewrite app_nil_r).
    rewrite Dec by (now left). cbn [frac_usecs]. now destruct (t <? 1000 * 3600).
  - cbn [negb].
    assert (Tfr : printf_0d 2 (t / 3600) ++ ":"%char :: printf_0d 2 (t mod 3600 / 60) ++ ":"%char ::
              printf_0d 2 (t mod 3600 mod 60) ++ "."%char :: printf_0d 6 us
            = time_text false (printf_0d 2 (t / 3600)) (printf_0d 2 (t mod 3600 / 60))
                (printf_0d 2 (t mod 3600 mod 60)) (Some (printf_0d 6 us)))
      by reflexivity.
    rewrite Tfr. destruct (frac_of_six us ltac:(lia)) as (Fo & Fv).
    case_eq (t <? 1000 * 3600); intro T.
    + apply Z.ltb_lt in T.
      assert (Lh3 : (List.length (dec (t / 3600)) <= 3)%nat).
      { pose proof (dec_length_le (t / 3600) 3 ltac:(split; [|apply Z.div_lt_upper_bound]; cbn; lia) ltac:(lia)).
        unfold zlen in *. lia. }
      rewrite snprintf_short.
      2:{ unfold time_text. repeat (rewrite ?List.length_app; cbn [List.length]).
          rewrite Lh, Lm, Ls, Lu. lia. }
      rewrite Dec by assumption. now rewrite Fv.
    + apply Z.ltb_ge in T.
      assert (Lh4' : List.length (dec (t / 3600)) = 4%nat).
      { pose proof (dec_length_ge (t / 3600) 4 ltac:(cbn; apply Z.div_le_lower_bound; lia) ltac:(lia)).
        unfold zlen in *. lia. }
      destruct (exists_last (l := printf_0d 6 us) ltac:(intro N; rewrite N in Lu; discriminate))
        as (f5 & c & Ef).
      assert (Lf5 : List.length f5 = 5%nat) by (rewrite Ef, List.length_app in Lu; cbn in Lu; lia).
      destruct Au as (_ & Fu). rewrite Ef in Fu. apply Forall_app in Fu as (F5 & Fc).
      apply Forall_inv in Fc. pose proof (digit_val_bounds c Fc).
      assert (Vf : digits_value f5 = us / 10).
      { rewrite Ef, digits_value_snoc in Vu. apply Z.div_unique_pos with (digit_val c); lia. }
      assert (Cut : snprintf 17 (time_text false (printf_0d 2 (t / 3600)) (printf_0d 2 (t mod 3600 / 60))
                                  (printf_0d 2 (t mod 3600 mod 60)) (Some (printf_0d 6 us)))
                    = time_text false (printf_0d 2 (t / 3600)) (printf_0d 2 (t mod 3600 / 60))
                                  (printf_0d 2 (t mod 3600 mod 60)) (Some f5)).
      { assert (Lt : List.length (time_text false (printf_0d 2 (t / 3600)) (printf_0d 2 (t mod 3600 / 60))
                                  (printf_0d 2 (t mod 3600 mod 60)) (Some f5)) = 16%nat).
        { unfold time_text. repeat (rewrite ?List.length_app; cbn [List.length]).
          rewrite Lh, Lm, Ls, Lf5, Lh4'. reflexivity. }
        replace (time_text false (printf_0d 2 (t / 3600)) (printf_0d 2 (t mod 3600 / 60))
                   (printf_0d 2 (t mod 3600 mod 60)) (Some (printf_0d 6 us)))
          with (time_text false (printf_0d 2 (t / 3600)) (printf_0d 2 (t mod 3600 / 60))
                   (printf_0d 2 (t mod 3600 mod 60)) (Some f5) ++ [c])
          by (unfold time_text; rewrite Ef; repeat (rewrite <- ?app_assoc; cbn [app]); reflexivity).
        unfold snprintf. change (17 - 1)%nat with 16%nat.
        rewrite firstn_app, Lt, Nat.sub_diag, firstn_O, app_nil_r.
        apply firstn_all2. rewrite Lt. lia. }
      rewrite Cut, Dec.
      * cbn [frac_usecs]. unfold zlen. rewrite Lf5, Vf. reflexivity.
      * right. exists f5. split; [reflexivity|]. split; [split|].
        -- intro N. rewrite N in Lf5. discriminate.
        -- exact F5.
        -- unfold zlen. rewrite Lf5. lia.
Qed.

Lemma pytomy_timedelta_mytopy_time_witness :
  (0 <= 45 /\ 0 <= 3600 < 86400 /\ 0 <= 123457 < 1000000 /\
   45 * 86400 + 3600 < 10000 * 3600) /\
  exists txt, pytomy_timedelta (ODelta "datetime.timedelta" true 45 3600 123457 []) = EncBytes txt /\
    mytopy_time txt (zlen txt) =
    PyDelta 45 3600 (if 45 * 86400 + 3600 <? 1000 * 3600 then 123457 else 123457 / 10 * 10).
Proof.
  split; [lia|]. apply pytomy_timedelta_mytopy_time; lia.
Defined.

(** Extra: for every [timedelta] with negative [days], [pytomy_timedelta]
    has undefined behaviour: either [days * 86400 + secs] overflows [int]
    (or is [INT_MIN] under [abs]), or [minus], a one-byte array that then
    holds ['-'] and no terminator, is printed with [%s]. *)
Theorem pytomy_timedelta_negative_ub tp ex days secs us str :
  days < 0 -> pytomy_timedelta (ODelta tp ex days secs us str) = EncUB.
Proof.
  intro Hd. cbn [pytomy_timedelta]. unfold pytomy_timedelta_text. cbn zeta.
  destruct (_ || _ || _); [reflexivity|].
  destruct (_ && _); replace (days <? 0) with true by (symmetry; now apply Z.ltb_lt);
    reflexivity.
Qed.

Lemma pytomy_timedelta_negative_ub_witness :
  -1 < 0 /\ pytomy_timedelta (ODelta "datetime.timedelta" true (-1) 86399 0 []) = EncUB.
Proof.
  split; [lia|]. apply pytomy_timedelta_negative_ub. lia.
Defined.

(** ** [pytomy_datetime] against [mytopy_datetime] *)

Lemma dt_sep_not_digit c : is_dt_sep c = true -> isdigit c = false.
Proof.
  unfold is_dt_sep. intro H.
  repeat (apply orb_true_iff in H as [H|H]); apply Ascii.eqb_eq in H; now subst.
Qed.

Lemma dt_groups_continue f part parts ds sep rest :
  Forall (fun c => isdigit c = true) ds -> is_dt_sep sep = true -> isdigit (deref rest) = true ->
  (S part =? 8)%nat = false ->
  dt_groups (S f) part parts (ds ++ sep :: rest) (zlen (ds ++ sep :: rest))
  = dt_groups f (S part) (set_part parts part (digits_value ds)) rest (zlen rest).
Proof.
  intros Hds Hsep Hc H8. destruct rest as [|c rest]; [discriminate Hc|]. cbn [deref] in Hc.
  rewrite zlen_app.
  cbn [dt_groups]. rewrite digit_loop_app; [| exact Hds | now apply no_digit_char, dt_sep_not_digit | ].
  - cbn zeta. rewrite H8. rewrite !zlen_cons. pose proof (zlen_nonneg rest).
    replace (1 + (1 + zlen rest) <? 2) with false by lia.
    cbn [deref tl]. rewrite Hsep, Hc. cbn [negb orb].
    f_equal. lia.
  - rewrite !zlen_cons. pose proof (zlen_nonneg rest). lia.
Qed.

Lemma dt_groups_stop f part parts ds fr :
  Forall (fun c => isdigit c = true) ds ->
  (fr = [] \/ exists df, fr = "."%char :: df) ->
  dt_groups (S f) part parts (ds ++ fr) (zlen (ds ++ fr))
  = (set_part parts part (digits_value ds), fr, zlen fr).
Proof.
  intros Hds Hfr. rewrite zlen_app.
  cbn [dt_groups].
  destruct Hfr as [-> | (df & ->)].
  - rewrite digit_loop_app by (auto using no_digit_nil; reflexivity || lia).
    cbn zeta. change (zlen []) with 0. cbn. now destruct (part =? 7)%nat.
  - rewrite digit_loop_app; [| exact Hds | now apply no_digit_char | apply zlen_nonneg].
    cbn zeta. cbn [deref]. replace (is_dt_sep ".") with false by reflexivity.
    now rewrite !orb_true_r.
Qed.

(** The text ["Y-M-D h:m:s[.f]"] with digit groups read by [dt_parse];
    a fraction of at most seven digits is read whole. *)
Lemma dt_parse_text dy dmo dd dh dmi ds frac :
  all_digits dy -> all_digits dmo -> all_digits dd -> all_digits dh ->
  all_digits dmi -> all_digits ds ->
  (frac = None \/ exists df, frac = Some df /\ all_digits df /\ zlen df <= 7) ->
  let txt := dy ++ "-"%char :: dmo ++ "-"%char :: dd ++ " "%char :: dh ++ ":"%char ::
             dmi ++ ":"%char :: ds ++
             match frac with None => [] | Some df => "."%char :: df end in
  dt_parse txt (zlen txt) =
  [digits_value dy; digits_value dmo; digits_value dd; digits_value dh;
   digits_value dmi; digits_value ds;
   match frac with None => 0 | Some df => digits_value df end].
Proof.
  intros [Ny Fy] [Nmo Fmo] [Nd Fd] [Nh Fh] [Nmi Fmi] [Ns Fs] Hf txt.
  destruct dmo as [|c1 dmo]; [congruence|]. destruct dd as [|c2 dd]; [congruence|].
  destruct dh as [|c3 dh]; [congruence|]. destruct dmi as [|c4 dmi]; [congruence|].
  destruct ds as [|c5 ds]; [congruence|].
  set (fr := match frac with None => [] | Some df => "."%char :: df end).
  assert (Hfr : fr = [] \/ exists df, fr = "."%char :: df).
  { destruct frac; [right; eexists; reflexivity | left; reflexivity]. }
  assert (Hg : dt_groups 8 0 [0; 0; 0; 0; 0; 0; 0] txt (zlen txt) =
    ([digits_value dy; digits_value (c1 :: dmo); digits_value (c2 :: dd);
      digits_value (c3 :: dh); digits_value (c4 :: dmi); digits_value (c5 :: ds); 0],
     fr, zlen fr)).
  { unfold txt. fold fr.
    do 5 (rewrite dt_groups_continue by
      (auto; first [exact (Forall_inv Fmo) | exact (Forall_inv Fd) | exact (Forall_inv Fh)
                   | exact (Forall_inv Fmi) | exact (Forall_inv Fs) | reflexivity])).
    rewrite dt_groups_stop by auto. reflexivity. }
  unfold dt_parse. rewrite Hg.
  destruct Hf as [-> | (df & -> & [Hne Hdf] & Hl)].
  - reflexivity.
  - destruct df as [|f0 fs]; [congruence|].
    unfold fr. rewrite !zlen_cons in *. pose proof (zlen_nonneg fs).
    replace (1 + (1 + zlen fs) =? 0) with false by lia.
    replace (1 + (1 + zlen fs) >=? 2) with true by (symmetry; apply Z.geb_le; lia).
    cbn [deref tl negb andb]. rewrite Ascii.eqb_refl.
    replace (1 + (1 + zlen fs) - 1) with (1 + zlen fs) by lia.
    rewrite frac_loop_digits by (auto; exact (Forall_inv_tail Hdf) || lia).
    reflexivity.
Qed.

Lemma is_valid_time_bounds h mi s us :
  is_valid_time h mi s us = true ->
  0 <= h <= 23 /\ 0 <= mi <= 59 /\ 0 <= s <= 59 /\ 0 <= us <= 999999.
Proof.
  unfold is_valid_time. intro H. apply negb_true_iff in H.
  repeat rewrite orb_false_iff in H.
  destruct H as [[[[H1 H2] [H3 H4]] [H5 H6]] [H7 H8]].
  rewrite ?Z.ltb_ge, ?Z.gtb_ltb, ?Z.ltb_ge in *. lia.
Qed.

Lemma is_valid_date_bounds y m d :
  is_valid_date y m d = true -> 1 <= y <= 9999 /\ 1 <= m <= 12 /\ 1 <= d <= 31.
Proof.
  rewrite is_valid_date_gregorian. unfold gregorian_valid, gregorian_days. intro Hv.
  repeat rewrite andb_true_iff in Hv. rewrite !Z.leb_le in Hv.
  assert (d <= 31) by (destruct (m =? 2); [destruct (_ && _)|destruct (_ || _)]; lia).
  lia.
Qed.

(** Extra: a [datetime.datetime] encoded by [pytomy_datetime] (always
    within its 26 characters) is read back by [mytopy_datetime] to the same
    date and time, microseconds included. *)
Theorem pytomy_datetime_mytopy_datetime tp y mo d h mi s us str :
  is_valid_date y mo d = true -> is_valid_time h mi s us = true ->
  exists txt, pytomy_datetime (ODateTime tp y mo d h mi s us str) = EncBytes txt /\
    mytopy_datetime txt (zlen txt) = PyDateTime y mo d h mi s us.
Proof.
  intros Hd Ht. eexists. split; [reflexivity|].
  destruct (is_valid_date_bounds y mo d Hd) as (By & Bmo & Bd).
  destruct (is_valid_time_bounds h mi s us Ht) as (Bh & Bmi & Bs & Bu).
  destruct (printf_0d_field 4 y ltac:(lia) ltac:(cbn; lia)) as (Ay & Vy & Ly).
  destruct (two_digit_field mo ltac:(lia)) as (Amo & Vmo & Lmo).
  destruct (two_digit_field d ltac:(lia)) as (Ad & Vd & Ld).
  destruct (two_digit_field h ltac:(lia)) as (Ah & Vh & Lh).
  destruct (two_digit_field mi ltac:(lia)) as (Ami & Vmi & Lmi).
  destruct (two_digit_field s ltac:(lia)) as (As & Vs & Ls).
  destruct (six_digit_field us ltac:(lia)) as (Au & Vu & Lu).
  set (frac := if us =? 0 then None else Some (printf_0d 6 us)).
  assert (Efr : (if negb (us =? 0) then "."%char :: printf_0d 6 us else [])
                = match frac with None => [] | Some df => "."%char :: df end)
    by (unfold frac; now destruct (us =? 0)).
  unfold pytomy_datetime_text. rewrite Efr.
  rewrite snprintf_short.
  2:{ repeat (rewrite ?List.length_app; cbn [List.length]).
      rewrite Ly, Lmo, Ld, Lh, Lmi, Ls.
      unfold frac; destruct (us =? 0); cbn [List.length]; [|rewrite Lu]; lia. }
  unfold mytopy_datetime. rewrite dt_parse_text; auto.
  2:{ unfold frac. destruct (us =? 0); [now left|right].
      eexists. split; [reflexivity|]. split; [exact Au|]. unfold zlen. rewrite Lu. lia. }
  cbn [part nth]. rewrite Vy, Vmo, Vd, Vh, Vmi, Vs.
  replace (match frac with None => 0 | Some df => digits_value df end) with us
    by (unfold frac; case_eq (us =? 0); intro E; [apply Z.eqb_eq in E; auto | auto]).
  now rewrite Hd, Ht.
Qed.

Lemma pytomy_datetime_mytopy_datetime_witness :
  is_valid_date 2024 2 29 = true /\ is_valid_time 23 59 58 999999 = true /\
  exists txt, pytomy_datetime (ODateTime "datetime.datetime" 2024 2 29 23 59 58 999999 []) = EncBytes txt /\
    mytopy_datetime txt (zlen txt) = PyDateTime 2024 2 29 23 59 58 999999.
Proof.
  split; [reflexivity|]. split; [reflexivity|].
  apply pytomy_datetime_mytopy_datetime; reflexivity.
Defined.

(** ** [mytopy_bit] *)

Lemma lor_shiftl_byte v c : 0 <= c < 256 -> Z.lor (Z.shiftl v 8) c = v * 256 + c.
Proof.
  intro Hc. rewrite Z.shiftl_mul_pow2 by lia.
  assert (L : Z.land (v * 2 ^ 8) c = 0).
  { apply Z.bits_inj'. intros n Hn. rewrite Z.land_spec, Z.bits_0.
    destruct (Z.lt_ge_cases n 8).
    - now rewrite Z.mul_pow2_bits_low by lia.
    - rewrite <- (Z.mod_small c (2 ^ 8)) by (cbn; lia).
      rewrite Z.mod_pow2_bits_high by lia. apply andb_false_r. }
  rewrite <- Z.lxor_lor by exact L. rewrite <- Z.add_nocarry_lxor by exact L.
  reflexivity.
Qed.

Lemma mytopy_bit_fold l v :
  fold_left (fun v c => Z.lor (Z.shiftl v 8) (Z.of_nat (nat_of_ascii c)) mod 2 ^ 64) l
    (v mod 2 ^ 64)
  = fold_left (fun v c => v * 256 + Z.of_nat (nat_of_ascii c)) l v mod 2 ^ 64.
Proof.
  revert v. induction l as [|c l IH]; intro v; [reflexivity|].
  cbn [fold_left]. rewrite <- IH. f_equal.
  pose proof (nat_ascii_bounded c).
  rewrite lor_shiftl_byte by lia.
  rewrite Z.add_mod, Z.mul_mod, Z.mod_mod by lia.
  rewrite <- Z.mul_mod, <- Z.add_mod by lia. reflexivity.
Qed.

(** Extra: [mytopy_bit] returns the big-endian value of the first [length]
    bytes modulo [2^64] (the shifts of an [unsigned long long] drop all but
    the last eight bytes), and the exact value when [length <= 8]. *)
Theorem mytopy_bit_value data len :
  mytopy_bit data len = be_value (firstn (Z.to_nat len) data) mod 2 ^ 64 /\
  ((Z.to_nat len <= 8)%nat -> mytopy_bit data len = be_value (firstn (Z.to_nat len) data)).
Proof.
  assert (E : mytopy_bit data len = be_value (firstn (Z.to_nat len) data) mod 2 ^ 64).
  { unfold mytopy_bit, be_value. change 0 with (0 mod 2 ^ 64) at 1. apply mytopy_bit_fold. }
  split; [exact E|]. intro H8. rewrite E. apply Z.mod_small.
  assert (G : forall l v, 0 <= v ->
    0 <= fold_left (fun v c => v * 256 + Z.of_nat (nat_of_ascii c)) l v
      < (v + 1) * 256 ^ Z.of_nat (List.length l)).
  { induction l as [|c l IH]; intros v Hv; cbn [fold_left List.length].
    - cbn. lia.
    - pose proof (nat_ascii_bounded c).
      specialize (IH (v * 256 + Z.of_nat (nat_of_ascii c)) ltac:(lia)).
      rewrite Nat2Z.inj_succ, Z.pow_succ_r by lia. nia. }
  unfold be_value. specialize (G (firstn (Z.to_nat len) data) 0 ltac:(lia)).
  split; [lia|]. eapply Z.lt_le_trans; [apply G|].
  rewrite Z.mul_1_l. change (2 ^ 64) with (256 ^ 8).
  apply Z.pow_le_mono_r; [lia|]. rewrite length_firstn. lia.
Qed.

(** ** SET columns: [strtok] against [str.split] *)

Lemma strtok_comma_split s cur :
  strtok_comma s cur =
  filter (fun t => match t with [] => false | _ => true end) (py_split_comma s cur).
Proof.
  revert cur. induction s as [|c s IH]; intro cur; cbn [strtok_comma py_split_comma].
  - destruct cur as [|x cur]; [reflexivity|]. cbn [filter].
    destruct (rev (x :: cur)) eqn:E; [|reflexivity].
    apply (f_equal (@List.length ascii)) in E. rewrite length_rev in E. discriminate.
  - destruct (Ascii.eqb c ","); [|apply IH].
    cbn [filter]. rewrite IH.
    destruct cur as [|x cur]; [reflexivity|].
    destruct (rev (x :: cur)) eqn:E; [|reflexivity].
    apply (f_equal (@List.length ascii)) in E. rewrite length_rev in E. discriminate.
Qed.

(** Extra: the SET value of a prepared-statement column is read up to
    the first NUL, and holds the pieces that [strtok(data, ",")] yields,
    which are exactly the comma-separated pieces of the text protocol's
    [str.split(",")] with the empty ones left out: an empty member ([''] in
    ["a,,b"] or a leading or trailing comma) is lost on the binary
    protocol. When a piece is not valid UTF-8 the conversion crashes. *)
Theorem prep_set_tokens i f flags c :
  f_type f = MYSQL_TYPE_STRING -> cs_fetch_error c = false -> has_flag flags SET_FLAG = true ->
  snd (convert_prep_col i f flags c) =
  let members := filter (fun t => match t with [] => false | _ => true end)
                   (py_split_comma (upto_nul (cs_data c)) []) in
  if forallb utf8_valid members then ColCell (Some (PySet (set_of members))) else ColCrash.
Proof.
  intros Ht He Hs. unfold convert_prep_col. rewrite Ht, He, Hs. cbn [snd].
  rewrite set_add_tokens_ok.
  - rewrite strtok_comma_split. destruct (forallb _ _); reflexivity.
  - apply strtok_comma_no_nul; [apply upto_nul_no_nul|intros []].
Qed.

Lemma prep_set_tokens_witness :
  (f_type (example_field MYSQL_TYPE_STRING SET_FLAG 33) = MYSQL_TYPE_STRING /\
   cs_fetch_error (example_cell false ",a,,b") = false /\ has_flag SET_FLAG SET_FLAG = true) /\
  snd (convert_prep_col 0 (example_field MYSQL_TYPE_STRING SET_FLAG 33) SET_FLAG
         (example_cell false ",a,,b")) =
  let members := filter (fun t => match t with [] => false | _ => true end)
                   (py_split_comma (upto_nul (cs_data (example_cell false ",a,,b"))) []) in
  if forallb utf8_valid members then ColCell (Some (PySet (set_of members))) else ColCrash.
Proof.
  split; [split; [reflexivity|split; reflexivity]|].
  apply prep_set_tokens; reflexivity.
Defined.

(** ** Raw mode of [MySQL_fetch_row] *)

(** A raw-mode item: [None] is a NULL item with its exception set. *)
Definition raw_item (self : MySQL) (lens : list nat) (jc : nat * option cstr)
  : option pyval :=
  let '(j, cell) := jc in
  match cell with
  | None => Some PyNone
  | Some d =>
      if raw_as_string self then option_map PyStr (PyUnicode_FromStringAndSize d (nth j lens O))
      else Some (PyByteArray (firstn (nth j lens O) d))
  end.

Definition is_null_item (v : option pyval) : bool :=
  match v with None => true | Some _ => false end.

Lemma text_cells_raw `{CharsetDecoder} `{PyNumbers} self i info row lens charset :
  raw self = true ->
  text_cells self i info row lens charset =
  FRRow (map (raw_item self lens) (combine (seq i (List.length row)) row))
        (existsb is_null_item (map (raw_item self lens) (combine (seq i (List.length row)) row))).
Proof.
  intro Hr. revert i. induction row as [|cell row IH]; intro i; [reflexivity|].
  cbn [text_cells List.length seq combine map existsb]. rewrite IH.
  destruct cell as [d|]; cbn; [rewrite Hr|reflexivity].
  destruct (raw_as_string self); [|reflexivity].
  destruct (PyUnicode_FromStringAndSize d (nth i lens O)); reflexivity.
Qed.

(** Extra: in raw mode [MySQL_fetch_row] converts no cell by its column
    metadata: each NULL cell of the next row comes back as [None], each
    other cell as a [bytearray] of the length [mysql_fetch_lengths]
    reports, or with [raw_as_string] as the [str] that
    [PyUnicode_FromStringAndSize] decodes from those bytes, a NULL item
    with its [UnicodeDecodeError] set where they are not UTF-8. An
    exception is left set exactly when such an item is NULL or
    [fetch_fields] failed on this call. *)
Theorem MySQL_fetch_row_raw `{CharsetDecoder} `{PyNumbers} self res row lens more :
  result self = Some res -> res_rows res = (row, Some lens) :: more -> raw self = true ->
  let items := map (raw_item self lens) (combine (seq 0 (List.length row)) row) in
  let fields_failed :=
    match fields self with
    | Some _ => false
    | None =>
        match snd (fetch_fields (res_fields res) (cs_csname self) (use_unicode self)) with
        | Some _ => false
        | None => true
        end
    end in
  fst (MySQL_fetch_row self) = FRRow items (fields_failed || existsb is_null_item items).
Proof.
  intros Hres Hrows Hr items fields_failed. unfold MySQL_fetch_row. rewrite Hres, Hrows.
  cbn [fst]. rewrite text_cells_raw by exact Hr. subst items fields_failed.
  destruct (fields self); [reflexivity|].
  destruct (snd (fetch_fields _ _ _)); reflexivity.
Qed.

Lemma MySQL_fetch_row_raw_witness :
  let res := {| res_fields := [example_field MYSQL_TYPE_LONG 0 63];
                res_rows := [([Some (cstr_of "42x"); None; Some [ascii_of_nat 233]],
                              Some [2%nat; O; 1%nat])] |} in
  let self := {| result := Some res;
                 session := {| sess_errno := 0; sess_error := ""; sess_sqlstate := "00000" |};
                 session_csname := Some "utf8mb4"%string; cs_csname := Some "utf8mb4"%string;
                 raw := true; raw_as_string := true; use_unicode := true; fields := None |} in
  (result self = Some res /\
   res_rows res = ([Some (cstr_of "42x"); None; Some [ascii_of_nat 233]], Some [2%nat; O; 1%nat]) :: []
   /\ raw self = true) /\
  fst (@MySQL_fetch_row ascii_only_decoder simple_numbers self) =
  FRRow [Some (PyStr (cstr_of "42")); Some PyNone; None] true.
Proof.
  intros res self. split; [split; [reflexivity|split; reflexivity]|].
  rewrite (@MySQL_fetch_row_raw ascii_only_decoder simple_numbers self res
             [Some (cstr_of "42x"); None; Some [ascii_of_nat 233]] [2%nat; O; 1%nat] []);
    vm_compute; reflexivity.
Defined.

(** ** [MySQL_convert_to_mysql] *)

Lemma upto_nul_prefix pre post :
  ~ In NUL pre -> upto_nul (pre ++ NUL :: post) = pre.
Proof.
  induction pre as [|c pre IH]; intro H; cbn [app upto_nul].
  - now rewrite Ascii.eqb_refl.
  - destruct (Ascii.eqb_spec c NUL) as [->|_]; [exfalso; apply H; now left|].
    rewrite IH; [reflexivity|]. intro I. apply H. now right.
Qed.

Section ConvertFacts.
Context (py_encode : string -> cstr -> option cstr) (real_escape : cstr -> option cstr)
  (connected : bool) (sess : mysql_session) (csname : option string)
  (str_fallback ctor_ok : bool).

(** Extra: [MySQL_convert_to_mysql] converts its arguments one by one and
    stops at the first failure: on [a ++ b] it yields the items of [a]
    followed by those of [b] when both convert, and otherwise the first
    error (or undefined behaviour) met from the left, never a partial tuple. *)
Theorem MySQL_convert_to_mysql_app a b :
  MySQL_convert_to_mysql py_encode real_escape connected sess csname str_fallback ctor_ok (a ++ b) =
  match MySQL_convert_to_mysql py_encode real_escape connected sess csname str_fallback ctor_ok a with
  | ConvTuple la =>
      match MySQL_convert_to_mysql py_encode real_escape connected sess csname str_fallback ctor_ok b with
      | ConvTuple lb => ConvTuple (la ++ lb)
      | r => r
      end
  | r => r
  end.
Proof.
  induction a as [|v a IH]; cbn [app MySQL_convert_to_mysql].
  - now destruct (MySQL_convert_to_mysql _ _ _ _ _ _ _ b).
  - destruct (convert_item _ _ _ _ _ _ _ v); try reflexivity.
    rewrite IH. destruct (MySQL_convert_to_mysql _ _ _ _ _ _ _ a); try reflexivity.
    now destruct (MySQL_convert_to_mysql _ _ _ _ _ _ _ b).
Qed.

(** Extra: with [converter_str_fallback] off, a value whose class is a
    strict subclass of [datetime.date] (not a [datetime]) or of
    [datetime.timedelta] is refused, since the code tests these two with
    [PyDate_CheckExact] and [PyDelta_CheckExact]: the whole conversion
    fails with ["Python type T cannot be converted"]. *)
Theorem MySQL_convert_to_mysql_rejects_subclasses tp y m d days secs us s rest :
  str_fallback = false -> tp <> "decimal.Decimal"%string ->
  MySQL_convert_to_mysql py_encode real_escape connected sess csname str_fallback ctor_ok
    (ODate tp false y m d s :: rest) =
    ConvRaised (snprintf 100 (cstr_of "Python type " ++ cstr_of tp ++ cstr_of " cannot be converted")) /\
  MySQL_convert_to_mysql py_encode real_escape connected sess csname str_fallback ctor_ok
    (ODelta tp false days secs us s :: rest) =
    ConvRaised (snprintf 100 (cstr_of "Python type " ++ cstr_of tp ++ cstr_of " cannot be converted")).
Proof.
  intros Hf Ht. apply String.eqb_neq in Ht.
  split; cbn [MySQL_convert_to_mysql convert_item tp_name]; rewrite Ht, Hf; reflexivity.
Qed.

(** Extra: a [bytes] argument is quoted with [PyBytes_FromFormat("'%s'", ...)],
    so when the escaped bytes contain a NUL (as
    [mysql_real_escape_string_quote] leaves it when it only doubles quotes)
    the literal stops at that NUL and the rest of the value is dropped. *)
Theorem MySQL_convert_to_mysql_bytes_nul b pre post rest :
  connected = true -> real_escape b = Some (pre ++ NUL :: post) -> ~ In NUL pre ->
  MySQL_convert_to_mysql py_encode real_escape connected sess csname str_fallback ctor_ok
    (OBytes b :: rest) =
  match MySQL_convert_to_mysql py_encode real_escape connected sess csname str_fallback ctor_ok rest with
  | ConvTuple l => ConvTuple (("'"%char :: pre ++ ["'"%char]) :: l)
  | r => r
  end.
Proof.
  intros Hc He Hn. cbn [MySQL_convert_to_mysql convert_item tp_name].
  unfold MySQL_escape_string. rewrite Hc. cbn [negb]. rewrite He.
  replace (String.eqb "bytes" "decimal.Decimal") with false by reflexivity.
  now rewrite upto_nul_prefix.
Qed.
End ConvertFacts.

(** ** [MySQLPrepStmt_execute] *)

Lemma update_nth_length {A} n (f : A -> A) l l' :
  update_nth n f l = Some l' -> List.length l' = List.length l.
Proof.
  revert n l'. induction l as [|x t IH]; intros [|n] l' H; cbn in H; try discriminate.
  - now inversion H.
  - destruct (update_nth n f t) eqn:E; cbn in H; inversion H; subst.
    cbn. now rewrite (IH _ _ E).
Qed.

Lemma update_nth_ge {A} n (f : A -> A) l :
  (List.length l <= n)%nat -> update_nth n f l = None.
Proof.
  revert n. induction l as [|x t IH]; intros [|n] H; cbn in *; try reflexivity; try lia.
  rewrite IH; [reflexivity | lia].
Qed.

Lemma update_nth_other {A} n (f : A -> A) l l' k :
  update_nth n f l = Some l' -> k <> n -> nth_error l' k = nth_error l k.
Proof.
  revert n l' k. induction l as [|x t IH]; intros [|n] l' k H Hk; cbn in H; try discriminate.
  - inversion H; subst. destruct k; [lia|reflexivity].
  - destruct (update_nth n f t) eqn:E; cbn in H; inversion H; subst.
    destruct k; [reflexivity|]. cbn. apply (IH _ _ _ E). lia.
Qed.

Lemma update_nth_same {A} n (f : A -> A) l l' :
  update_nth n f l = Some l' -> nth_error l' n = option_map f (nth_error l n).
Proof.
  revert n l'. induction l as [|x t IH]; intros [|n] l' H; cbn in H; try discriminate.
  - now inversion H.
  - destruct (update_nth n f t) eqn:E; cbn in H; inversion H; subst.
    cbn. now apply IH.
Qed.

Lemma update_nth_same_some {A} n (f : A -> A) l l' :
  update_nth n f l = Some l' -> exists x, nth_error l n = Some x /\ nth_error l' n = Some (f x).
Proof.
  intro H. pose proof (update_nth_same _ _ _ _ H) as S.
  destruct (nth_error l n) eqn:E.
  - now exists a.
  - apply nth_error_None in E. rewrite update_nth_ge in H by exact E. discriminate.
Qed.

Section ExecuteFacts.
Context (py_as_utf8 : cstr -> cstr) (str_fallback : bool).

Local Notation bp := (bind_param py_as_utf8 str_fallback).
Local Notation bps := (bind_params py_as_utf8 str_fallback).

(** A write at an index [n >= i] keeps the length and the entries below [i]. *)
Lemma update_nth_keeps {A} i n (f : A -> A) l l' :
  (i <= n)%nat -> update_nth n f l = Some l' ->
  List.length l' = List.length l /\ forall k, (k < i)%nat -> nth_error l' k = nth_error l k.
Proof.
  intros Hn H. split; [now apply update_nth_length in H|].
  intros k Hk. apply (update_nth_other _ _ _ _ _ H). lia.
Qed.

Lemma bind_param_sent i v mb p l p' :
  bp i v mb p = ExecSent l p' ->
  List.length l = List.length mb /\
  (forall k, (k < i)%nat -> nth_error l k = nth_error mb k) /\ (p = true -> p' = true).
Proof.
  intro H. unfold bind_param in H.
  destruct v as [ | | | | | | | | tp [|] | | tp [|] | ]; cbn zeta in H;
    repeat match goal with
    | H : match ?x with _ => _ end = ExecSent _ _ |- _ =>
        let E := fresh "E" in destruct x eqn:E; try discriminate H
    | H : (if ?x then _ else _) = ExecSent _ _ |- _ =>
        let E := fresh "E" in destruct x eqn:E; try discriminate H
    end;
    inversion H; subst; clear H;
    unfold set_bind in *;
    repeat match goal with
    | E : update_nth ?n _ _ = Some _ |- _ =>
        apply (update_nth_keeps i n) in E; [|lia]; destruct E as [? ?]
    end;
    (split; [congruence | split;
    [ intros k Hk;
      repeat match goal with
      | Hx : forall k, (k < i)%nat -> nth_error ?a k = _ |- context [nth_error ?a k] =>
          rewrite (Hx k Hk)
      end; reflexivity
    | intros ->; reflexivity ]]).
Qed.

Lemma bind_params_sent args : forall i mb p l p',
  bps i args mb p = ExecSent l p' ->
  List.length l = List.length mb /\
  (forall k, (k < i)%nat -> nth_error l k = nth_error mb k) /\ (p = true -> p' = true).
Proof.
  induction args as [|v args IH]; intros i mb p l p' H; cbn [bind_params] in H.
  - inversion H; subst. auto.
  - destruct (bp i v mb p) as [l1 p1| |] eqn:E; try discriminate H.
    apply bind_param_sent in E as (L1 & B1 & P1).
    apply IH in H as (L & B & P). split; [congruence|split; [|auto]].
    intros k Hk. rewrite B by lia. now apply B1.
Qed.

(** Every entry from index [j] on still has [buffer_type] [MYSQL_TYPE_DECIMAL]. *)
Definition decimal_from (j : nat) (mb : list mysql_bind) : Prop :=
  forall k m, (j <= k)%nat -> nth_error mb k = Some m -> mb_type m = MYSQL_TYPE_DECIMAL.

Lemma bind_param_decimal_from j v mb p l p' :
  bp j v mb p = ExecSent l p' -> decimal_from j mb -> decimal_from (S j) l.
Proof.
  intros H D. unfold bind_param in H.
  destruct v as [ | | | | | | | | tp [|] | | tp [|] | ]; cbn zeta in H;
    repeat match goal with
    | H : match ?x with _ => _ end = ExecSent _ _ |- _ =>
        let E := fresh "E" in destruct x eqn:E; try discriminate H
    | H : (if ?x then _ else _) = ExecSent _ _ |- _ =>
        let E := fresh "E" in destruct x eqn:E; try discriminate H
    end;
    inversion H; subst; clear H; unfold set_bind in *;
    repeat match goal with
    | E : update_nth ?n ?f ?a = Some ?b, D : decimal_from ?j0 ?a |- _ =>
        let D' := fresh "D" in
        assert (D' : decimal_from (S j) b);
        [ intros k m Hk Hm; destruct (Nat.eq_dec k n) as [->|Hne];
          [ destruct (update_nth_same_some _ _ _ _ E) as (x & Ex & Ex');
            rewrite Hm in Ex'; inversion Ex'; subst; cbn; (lia || reflexivity)
          | rewrite (update_nth_other _ _ _ _ _ E Hne) in Hm; apply (D k m); [lia | exact Hm] ]
        | clear D E ]
    end; assumption.
Qed.

Lemma bind_params_split args : forall i mb p l p' k v,
  bps i args mb p = ExecSent l p' -> nth_error args k = Some v ->
  exists mb1 p1 l1 p1',
    (decimal_from i mb -> decimal_from (i + k) mb1) /\
    bp (i + k) v mb1 p1 = ExecSent l1 p1' /\
    bps (S (i + k)) (skipn (S k) args) l1 p1' = ExecSent l p'.
Proof.
  induction args as [|a args IH]; intros i mb p l p' k v H Hk;
    [destruct k; discriminate|].
  cbn [bind_params] in H.
  destruct (bp i a mb p) as [l1 p1| |] eqn:E; try discriminate H.
  destruct k as [|k]; cbn in Hk.
  - inversion Hk; subst. exists mb, p, l1, p1. rewrite Nat.add_0_r. auto.
  - destruct (IH _ _ _ _ _ _ _ H Hk) as (mb2 & p2 & l2 & p2' & D2 & E2 & R2).
    exists mb2, p2, l2, p2'. replace (i + S k)%nat with (S i + k)%nat by lia.
    split; [|auto]. intro D. exact (D2 (bind_param_decimal_from _ _ _ _ _ _ E D)).
Qed.

(** The bind of [args[k]] as the loop leaves it, and how it ends. *)
Lemma bind_params_at args i mb p l p' k v :
  bps i args mb p = ExecSent l p' -> nth_error args k = Some v ->
  exists mb1 p1 l1 p1',
    (decimal_from i mb -> decimal_from (i + k) mb1) /\
    bp (i + k) v mb1 p1 = ExecSent l1 p1' /\
    nth_error l (i + k) = nth_error l1 (i + k) /\ (p1' = true -> p' = true).
Proof.
  intros H Hk.
  destruct (bind_params_split _ _ _ _ _ _ _ _ H Hk) as (mb1 & p1 & l1 & p1' & D & E & R).
  exists mb1, p1, l1, p1'. split; [exact D|]. split; [exact E|].
  pose proof (bind_params_sent _ _ _ _ _ _ R) as (_ & B & P). auto.
Qed.

Lemma bind_param_raised i v mb p m :
  bp i v mb p = ExecRaised m -> str_fallback = false.
Proof.
  intro H. unfold bind_param in H.
  destruct v as [ | | | | | | | | tp [|] | | tp [|] | ]; cbn zeta in H;
    repeat match goal with
    | H : match ?x with _ => _ end = ExecRaised _ |- _ =>
        let E := fresh "E" in destruct x eqn:E; try discriminate H
    | H : (if ?x then _ else _) = ExecRaised _ |- _ =>
        let E := fresh "E" in destruct x eqn:E; try discriminate H
    end; first [assumption | reflexivity].
Qed.

Lemma bind_params_decimal args : forall i mb p k s,
  nth_error args k = Some (OOther "decimal.Decimal" s) ->
  (List.length mb <= (i + k) + (i + k))%nat ->
  bps i args mb p = ExecUB \/
  (str_fallback = false /\ exists m, bps i args mb p = ExecRaised m).
Proof.
  induction args as [|a args IH]; intros i mb p k s Hk Hl; [destruct k; discriminate|].
  cbn [bind_params]. destruct k as [|k]; cbn in Hk.
  - inversion Hk; subst. left. unfold bind_param. cbn [tp_name String.eqb].
    rewrite Nat.add_0_r in Hl. now rewrite update_nth_ge by exact Hl.
  - destruct (bp i a mb p) as [l1 p1| m |] eqn:E.
    + apply bind_param_sent in E as (L1 & _ & _).
      apply (IH (S i) l1 p1 k s Hk). rewrite L1. lia.
    + right. split; [exact (bind_param_raised _ _ _ _ _ E)|]. now exists m.
    + now left.
Qed.

Lemma bind_params_decimal_from args : forall j mb p l p',
  bps j args mb p = ExecSent l p' -> decimal_from j mb ->
  decimal_from (j + List.length args) l.
Proof.
  induction args as [|v args IH]; intros j mb p l p' H D; cbn [bind_params] in H.
  - inversion H; subst. now rewrite Nat.add_0_r.
  - destruct (bp j v mb p) as [l1 p1| |] eqn:E; try discriminate H.
    replace (j + List.length (v :: args))%nat with (S j + List.length args)%nat by (cbn; lia).
    exact (IH _ _ _ _ _ H (bind_param_decimal_from _ _ _ _ _ _ E D)).
Qed.

Lemma decimal_from_calloc n : decimal_from 0 (repeat calloc_bind n).
Proof.
  intros k m _ Hm. apply nth_error_In, repeat_spec in Hm. now subst.
Qed.

(** Extra: an [int] outside the 64-bit range is bound anyway: the statement
    is sent with [MYSQL_TYPE_LONGLONG] and the value [-1] that
    [PyLong_AsLongLong] returns, while its [OverflowError] is left pending. *)
Theorem MySQLPrepStmt_execute_int_overflow args binds pend i z :
  MySQLPrepStmt_execute py_as_utf8 str_fallback args = ExecSent binds pend ->
  nth_error args i = Some (OLong z) -> (z < - 2 ^ 63 \/ 2 ^ 63 <= z) ->
  pend = true /\
  nth_error binds i = Some {| mb_type := MYSQL_TYPE_LONGLONG; mb_buffer := BBLongLong (-1);
                              mb_is_null := 0 |}.
Proof.
  intros H Hi Hz. unfold MySQLPrepStmt_execute in H.
  destruct (bind_params_at _ _ _ _ _ _ _ _ H Hi) as (mb1 & p1 & l1 & p1' & _ & E & N & P).
  cbn [Nat.add] in E, N. unfold bind_param in E.
  unfold py_long_as_long_long in E.
  replace ((- 2 ^ 63 <=? z) && (z <? 2 ^ 63)) with false in E
    by (symmetry; apply andb_false_iff; destruct Hz;
        [left; apply Z.leb_gt | right; apply Z.ltb_ge]; lia).
  unfold set_bind in E. destruct (update_nth i _ mb1) as [l2|] eqn:U; [|discriminate E].
  inversion E; subst. split; [apply P; apply orb_true_r|].
  rewrite N. destruct (update_nth_same_some _ _ _ _ U) as (x & _ & ->). reflexivity.
Qed.

(** Extra: a [decimal.Decimal] at position [i] with [2 * i >= len(args)]
    makes the binding loop write [buffer_type] past the end of the
    [calloc]ed array ([mbind[i]] with [mbind = &mbinds[i]]): unless an
    earlier argument is refused (only possible with the string fallback
    off), the call has undefined behaviour and never reaches
    [mysql_stmt_bind_param]. *)
Theorem MySQLPrepStmt_execute_decimal_out_of_bounds args i s :
  nth_error args i = Some (OOther "decimal.Decimal" s) ->
  (List.length args <= i + i)%nat ->
  MySQLPrepStmt_execute py_as_utf8 str_fallback args = ExecUB \/
  (str_fallback = false /\ exists m, MySQLPrepStmt_execute py_as_utf8 str_fallback args = ExecRaised m).
Proof.
  intros Hi Hl. unfold MySQLPrepStmt_execute.
  apply (bind_params_decimal args 0 _ false i s Hi). now rewrite repeat_length.
Qed.

(** Extra: when the statement is bound, a [decimal.Decimal] is passed as the
    text of [str(value)] (up to a NUL) with [buffer_type]
    [MYSQL_TYPE_DECIMAL]: the stray write to [mbinds[2*i]] is overwritten
    when that argument is bound, and the type of [mbinds[i]] is the 0 of
    [calloc], that is [MYSQL_TYPE_DECIMAL]. *)
Theorem MySQLPrepStmt_execute_decimal_bind args binds pend i s :
  MySQLPrepStmt_execute py_as_utf8 str_fallback args = ExecSent binds pend ->
  nth_error args i = Some (OOther "decimal.Decimal" s) ->
  nth_error binds i = Some {| mb_type := MYSQL_TYPE_DECIMAL; mb_buffer := BBBytes (upto_nul s);
                              mb_is_null := 0 |}.
Proof.
  intros H Hi. unfold MySQLPrepStmt_execute in H.
  destruct (bind_params_at _ _ _ _ _ _ _ _ H Hi) as (mb1 & p1 & l1 & p1' & D & E & N & _).
  specialize (D (decimal_from_calloc _)). cbn [Nat.add] in D, E, N.
  unfold bind_param in E. cbn [tp_name String.eqb py_str] in E.
  destruct (update_nth (i + i) _ mb1) as [l0|] eqn:U0; [|discriminate E].
  destruct (update_nth i _ l0) as [l2|] eqn:U; [|discriminate E].
  inversion E; subst. rewrite N.
  destruct (update_nth_same_some _ _ _ _ U) as (x & Ex & ->).
  enough (T : mb_type x = MYSQL_TYPE_DECIMAL) by (rewrite T; reflexivity).
  destruct (Nat.eq_dec i (i + i)) as [Q|Q].
  - rewrite Q in Ex. destruct (update_nth_same_some _ _ _ _ U0) as (y & _ & Ey).
    rewrite Ex in Ey. now inversion Ey.
  - rewrite (update_nth_other _ _ _ _ _ U0 Q) in Ex. exact (D i x (le_n i) Ex).
Qed.

Lemma byte_of_small x k :
  0 <= x < 2 ^ 32 -> 0 <= k ->
  Z.land (Z.shiftr (x mod 2 ^ 32) (8 * k)) 255 = x / 2 ^ (8 * k) mod 256.
Proof.
  intros Hx Hk. rewrite Z.mod_small by exact Hx.
  rewrite Z.shiftr_div_pow2 by lia. change 255 with (Z.ones 8).
  now rewrite Z.land_ones by lia.
Qed.

Lemma time_macros_on_delta_small days secs :
  0 <= days < 256 -> 0 <= secs < 86400 ->
  time_macros_on_delta days secs =
  (0, 0, 0, secs mod 256 * 65536 + secs / 256 mod 256 * 256 + secs / 65536).
Proof.
  intros Hd Hs. unfold time_macros_on_delta.
  rewrite !byte_of_small by lia.
  change (2 ^ (8 * 1)) with 256; change (2 ^ (8 * 2)) with 65536;
    change (2 ^ (8 * 3)) with 16777216; change (2 ^ (8 * 0)) with 1.
  rewrite (Z.div_small days 256), (Z.div_small days 65536), (Z.div_small days 16777216) by lia.
  rewrite Z.div_1_r, (Z.mod_small (secs / 65536) 256)
    by (split; [apply Z.div_pos | apply Z.div_lt_upper_bound]; lia).
  change (Z.shiftl (secs mod 256) 16) with (Z.shiftl (secs mod 256) (8 + 8)).
  rewrite <- Z.shiftl_shiftl by lia. rewrite <- Z.shiftl_lor.
  pose proof (Z.mod_pos_bound secs 256 eq_refl).
  pose proof (Z.mod_pos_bound (secs / 256) 256 eq_refl).
  assert (0 <= secs / 65536 < 256)
    by (split; [apply Z.div_pos | apply Z.div_lt_upper_bound]; lia).
  rewrite (lor_shiftl_byte (secs mod 256)) by lia.
  rewrite lor_shiftl_byte by lia.
  f_equal. ring.
Qed.

(** Extra: an exact [datetime.timedelta] is bound as a [MYSQL_TYPE_TIME]
    whose fields are read with the [PyDateTime_TIME_GET_*] macros of
    [datetime.time]: for [0 <= days < 256] the hour, minute and second
    come out 0 and the fraction holds the three low bytes of [seconds] in
    reversed order, whatever the value's real microseconds. *)
Theorem MySQLPrepStmt_execute_timedelta_bind args binds pend i tp days secs us str :
  MySQLPrepStmt_execute py_as_utf8 str_fallback args = ExecSent binds pend ->
  nth_error args i = Some (ODelta tp true days secs us str) ->
  0 <= days < 256 -> 0 <= secs < 86400 ->
  nth_error binds i =
  Some {| mb_type := MYSQL_TYPE_TIME;
          mb_buffer := BBTime {| tm_year := 0; tm_month := 0; tm_day := 0;
                                 tm_hour := 0; tm_minute := 0; tm_second := 0;
                                 tm_second_part := secs mod 256 * 65536 +
                                                   secs / 256 mod 256 * 256 + secs / 65536 |};
          mb_is_null := 0 |}.
Proof.
  intros H Hi Hd Hs. unfold MySQLPrepStmt_execute in H.
  destruct (bind_params_at _ _ _ _ _ _ _ _ H Hi) as (mb1 & p1 & l1 & p1' & _ & E & N & _).
  cbn [Nat.add] in E, N. unfold bind_param in E.
  rewrite (time_macros_on_delta_small days secs Hd Hs) in E.
  unfold set_bind in E. destruct (update_nth i _ mb1) as [l2|] eqn:U; [|discriminate E].
  inversion E; subst. rewrite N.
  destruct (update_nth_same_some _ _ _ _ U) as (x & _ & ->).
  destruct (Z.eqb_spec (secs mod 256 * 65536 + secs / 256 mod 256 * 256 + secs / 65536) 0)
    as [Z0|Z0]; [rewrite Z0|]; reflexivity.
Qed.
End ExecuteFacts.

Definition example_session : mysql_session :=
  {| sess_errno := 0; sess_error := ""; sess_sqlstate := "00000" |}.

Lemma MySQL_convert_to_mysql_rejects_subclasses_witness :
  (false = false /\ "Sub"%string <> "decimal.Decimal"%string) /\
  (MySQL_convert_to_mysql (fun _ b => Some b) (fun b => Some b) true example_session None false true
     [ODate "Sub" false 2024 1 5 (cstr_of "x"); ONone] =
   ConvRaised (snprintf 100 (cstr_of "Python type " ++ cstr_of "Sub" ++ cstr_of " cannot be converted")) /\
   MySQL_convert_to_mysql (fun _ b => Some b) (fun b => Some b) true example_session None false true
     [ODelta "Sub" false 0 3600 0 (cstr_of "x"); ONone] =
   ConvRaised (snprintf 100 (cstr_of "Python type " ++ cstr_of "Sub" ++ cstr_of " cannot be converted"))).
Proof.
  split; [split; [reflexivity | discriminate]|].
  apply MySQL_convert_to_mysql_rejects_subclasses; [reflexivity | discriminate].
Defined.

Lemma MySQL_convert_to_mysql_bytes_nul_witness :
  (true = true /\
   (fun b : cstr => Some b) (cstr_of "ab" ++ NUL :: cstr_of "cd") =
     Some (cstr_of "ab" ++ NUL :: cstr_of "cd") /\ ~ In NUL (cstr_of "ab")) /\
  MySQL_convert_to_mysql (fun _ b => Some b) (fun b => Some b) true example_session None false true
    [OBytes (cstr_of "ab" ++ NUL :: cstr_of "cd")] =
  match MySQL_convert_to_mysql (fun _ b => Some b) (fun b => Some b) true example_session None false true [] with
  | ConvTuple l => ConvTuple (("'"%char :: cstr_of "ab" ++ ["'"%char]) :: l)
  | r => r
  end.
Proof.
  split; [split; [reflexivity | split; [reflexivity | vm_compute; intros [H|[H|[]]]; discriminate]]|].
  apply MySQL_convert_to_mysql_bytes_nul with (post := cstr_of "cd");
    [reflexivity | reflexivity | vm_compute; intros [H|[H|[]]]; discriminate].
Defined.

Lemma MySQLPrepStmt_execute_int_overflow_witness :
  (MySQLPrepStmt_execute (fun s => s) false [ONone; OLong (2 ^ 64)] =
     ExecSent [{| mb_type := MYSQL_TYPE_NULL; mb_buffer := BBNullLit; mb_is_null := 1 |};
               {| mb_type := MYSQL_TYPE_LONGLONG; mb_buffer := BBLongLong (-1); mb_is_null := 0 |}]
              true /\
   nth_error [ONone; OLong (2 ^ 64)] 1 = Some (OLong (2 ^ 64)) /\
   (2 ^ 64 < - 2 ^ 63 \/ 2 ^ 63 <= 2 ^ 64)) /\
  (true = true /\
   nth_error [{| mb_type := MYSQL_TYPE_NULL; mb_buffer := BBNullLit; mb_is_null := 1 |};
              {| mb_type := MYSQL_TYPE_LONGLONG; mb_buffer := BBLongLong (-1); mb_is_null := 0 |}] 1 =
   Some {| mb_type := MYSQL_TYPE_LONGLONG; mb_buffer := BBLongLong (-1); mb_is_null := 0 |}).
Proof.
  split; [split; [vm_compute; reflexivity | split; [reflexivity | right; lia]]|].
  apply (MySQLPrepStmt_execute_int_overflow (fun s => s) false [ONone; OLong (2 ^ 64)]
           _ _ 1 (2 ^ 64)); [vm_compute; reflexivity | reflexivity | right; lia].
Defined.

Lemma MySQLPrepStmt_execute_decimal_out_of_bounds_witness :
  (nth_error [OLong 7; OOther "decimal.Decimal" (cstr_of "1.50")] 1 =
     Some (OOther "decimal.Decimal" (cstr_of "1.50")) /\ (2 <= 1 + 1)%nat) /\
  (MySQLPrepStmt_execute (fun s => s) true [OLong 7; OOther "decimal.Decimal" (cstr_of "1.50")] = ExecUB \/
   (true = false /\ exists m,
      MySQLPrepStmt_execute (fun s => s) true [OLong 7; OOther "decimal.Decimal" (cstr_of "1.50")] =
      ExecRaised m)).
Proof.
  split; [split; [reflexivity | lia]|].
  apply MySQLPrepStmt_execute_decimal_out_of_bounds with (i := 1%nat) (s := cstr_of "1.50");
    [reflexivity | cbn; lia].
Defined.

Lemma MySQLPrepStmt_execute_decimal_bind_witness :
  (MySQLPrepStmt_execute (fun s => s) false
     [OOther "decimal.Decimal" (cstr_of "1.50"); OLong 3; OLong 4] =
   ExecSent [{| mb_type := MYSQL_TYPE_DECIMAL; mb_buffer := BBBytes (cstr_of "1.50"); mb_is_null := 0 |};
             {| mb_type := MYSQL_TYPE_LONGLONG; mb_buffer := BBLongLong 3; mb_is_null := 0 |};
             {| mb_type := MYSQL_TYPE_LONGLONG; mb_buffer := BBLongLong 4; mb_is_null := 0 |}] false /\
   nth_error [OOther "decimal.Decimal" (cstr_of "1.50"); OLong 3; OLong 4] 0 =
     Some (OOther "decimal.Decimal" (cstr_of "1.50"))) /\
  nth_error [{| mb_type := MYSQL_TYPE_DECIMAL; mb_buffer := BBBytes (cstr_of "1.50"); mb_is_null := 0 |};
             {| mb_type := MYSQL_TYPE_LONGLONG; mb_buffer := BBLongLong 3; mb_is_null := 0 |};
             {| mb_type := MYSQL_TYPE_LONGLONG; mb_buffer := BBLongLong 4; mb_is_null := 0 |}] 0 =
  Some {| mb_type := MYSQL_TYPE_DECIMAL; mb_buffer := BBBytes (upto_nul (cstr_of "1.50"));
          mb_is_null := 0 |}.
Proof.
  split; [split; [vm_compute; reflexivity | reflexivity]|].
  apply (MySQLPrepStmt_execute_decimal_bind (fun s => s) false
           [OOther "decimal.Decimal" (cstr_of "1.50"); OLong 3; OLong 4] _ false 0);
    [vm_compute; reflexivity | reflexivity].
Defined.

Lemma MySQLPrepStmt_execute_timedelta_bind_witness :
  (MySQLPrepStmt_execute (fun s => s) false [ODelta "datetime.timedelta" true 0 3600 0 (cstr_of "1:00:00")] =
   ExecSent [{| mb_type := MYSQL_TYPE_TIME;
                mb_buffer := BBTime {| tm_year := 0; tm_month := 0; tm_day := 0; tm_hour := 0;
                                       tm_minute := 0; tm_second := 0; tm_second_part := 1052160 |};
                mb_is_null := 0 |}] false /\
   0 <= 0 < 256 /\ 0 <= 3600 < 86400) /\
  nth_error [{| mb_type := MYSQL_TYPE_TIME;
                mb_buffer := BBTime {| tm_year := 0; tm_month := 0; tm_day := 0; tm_hour := 0;
                                       tm_minute := 0; tm_second := 0; tm_second_part := 1052160 |};
                mb_is_null := 0 |}] 0 =
  Some {| mb_type := MYSQL_TYPE_TIME;
          mb_buffer := BBTime {| tm_year := 0; tm_month := 0; tm_day := 0; tm_hour := 0;
                                 tm_minute := 0; tm_second := 0;
                                 tm_second_part := 3600 mod 256 * 65536 + 3600 / 256 mod 256 * 256 +
                                                   3600 / 65536 |};
          mb_is_null := 0 |}.
Proof.
  split; [split; [vm_compute; reflexivity | lia]|].
  apply (MySQLPrepStmt_execute_timedelta_bind (fun s => s) false
           [ODelta "datetime.timedelta" true 0 3600 0 (cstr_of "1:00:00")] _ false 0
           "datetime.timedelta" 0 3600 0 (cstr_of "1:00:00"));
    [vm_compute; reflexivity | reflexivity | lia | lia].
Defined.
